(** * Billing and usage metering of the PhySO service

    A shallow embedding of the billing path of the repository:
    - [core/entities/*.py]: the entities, as records;
    - [infra/db/initialize_db_sqlite.py]: the schema and the seeded rows;
    - [infra/db/sqlite_repositories.py]: the SQLite repositories, as
      operations of a state-and-exception monad over the database;
    - [infra/physo/physo_service.py]: [calculate_cost] and [train];
    - [main_sync.py]: the handler [create_prediction_sync];
    - [PhySO-Telegram-Bot/services/user_service.py]: the credit account of
      the bot ([add_credits], [spend_credits]);
    - the listing queries, the two copies of [make_json_serializable] and
      [_prepare_physo_params].

    Money is [float] in the source; it is binary64 here (Rocq's primitive
    floats), so that sums and comparisons are the ones Python computes. *)

From Stdlib Require Import ZArith List String Bool Floats Lia Sorted
  Permutation.
From Stdlib Require Uint63.
From stdpp Require Import base gmap strings pretty.
Import ListNotations.

Set Warnings "-inexact-float".
#[local] Unset Default Proof Using.
#[local] Open Scope string_scope.
#[local] Open Scope Z_scope.

(* ===================================================================== *)
(** ** Binary64 arithmetic *)
(* ===================================================================== *)

Module Binary64.
#[local] Open Scope float_scope.

(** Python's conversion of an [int] to a [float] (round to nearest, ties to
    even); an integer beyond the range comes out as [infinity] here, where
    Python raises [OverflowError] (see [calculate_cost]). *)
Definition Z2float (z : Z) : float :=
  SF2Prim (binary_normalize prec emax z 0 false).

(** Python's built-in [sum]: a left fold that starts at 0. *)
Definition sum (l : list float) : float := fold_left PrimFloat.add l 0.

Definition SFnonneg (x : spec_float) : bool := SFleb (S754_zero false) x.

(** The sign bit is clear: [+0.0], a positive number or [+infinity]. *)
Definition SFunsigned (x : spec_float) : bool :=
  match x with
  | S754_zero s | S754_infinity s | S754_finite s _ _ => negb s
  | S754_nan => false
  end.

End Binary64.

(* ===================================================================== *)
(** ** Entities ([core/entities]) *)
(* ===================================================================== *)

(** A reading of [datetime.now()] or of SQLite's [CURRENT_TIMESTAMP], in
    milliseconds. *)
Definition datetime := Z.

(** A number between 0 and 2^63 - 1: what Python's [len()] returns (a
    [Py_ssize_t]), and a reading of the clock where the handler takes the
    difference of two readings (Python's [datetime] ends with the year
    9999, which in milliseconds is far below 2^63). *)
Definition int63 : Type := PrimInt63.int.

(** [metadata: Dict[str, Any]]: keys with their rendered values. *)
Definition Metadata := list (string * string).

Module User.
Record t := mk {
  id : Z;
  name : string;
  telegram_id : option string;
  balance : float;
  password_hash : option string;
  api_key : option string;
  created_at : option datetime }.

Definition set_balance (b : float) (u : t) : t :=
  mk (id u) (name u) (telegram_id u) b (password_hash u) (api_key u)
     (created_at u).
End User.

Module Model.
Record t := mk {
  id : Z;
  name : string;
  description : option string;
  base_price : float;
  epoch_price : float;
  is_active : bool }.
End Model.

Module Prediction.
Record t := mk {
  id : option Z;
  uuid : string;
  user_id : option Z;
  model_id : option Z;
  input_data : option string;
  y_name : string;
  x_names : option (list string);
  epochs : Z;
  op_names : option (list string);
  free_consts_names : option (list string);
  run_config : string;
  stop_reward : option float;   (* [float] in the entity; a row can hold
                                   NULL here, see [row_of] *)
  parallel_mode : bool;
  best_formula : option string;
  best_r2 : option float;
  pareto_count : Z;
  metadata : Metadata;
  total_cost : option float;
  status : string;
  created_at : option datetime;
  completed_at : option datetime;
  queue_time : option Z;
  process_time : option Z }.

Definition set_id (v : option Z) (p : t) : t :=
  mk v (uuid p) (user_id p) (model_id p) (input_data p) (y_name p)
     (x_names p) (epochs p) (op_names p) (free_consts_names p) (run_config p)
     (stop_reward p) (parallel_mode p) (best_formula p) (best_r2 p)
     (pareto_count p) (metadata p) (total_cost p) (status p) (created_at p)
     (completed_at p) (queue_time p) (process_time p).

Definition set_best_formula (v : option string) (p : t) : t :=
  mk (id p) (uuid p) (user_id p) (model_id p) (input_data p) (y_name p)
     (x_names p) (epochs p) (op_names p) (free_consts_names p) (run_config p)
     (stop_reward p) (parallel_mode p) v (best_r2 p)
     (pareto_count p) (metadata p) (total_cost p) (status p) (created_at p)
     (completed_at p) (queue_time p) (process_time p).

Definition set_best_r2 (v : option float) (p : t) : t :=
  mk (id p) (uuid p) (user_id p) (model_id p) (input_data p) (y_name p)
     (x_names p) (epochs p) (op_names p) (free_consts_names p) (run_config p)
     (stop_reward p) (parallel_mode p) (best_formula p) v
     (pareto_count p) (metadata p) (total_cost p) (status p) (created_at p)
     (completed_at p) (queue_time p) (process_time p).

Definition set_pareto_count (v : Z) (p : t) : t :=
  mk (id p) (uuid p) (user_id p) (model_id p) (input_data p) (y_name p)
     (x_names p) (epochs p) (op_names p) (free_consts_names p) (run_config p)
     (stop_reward p) (parallel_mode p) (best_formula p) (best_r2 p)
     v (metadata p) (total_cost p) (status p) (created_at p)
     (completed_at p) (queue_time p) (process_time p).

Definition set_metadata (v : Metadata) (p : t) : t :=
  mk (id p) (uuid p) (user_id p) (model_id p) (input_data p) (y_name p)
     (x_names p) (epochs p) (op_names p) (free_consts_names p) (run_config p)
     (stop_reward p) (parallel_mode p) (best_formula p) (best_r2 p)
     (pareto_count p) v (total_cost p) (status p) (created_at p)
     (completed_at p) (queue_time p) (process_time p).

Definition set_total_cost (v : option float) (p : t) : t :=
  mk (id p) (uuid p) (user_id p) (model_id p) (input_data p) (y_name p)
     (x_names p) (epochs p) (op_names p) (free_consts_names p) (run_config p)
     (stop_reward p) (parallel_mode p) (best_formula p) (best_r2 p)
     (pareto_count p) (metadata p) v (status p) (created_at p)
     (completed_at p) (queue_time p) (process_time p).

Definition set_status (v : string) (p : t) : t :=
  mk (id p) (uuid p) (user_id p) (model_id p) (input_data p) (y_name p)
     (x_names p) (epochs p) (op_names p) (free_consts_names p) (run_config p)
     (stop_reward p) (parallel_mode p) (best_formula p) (best_r2 p)
     (pareto_count p) (metadata p) (total_cost p) v (created_at p)
     (completed_at p) (queue_time p) (process_time p).

Definition set_completed_at (v : option datetime) (p : t) : t :=
  mk (id p) (uuid p) (user_id p) (model_id p) (input_data p) (y_name p)
     (x_names p) (epochs p) (op_names p) (free_consts_names p) (run_config p)
     (stop_reward p) (parallel_mode p) (best_formula p) (best_r2 p)
     (pareto_count p) (metadata p) (total_cost p) (status p) (created_at p)
     v (queue_time p) (process_time p).

Definition set_process_time (v : option Z) (p : t) : t :=
  mk (id p) (uuid p) (user_id p) (model_id p) (input_data p) (y_name p)
     (x_names p) (epochs p) (op_names p) (free_consts_names p) (run_config p)
     (stop_reward p) (parallel_mode p) (best_formula p) (best_r2 p)
     (pareto_count p) (metadata p) (total_cost p) (status p) (created_at p)
     (completed_at p) (queue_time p) v.
End Prediction.

Module Transaction.
Record t := mk {
  id : option Z;
  user_id : option Z;
  amount : float;
  description : option string;
  prediction_id : option Z;
  created_at : option datetime }.
End Transaction.

(* ===================================================================== *)
(** ** The database ([infra/db]) *)
(* ===================================================================== *)

(** The four tables of [initialize_sqlite_database], rows in rowid order,
    and the [AUTOINCREMENT] counters of the two tables the service inserts
    into (the last rowid handed out). *)
Record Store := mkStore {
  users : list User.t;
  models : list Model.t;
  predictions : list Prediction.t;
  transactions : list Transaction.t;
  predictions_seq : Z;
  transactions_seq : Z }.

Definition set_users (v : list User.t) (db : Store) : Store :=
  mkStore v (models db) (predictions db) (transactions db)
          (predictions_seq db) (transactions_seq db).

Definition set_predictions (v : list Prediction.t) (db : Store) : Store :=
  mkStore (users db) (models db) v (transactions db)
          (predictions_seq db) (transactions_seq db).

(** The [detail] of the HTTP errors the endpoints raise. *)
Inductive Detail : Type :=
| InvalidAPIKey                (* "Invalid API key" *)
| APIKeyDoesNotMatchUser       (* "API key does not match user" *)
| InsufficientBalance          (* "Insufficient balance" *)
| NoActiveModelAvailable       (* "No active model available" *)
| InsufficientBalanceRequired (required available : float)
    (* "Insufficient balance. Required: $.., Available: $.." *)
| PredictionFailed (reason : string)   (* "Prediction failed: .." *)
| AccessDenied                 (* "Access denied" *)
| NoAccessToPredictions.
    (* "API key does not grant access to this user's predictions" *)

(** The exceptions of the billing path: FastAPI's [HTTPException],
    Python's [OverflowError], [sqlite3.IntegrityError] and
    [sqlite3.OperationalError], and pydantic's [ValidationError] (its text
    depends on the version of pydantic: the model keeps the name of the
    field). *)
Inductive Exn : Type :=
| HTTPException (status_code : Z) (detail : Detail)
| OverflowError (msg : string)
| IntegrityError (msg : string)
| OperationalError (msg : string)
| ValidationError (field : string).

(** [str(e)] *)
Definition exn_str (e : Exn) : string :=
  match e with
  | HTTPException _ _ => ""
  | OverflowError msg => msg
  | IntegrityError msg => msg
  | OperationalError msg => msg
  | ValidationError field => field
  end.

Inductive Result (A : Type) : Type :=
| Ok (a : A)
| Raise (e : Exn).
Arguments Ok {A} a.
Arguments Raise {A} e.

(** Every repository call opens a connection, runs one statement and
    commits: a computation reads and writes the store and may raise; what
    was committed before an exception stays committed. *)
Definition M (A : Type) : Type := Store -> Result A * Store.

Definition ret {A} (a : A) : M A := fun db => (Ok a, db).
Definition raise {A} (e : Exn) : M A := fun db => (Raise e, db).
Definition bind {A B} (m : M A) (k : A -> M B) : M B :=
  fun db => match m db with
            | (Ok a, db') => k a db'
            | (Raise e, db') => (Raise e, db')
            end.
(** [try: m  except Exception as e: h e] *)
Definition try_except {A} (m : M A) (h : Exn -> M A) : M A :=
  fun db => match m db with
            | (Ok a, db') => (Ok a, db')
            | (Raise e, db') => h e db'
            end.
Definition get : M Store := fun db => (Ok db, db).
Definition put (db' : Store) : M unit := fun _ => (Ok tt, db').
Definition lift {A} (r : Result A) : M A :=
  match r with
  | Ok a => ret a
  | Raise e => raise e
  end.

Notation "'let*' x ':=' m 'in' k" := (bind m (fun x => k))
  (at level 10, x name, m at level 100, k at level 200).
Notation "m ;;; k" := (bind m (fun _ => k))
  (at level 100, k at level 200, right associativity).

(** What a REAL column gives back for a bound [float] that is a number: the
    value itself, but for [-0.0], which is stored as the integer 0 and
    read back as [0.0]. *)
Definition real_value (f : float) : float :=
  if (f =? 0)%float then 0%float else f.

(** What SQLite stores for a bound Python value. A NaN is stored as NULL;
    [json.dumps(x) if x else None] stores an empty list as NULL. *)
Definition sql_real (x : option float) : option float :=
  match x with
  | Some f => if PrimFloat.is_nan f then None else Some (real_value f)
  | None => None
  end.

Definition json_or_null {A} (x : option (list A)) : option (list A) :=
  match x with
  | Some [] => None
  | _ => x
  end.

(** SQLite's INTEGER is a signed 64-bit integer; binding a larger Python
    [int] raises [OverflowError]. *)
Definition fits_sqlite_integer (z : Z) : bool :=
  (- 2 ^ 63 <=? z) && (z <? 2 ^ 63).

Definition fits_bound (x : option Z) : bool :=
  match x with
  | Some z => fits_sqlite_integer z
  | None => true
  end.

(** A statement that fails while it runs (a constraint) leaves its
    connection holding the write lock of the database for as long as the
    exception is alive: [finally: conn.close()] does not release it while
    the traceback of the exception still refers to the cursor. An
    exception raised while the parameters are bound ([OverflowError]) or
    by a full database comes with no lock. *)
Definition holds_write_lock (e : Exn) : bool :=
  match e with
  | IntegrityError _ => true
  | _ => false
  end.

(** [cursor.execute(sql, params)] on a connection of its own: the [int]
    parameters are bound first; a statement that writes then waits for
    the write lock (five seconds, the default [timeout] of
    [sqlite3.connect]) and gives up if another connection keeps it; then
    the statement runs. [locked] is false for a [SELECT], which the lock
    of a writer does not stop. *)
Definition statement {A} (params : list (option Z)) (locked : bool)
    (run : M A) : M A :=
  if negb (List.forallb fits_bound params)
  then raise (OverflowError
                "Python int too large to convert to SQLite INTEGER")
  else if locked
  then raise (OperationalError "database is locked")
  else run.

Definition option_Z_eqb (a b : option Z) : bool :=
  match a, b with
  | Some x, Some y => x =? y
  | _, _ => false   (* NULL = anything is not true *)
  end.

Definition option_string_eqb (a : option string) (b : string) : bool :=
  match a with
  | Some x => String.eqb x b
  | None => false
  end.

Module SQLiteUserRepository.

(** [SELECT * FROM users WHERE api_key = ?], [fetchone] *)
Definition get_by_api_key (api_key : string) : M (option User.t) :=
  let* db := get in
  ret (List.find (fun u => option_string_eqb (User.api_key u) api_key)
                 (users db)).

(** [SELECT * FROM users WHERE id = ?], [fetchone] *)
Definition get_by_id (user_id : Z) : M (option User.t) :=
  statement [Some user_id] false
    (let* db := get in
     ret (List.find (fun u => User.id u =? user_id) (users db))).

(** [UPDATE users SET balance = ? WHERE id = ?]; [balance] is
    [REAL NOT NULL]: a NaN is bound as NULL and refused when a row
    matches. Returns [rowcount > 0]. *)
Definition update_balance (user_id : Z) (new_balance : float) : M bool :=
  statement [Some user_id] false
    (let* db := get in
     match sql_real (Some new_balance) with
     | None =>
         if List.existsb (fun u => User.id u =? user_id) (users db)
         then raise (IntegrityError
                       "NOT NULL constraint failed: users.balance")
         else ret false
     | Some stored =>
         put (set_users
                (List.map (fun u => if User.id u =? user_id
                                    then User.set_balance stored u else u)
                          (users db)) db) ;;;
         ret (List.existsb (fun u => User.id u =? user_id) (users db))
     end).

End SQLiteUserRepository.

Module SQLiteModelRepository.

(** [SELECT * FROM models WHERE is_active = 1 LIMIT 1], [fetchone]: the
    first active row in rowid order. *)
Definition get_active_model : M (option Model.t) :=
  let* db := get in
  ret (List.find Model.is_active (models db)).

End SQLiteModelRepository.

Module SQLitePredictionRepository.

(** The row the table holds for the values bound from an entity: a NaN
    of [stop_reward], [best_r2] or [total_cost] is stored as NULL. *)
Definition row_of (p : Prediction.t) : Prediction.t :=
  Prediction.mk
    (Prediction.id p) (Prediction.uuid p) (Prediction.user_id p)
    (Prediction.model_id p) (Prediction.input_data p) (Prediction.y_name p)
    (json_or_null (Prediction.x_names p)) (Prediction.epochs p)
    (json_or_null (Prediction.op_names p))
    (json_or_null (Prediction.free_consts_names p))
    (Prediction.run_config p) (sql_real (Prediction.stop_reward p))
    (Prediction.parallel_mode p) (Prediction.best_formula p)
    (sql_real (Prediction.best_r2 p)) (Prediction.pareto_count p)
    (Prediction.metadata p) (sql_real (Prediction.total_cost p))
    (Prediction.status p) (Prediction.created_at p)
    (Prediction.completed_at p) (Prediction.queue_time p)
    (Prediction.process_time p).

(** [_map_row_to_prediction]: [stop_reward] is a [float] of the
    pydantic model, which does not take the [None] of a NULL. *)
Definition _map_row_to_prediction (row : Prediction.t)
  : Result Prediction.t :=
  match Prediction.stop_reward row with
  | None => Raise (ValidationError "stop_reward")
  | Some _ => Ok row
  end.

(** [INSERT INTO predictions (uuid, user_id, ..., process_time)]; the
    entity gets [cursor.lastrowid]. The rowid comes from the
    [AUTOINCREMENT] counter, and there is none after 2^63 - 1; [user_id],
    [model_id] and [input_data] are [NOT NULL]; [uuid] is [UNIQUE]. SQLite
    makes the checks in this order. *)
Definition add (prediction : Prediction.t) : M Prediction.t :=
  statement
    [Prediction.user_id prediction; Prediction.model_id prediction;
     Some (Prediction.epochs prediction);
     Some (Prediction.pareto_count prediction);
     Prediction.queue_time prediction; Prediction.process_time prediction]
    false
    (let* db := get in
     let lastrowid := predictions_seq db + 1 in
     if negb (fits_sqlite_integer lastrowid)
     then raise (OperationalError "database or disk is full")
     else match Prediction.user_id prediction,
                Prediction.model_id prediction,
                Prediction.input_data prediction with
     | None, _, _ =>
         raise (IntegrityError
                  "NOT NULL constraint failed: predictions.user_id")
     | Some _, None, _ =>
         raise (IntegrityError
                  "NOT NULL constraint failed: predictions.model_id")
     | Some _, Some _, None =>
         raise (IntegrityError
                  "NOT NULL constraint failed: predictions.input_data")
     | Some _, Some _, Some _ =>
         if List.existsb (fun r => String.eqb (Prediction.uuid r)
                                              (Prediction.uuid prediction))
                         (predictions db)
         then raise (IntegrityError
                       "UNIQUE constraint failed: predictions.uuid")
         else
           let prediction := Prediction.set_id (Some lastrowid) prediction in
           put (mkStore (users db) (models db)
                        (predictions db ++ [row_of prediction])
                        (transactions db) lastrowid (transactions_seq db)) ;;;
           ret prediction
     end).

(** [UPDATE predictions SET input_data = ?, y_name = ?, x_names = ?,
    epochs = ?, op_names = ?, free_consts_names = ?, run_config = ?,
    stop_reward = ?, parallel_mode = ?, best_formula = ?, best_r2 = ?,
    pareto_count = ?, metadata = ?, total_cost = ?, status = ?,
    completed_at = ?, queue_time = ?, process_time = ? WHERE id = ?] *)
Definition update_row (prediction row : Prediction.t) : Prediction.t :=
  let p := row_of prediction in
  Prediction.mk
    (Prediction.id row) (Prediction.uuid row) (Prediction.user_id row)
    (Prediction.model_id row) (Prediction.input_data p) (Prediction.y_name p)
    (Prediction.x_names p) (Prediction.epochs p) (Prediction.op_names p)
    (Prediction.free_consts_names p) (Prediction.run_config p)
    (Prediction.stop_reward p) (Prediction.parallel_mode p)
    (Prediction.best_formula p) (Prediction.best_r2 p)
    (Prediction.pareto_count p) (Prediction.metadata p)
    (Prediction.total_cost p) (Prediction.status p)
    (Prediction.created_at row) (Prediction.completed_at p)
    (Prediction.queue_time p) (Prediction.process_time p).

(** [update], called while another connection keeps the write lock
    ([locked]) or not. [input_data] is [NOT NULL]: a [None] is refused
    when a row matches. Returns [rowcount > 0]. *)
Definition update_while (locked : bool) (prediction : Prediction.t)
  : M bool :=
  statement
    [Some (Prediction.epochs prediction);
     Some (Prediction.pareto_count prediction);
     Prediction.queue_time prediction; Prediction.process_time prediction;
     Prediction.id prediction]
    locked
    (let* db := get in
     let hit r := option_Z_eqb (Prediction.id r) (Prediction.id prediction) in
     match Prediction.input_data prediction with
     | None =>
         if List.existsb hit (predictions db)
         then raise (IntegrityError
                       "NOT NULL constraint failed: predictions.input_data")
         else ret false
     | Some _ =>
         put (set_predictions
                (List.map (fun r => if hit r then update_row prediction r
                                    else r)
                          (predictions db)) db) ;;;
         ret (List.existsb hit (predictions db))
     end).

Definition update (prediction : Prediction.t) : M bool :=
  update_while false prediction.

(** [SELECT * FROM predictions WHERE uuid = ?], [fetchone] *)
Definition get_by_uuid (uuid : string) : M (option Prediction.t) :=
  let* db := get in
  match List.find (fun r => String.eqb (Prediction.uuid r) uuid)
                  (predictions db) with
  | None => ret None
  | Some row =>
      let* prediction := lift (_map_row_to_prediction row) in
      ret (Some prediction)
  end.

End SQLitePredictionRepository.

Module SQLiteTransactionRepository.

(** [INSERT INTO transactions (user_id, amount, description,
    prediction_id)]; [user_id] and [amount] are [NOT NULL], [created_at]
    defaults to [CURRENT_TIMESTAMP] (the reading [now]). The entity gets
    [cursor.lastrowid]. The handler inserts a transaction only after it
    has inserted a prediction, so that in a database whose two counters
    started together the counter of the predictions is the first to run
    out (see [SQLitePredictionRepository.add]); a counter of the
    transactions that has run out on its own, like a full disk, is
    outside the model. *)
Definition add (now : datetime) (transaction : Transaction.t)
  : M Transaction.t :=
  statement
    [Transaction.user_id transaction; Transaction.prediction_id transaction]
    false
    (let* db := get in
     match Transaction.user_id transaction,
           sql_real (Some (Transaction.amount transaction)) with
     | None, _ =>
         raise (IntegrityError
                  "NOT NULL constraint failed: transactions.user_id")
     | Some _, None =>
         raise (IntegrityError
                  "NOT NULL constraint failed: transactions.amount")
     | Some _, Some stored =>
         let lastrowid := transactions_seq db + 1 in
         let row := Transaction.mk
                      (Some lastrowid) (Transaction.user_id transaction)
                      stored
                      (Transaction.description transaction)
                      (Transaction.prediction_id transaction) (Some now) in
         put (mkStore (users db) (models db) (predictions db)
                      (transactions db ++ [row])
                      (predictions_seq db) lastrowid) ;;;
         ret (Transaction.mk
                (Some lastrowid) (Transaction.user_id transaction)
                (Transaction.amount transaction)
                (Transaction.description transaction)
                (Transaction.prediction_id transaction)
                (Transaction.created_at transaction))
     end).

(** The rows of [WHERE user_id = ?], in rowid order. *)
Definition rows_of_user (user_id : Z) (db : Store) : list Transaction.t :=
  List.filter (fun t => option_Z_eqb (Transaction.user_id t) (Some user_id))
              (transactions db).

End SQLiteTransactionRepository.

(** The database [initialize_sqlite_database] creates: three
    configurations, all active, and the user [admin]. *)
Definition initialize_sqlite_database (now : datetime) : Store :=
  mkStore
    [ User.mk 1 "admin" None 10.0%float None (Some "test-api-key-123")
              (Some now) ]
    [ Model.mk 1 "config0" (Some "Basic PhySO configuration")
               0.01%float 0.001%float true;
      Model.mk 2 "config1" (Some "Extended PhySO configuration")
               0.02%float 0.002%float true;
      Model.mk 3 "config2" (Some "Advanced PhySO configuration")
               0.03%float 0.003%float true ]
    [] [] 0 0.

(* ===================================================================== *)
(** ** The costed-work engine ([infra/physo/physo_service.py]) *)
(* ===================================================================== *)

Module PhySoService.
Import Binary64.

(** [return base_price + (epoch_price * epochs)], with [epochs] an [int]:
    Python converts it to a [float] first and raises [OverflowError] when
    it is out of range. *)
Definition calculate_cost (base_price epoch_price : float) (epochs : Z)
  : Result float :=
  let n := Z2float epochs in
  if PrimFloat.is_infinity n
  then Raise (OverflowError "int too large to convert to float")
  else Ok (base_price + epoch_price * n)%float.

(** What the body of [train]'s [try] block comes to: the results of
    [physo.SR] after [_process_results] and [_load_pareto_csv], or an
    exception (a malformed CSV, a missing column, a failure of the
    library). The symbolic regression itself is outside the model. *)
Record SRResults := mkSRResults {
  formula : string;
  r2 : option float;
  sr_pareto_count : int63;      (* [len(pareto_df)], or 0 *)
  sr_metadata : Metadata;
  sr_pareto_csv : option string }.

Inductive SROutcome : Type :=
| SRReturned (results : SRResults)
| SRRaised (e : string).

(** The dictionary [train] returns. *)
Record TrainResult := mkTrainResult {
  success : bool;
  message : string;
  best_formula : option string;
  best_r2 : option float;
  pareto_count : Z;
  metadata : Metadata;
  pareto_csv : option string }.

(** [train]: any exception of the engine is caught and reported as
    [success = False]. *)
Definition train (outcome : SROutcome) : TrainResult :=
  match outcome with
  | SRReturned results =>
      mkTrainResult true "Обучение завершено успешно"
                    (Some (formula results)) (r2 results)
                    (Uint63.to_Z (sr_pareto_count results))
                    (sr_metadata results) (sr_pareto_csv results)
  | SRRaised e =>
      mkTrainResult false ("Ошибка обучения: " ++ e) None None 0 [] None
  end.

End PhySoService.

(* ===================================================================== *)
(** ** The service ([main_sync.py]) *)
(* ===================================================================== *)

Module Service.
Import Binary64.

Module user_repo := SQLiteUserRepository.
Module model_repo := SQLiteModelRepository.
Module prediction_repo := SQLitePredictionRepository.
Module transaction_repo := SQLiteTransactionRepository.
Module physo_service := PhySoService.

Record PredictionCreateRequest := mkRequest {
  user_id : Z;
  input_data : string;
  y_name : string;
  x_names : option (list string);
  epochs : Z;
  op_names : option (list string);
  free_consts_names : option (list string);
  run_config : string;
  stop_reward : float;
  parallel_mode : bool }.

(** The prediction with the [pareto_csv] of the engine. *)
Definition PredictionResponse : Type := Prediction.t * option string.

(** What one request takes from outside the program: the [uuid4] drawn for
    the entity, the readings of the clocks and the outcome of the engine. *)
Record World := mkWorld {
  uuid4 : string;
  now_created : datetime;      (* [created_at]'s default factory *)
  now_start : int63;           (* [start_time] *)
  now_trained : int63;         (* the reading after [train] returns *)
  now_completed : datetime;    (* [completed_at] in the [try] block *)
  now_failed : datetime;       (* [completed_at] in the [except] block *)
  now_db : datetime;           (* [CURRENT_TIMESTAMP] of the transaction *)
  engine : PhySoService.SROutcome }.

(** [f"PhySO prediction {pred.uuid} ({request.epochs} epochs)"] *)
Definition charge_description (uuid : string) (epochs : Z) : string :=
  "PhySO prediction " ++ uuid ++ " (" ++ pretty epochs ++ " epochs)".

(** The assignments of the [try] block to the entity, up to the first
    repository call. The entity is one mutable object: the [except] block
    sees them. *)
Definition with_results (r : PhySoService.TrainResult) (total_cost : float)
    (process_time_ms : Z) (completed_at : datetime) (pred : Prediction.t)
  : Prediction.t :=
  Prediction.set_completed_at (Some completed_at)
    (Prediction.set_process_time (Some process_time_ms)
      (Prediction.set_status
         (if PhySoService.success r then "completed" else "failed")
         (Prediction.set_total_cost (Some total_cost)
           (Prediction.set_metadata (PhySoService.metadata r)
             (Prediction.set_pareto_count (PhySoService.pareto_count r)
               (Prediction.set_best_r2 (PhySoService.best_r2 r)
                 (Prediction.set_best_formula (PhySoService.best_formula r)
                                              pred))))))).

(** The assignments of the [except] block. *)
Definition with_failure (e : Exn) (completed_at : datetime)
    (pred : Prediction.t) : Prediction.t :=
  Prediction.set_best_formula (Some ("Error: " ++ exn_str e))
    (Prediction.set_completed_at (Some completed_at)
      (Prediction.set_status "failed" pred)).

(** [POST /api/v1/predictions/] *)
Definition create_prediction_sync (request : PredictionCreateRequest)
    (x_api_key : string) (w : World) : M PredictionResponse :=
  let* api_user := user_repo.get_by_api_key x_api_key in
  match api_user with
  | None => raise (HTTPException 401 InvalidAPIKey)
  | Some api_user =>
  if negb (User.id api_user =? user_id request)
  then raise (HTTPException 403 APIKeyDoesNotMatchUser)
  else
  if (User.balance api_user <=? 0)%float
  then raise (HTTPException 402 InsufficientBalance)
  else
  let* model := model_repo.get_active_model in
  match model with
  | None => raise (HTTPException 503 NoActiveModelAvailable)
  | Some model =>
  let* total_cost :=
    lift (physo_service.calculate_cost (Model.base_price model)
            (Model.epoch_price model) (epochs request)) in
  if (User.balance api_user <? total_cost)%float
  then raise (HTTPException 402
                (InsufficientBalanceRequired total_cost
                                             (User.balance api_user)))
  else
  let pred :=
    Prediction.mk None (uuid4 w) (Some (User.id api_user))
      (Some (Model.id model)) (Some (input_data request)) (y_name request)
      (x_names request) (epochs request) (op_names request)
      (free_consts_names request) (run_config request)
      (Some (stop_reward request)) (parallel_mode request)
      None None 0 [] None "processing" (Some (now_created w))
      None None None in
  let* pred := prediction_repo.add pred in
  let physo_result := physo_service.train (engine w) in
  let process_time_ms :=
    Uint63.to_Z (now_trained w) - Uint63.to_Z (now_start w) in
  let pred :=
    with_results physo_result total_cost process_time_ms (now_completed w)
                 pred in
  try_except
    (prediction_repo.update pred ;;;
     let new_balance := (User.balance api_user - total_cost)%float in
     user_repo.update_balance (User.id api_user) new_balance ;;;
     let transaction :=
       Transaction.mk None (Some (User.id api_user)) (- total_cost)%float
         (Some (charge_description (Prediction.uuid pred) (epochs request)))
         (Prediction.id pred) None in
     transaction_repo.add (now_db w) transaction ;;;
     ret (pred, PhySoService.pareto_csv physo_result))
    (fun e =>
       let pred := with_failure e (now_failed w) pred in
       (* [e] is alive in the [except] block *)
       prediction_repo.update_while (holds_write_lock e) pred ;;;
       raise (HTTPException 500 (PredictionFailed (exn_str e))))
  end
  end.

(** [GET /api/v1/users/{user_id}/balance] *)
Definition get_user_balance (user_id : Z) (x_api_key : string) : M float :=
  let* api_user := user_repo.get_by_api_key x_api_key in
  match api_user with
  | None => raise (HTTPException 401 InvalidAPIKey)
  | Some api_user =>
      if negb (User.id api_user =? user_id)
      then raise (HTTPException 403 AccessDenied)
      else ret (User.balance api_user)
  end.

(** A request as the bot sends it: [epochs] units of [config0] on a CSV. *)
Definition sample_request (epochs : Z) : PredictionCreateRequest :=
  mkRequest 1 "x,y" "y" None epochs None None "config0" 0.999%float false.

Definition sample_results : PhySoService.SRResults :=
  PhySoService.mkSRResults "x" (Some 1%float) (Uint63.of_Z 1) [] None.

Definition sample_world (uuid : string) (o : PhySoService.SROutcome)
  : World :=
  mkWorld uuid 0 (Uint63.of_Z 0) (Uint63.of_Z 0) 0 0 0 o.

End Service.

(* ===================================================================== *)
(** ** The credit account of the bot
       ([PhySO-Telegram-Bot/services/user_service.py]) *)
(* ===================================================================== *)

Module UserService.

(** [config/settings.py] *)
Definition DEFAULT_CREDITS : Z := 100.

(** The dictionary kept for one user in [users.json]. *)
Record user_data := mk_user_data {
  telegram_id : string;
  username : option string;
  first_name : option string;
  name : string;
  credits : Z;
  total_predictions : Z;
  created_at : datetime;
  physo_user_id : Z;
  physo_api_key : string }.

Definition set_credits (v : Z) (u : user_data) : user_data :=
  mk_user_data (telegram_id u) (username u) (first_name u) (name u) v
               (total_predictions u) (created_at u) (physo_user_id u)
               (physo_api_key u).

Definition set_total_predictions (v : Z) (u : user_data) : user_data :=
  mk_user_data (telegram_id u) (username u) (first_name u) (name u)
               (credits u) v (created_at u) (physo_user_id u)
               (physo_api_key u).

(** A row of [credit_history.csv]:
    [timestamp, telegram_id, delta, new_balance]. *)
Definition credit_row : Type := datetime * string * Z * Z.

(** The singleton: [self.users] and the rows appended to the credit log.
    Every method below runs under [self._lock], so it is one step. *)
Record t := mk {
  users : gmap string user_data;
  credit_log : list credit_row }.

Definition _get_user_internal (telegram_id : string) (self : t)
  : option user_data :=
  users self !! telegram_id.

Definition get_user (telegram_id : string) (self : t) : option user_data :=
  _get_user_internal telegram_id self.

(** Python's truth value of an optional string: [None] and [""] are
    false. *)
Definition truthy (s : option string) : option string :=
  match s with
  | Some "" => None
  | _ => s
  end.

(** [name = first_name or username or f"User_{telegram_id}"] *)
Definition create_user (now : datetime) (telegram_id : string)
    (username first_name : option string) (self : t) : user_data * t :=
  let name :=
    match truthy first_name, truthy username with
    | Some n, _ => n
    | None, Some m => m
    | None, None => "User_" ++ telegram_id
    end in
  let user_data :=
    mk_user_data telegram_id username first_name name DEFAULT_CREDITS 0 now
                 1 "test-api-key-123" in
  (user_data, mk (<[telegram_id := user_data]> (users self))
                 (credit_log self)).

Definition get_or_create_user (now : datetime) (telegram_id : string)
    (username first_name : option string) (self : t) : user_data * t :=
  match _get_user_internal telegram_id self with
  | Some user => (user, self)
  | None => create_user now telegram_id username first_name self
  end.

Definition add_credits (now : datetime) (telegram_id : string) (amount : Z)
    (self : t) : option user_data * t :=
  match _get_user_internal telegram_id self with
  | None => (None, self)
  | Some user =>
      let user := set_credits (credits user + amount) user in
      (Some user,
       mk (<[telegram_id := user]> (users self))
          (credit_log self ++ [(now, telegram_id, amount, credits user)]))
  end.

Definition spend_credits (now : datetime) (telegram_id : string)
    (amount : Z) (self : t) : option user_data * t :=
  match _get_user_internal telegram_id self with
  | None => (None, self)
  | Some user =>
      if credits user <? amount then (None, self)
      else
        let user := set_credits (credits user - amount) user in
        let user :=
          set_total_predictions (total_predictions user + 1) user in
        (Some user,
         mk (<[telegram_id := user]> (users self))
            (credit_log self ++ [(now, telegram_id, - amount, credits user)]))
  end.

Definition get_credits (telegram_id : string) (self : t) : Z :=
  match get_user telegram_id self with
  | Some user => credits user
  | None => 0
  end.

End UserService.

(* ===================================================================== *)
(** ** Reachable states, and views of the handler used in the proofs *)
(* ===================================================================== *)

Module Billing.
Import Binary64 Service.

(** The states of the database the service can reach from [db0]: the
    other endpoints of [main_sync.py] only read. *)
Inductive reachable (db0 : Store) : Store -> Prop :=
| reachable_init : reachable db0 db0
| reachable_request db request x_api_key w :
    reachable db0 db ->
    reachable db0 (snd (create_prediction_sync request x_api_key w db)).

(** The ledger of an account: its transactions, oldest first. *)
Definition ledger_of (user_id : Z) (db : Store) : list float :=
  List.map Transaction.amount (transaction_repo.rows_of_user user_id db).


(** The checks the handler makes before it admits a request, in the order
    it makes them, as one function ([create_prediction_sync_authorize]
    relates it to the handler). *)
Definition authorize (request : PredictionCreateRequest)
    (x_api_key : string) (db : Store) : Result (User.t * Model.t * float) :=
  match List.find (fun u => option_string_eqb (User.api_key u) x_api_key)
                  (users db) with
  | None => Raise (HTTPException 401 InvalidAPIKey)
  | Some api_user =>
  if negb (User.id api_user =? user_id request)
  then Raise (HTTPException 403 APIKeyDoesNotMatchUser)
  else if (User.balance api_user <=? 0)%float
  then Raise (HTTPException 402 InsufficientBalance)
  else match List.find Model.is_active (models db) with
  | None => Raise (HTTPException 503 NoActiveModelAvailable)
  | Some model =>
  match physo_service.calculate_cost (Model.base_price model)
          (Model.epoch_price model) (epochs request) with
  | Raise e => Raise e
  | Ok total_cost =>
  if (User.balance api_user <? total_cost)%float
  then Raise (HTTPException 402
                (InsufficientBalanceRequired total_cost
                                             (User.balance api_user)))
  else Ok (api_user, model, total_cost)
  end end end.

(** [UPDATE users SET balance = ? WHERE id = ?] on the table. *)
Definition debit (user_id : Z) (new_balance : float) (us : list User.t)
  : list User.t :=
  List.map (fun u => if User.id u =? user_id
                     then User.set_balance new_balance u else u) us.

(** [UPDATE predictions SET ... WHERE id = ?] on the table. *)
Definition rewrite_rows (prediction : Prediction.t)
    (rows : list Prediction.t) : list Prediction.t :=
  List.map (fun r => if option_Z_eqb (Prediction.id r)
                                     (Prediction.id prediction)
                     then prediction_repo.update_row prediction r else r)
           rows.

(** [INSERT] is refused: an id or the unit count does not fit SQLite's
    INTEGER, the rowids have run out, or the uuid is taken. *)
Definition insert_error (api_user : User.t) (model : Model.t)
    (request : PredictionCreateRequest) (w : World) (db : Store)
  : option Exn :=
  if negb (fits_sqlite_integer (User.id api_user)
           && fits_sqlite_integer (Model.id model)
           && fits_sqlite_integer (epochs request))
  then Some (OverflowError
               "Python int too large to convert to SQLite INTEGER")
  else if negb (fits_sqlite_integer (predictions_seq db + 1))
  then Some (OperationalError "database or disk is full")
  else if List.existsb (fun r => String.eqb (Prediction.uuid r) (uuid4 w))
                       (predictions db)
  then Some (IntegrityError "UNIQUE constraint failed: predictions.uuid")
  else None.

(** The entity as the handler holds it after the assignments of the [try]
    block. *)
Definition settled_entity (api_user : User.t) (model : Model.t)
    (total_cost : float) (request : PredictionCreateRequest) (w : World)
    (db : Store) : Prediction.t :=
  with_results (physo_service.train (engine w)) total_cost
    (Uint63.to_Z (now_trained w) - Uint63.to_Z (now_start w))
    (now_completed w)
    (Prediction.mk (Some (predictions_seq db + 1)) (uuid4 w)
       (Some (User.id api_user)) (Some (Model.id model))
       (Some (input_data request)) (y_name request) (x_names request)
       (epochs request) (op_names request) (free_consts_names request)
       (run_config request) (Some (stop_reward request))
       (parallel_mode request)
       None None 0 [] None "processing" (Some (now_created w))
       None None None).

Definition charge_of (api_user : User.t) (total_cost : float)
    (request : PredictionCreateRequest) (w : World) (db : Store)
  : Transaction.t :=
  Transaction.mk (Some (transactions_seq db + 1)) (Some (User.id api_user))
    (real_value (- total_cost))
    (Some (charge_description (uuid4 w) (epochs request)))
    (Some (predictions_seq db + 1)) (Some (now_db w)).

(** What one request does to the database. *)
Inductive run (request : PredictionCreateRequest) (x_api_key : string)
    (w : World) (db : Store) : Result PredictionResponse -> Store -> Prop :=
| run_rejected e :
    authorize request x_api_key db = Raise e ->
    run request x_api_key w db (Raise e) db
| run_not_inserted api_user model total_cost e :
    authorize request x_api_key db = Ok (api_user, model, total_cost) ->
    insert_error api_user model request w db = Some e ->
    run request x_api_key w db (Raise e) db
| run_settled api_user model total_cost :
    authorize request x_api_key db = Ok (api_user, model, total_cost) ->
    insert_error api_user model request w db = None ->
    PrimFloat.is_nan (User.balance api_user - total_cost) = false ->
    let pred := settled_entity api_user model total_cost request w db in
    run request x_api_key w db
      (Ok (pred, PhySoService.pareto_csv (physo_service.train (engine w))))
      (mkStore
         (debit (User.id api_user) (User.balance api_user - total_cost)
                (users db))
         (models db)
         (rewrite_rows pred (predictions db) ++ [prediction_repo.row_of pred])
         (transactions db ++ [charge_of api_user total_cost request w db])
         (predictions_seq db + 1) (transactions_seq db + 1))
| run_locked api_user model total_cost :
    authorize request x_api_key db = Ok (api_user, model, total_cost) ->
    insert_error api_user model request w db = None ->
    PrimFloat.is_nan (User.balance api_user - total_cost) = true ->
    let pred := settled_entity api_user model total_cost request w db in
    run request x_api_key w db
      (Raise (OperationalError "database is locked"))
      (mkStore (users db) (models db)
         (rewrite_rows pred (predictions db) ++ [prediction_repo.row_of pred])
         (transactions db)
         (predictions_seq db + 1) (transactions_seq db)).

(** Rowids handed out so far are at most the counter. *)
Definition rowids_bounded (db : Store) : Prop :=
  (forall r, In r (predictions db) ->
     exists k, Prediction.id r = Some k /\ k <= predictions_seq db) /\
  (forall t, In t (transactions db) ->
     forall k, Transaction.prediction_id t = Some k ->
               k <= predictions_seq db).

(** The exceptions the handler raises before it admits a request. *)
Definition gate_rejection (e : Exn) : bool :=
  match e with
  | HTTPException 401 InvalidAPIKey => true
  | HTTPException 403 APIKeyDoesNotMatchUser => true
  | HTTPException 402 InsufficientBalance => true
  | HTTPException 503 NoActiveModelAvailable => true
  | HTTPException 402 (InsufficientBalanceRequired _ _) => true
  | _ => false
  end.

(** An account at zero and no active configuration. *)
Definition db_zero_balance_no_model : Store :=
  mkStore [ User.mk 1 "admin" None 0%float None (Some "test-api-key-123")
                    (Some 0) ]
          [ Model.mk 1 "config0" None 0.01%float 0.001%float false ]
          [] [] 0 0.




(** The balance is what replaying the ledger, oldest entry first, on the
    balance the account started from gives. *)
Definition replays (db0 db : Store) (u : User.t) : Prop :=
  exists u0, In u0 (users db0) /\ User.id u0 = User.id u /\
    User.balance u
    = List.fold_left PrimFloat.add (ledger_of (User.id u) db)
                     (User.balance u0).


(** The integers of a stored row fit 64 bits and its [input_data] is
    there. *)
Definition bindable (r : Prediction.t) : Prop :=
  List.forallb fits_bound
    [Some (Prediction.epochs r); Some (Prediction.pareto_count r);
     Prediction.queue_time r; Prediction.process_time r; Prediction.id r]
  = true /\
  Prediction.input_data r <> None.

(** The seeded database after one charged request of 50 epochs. *)
Definition db_after_one_charge : Store :=
  snd (create_prediction_sync (sample_request 50) "test-api-key-123"
         (sample_world "u1" (PhySoService.SRReturned sample_results))
         (initialize_sqlite_database 0)).

Definition row_after_one_charge : Prediction.t :=
  Prediction.mk (Some 1) "u1" (Some 1) (Some 1) (Some "x,y") "y" None 50
    None None "config0" (Some 0.999%float) false (Some "x") (Some 1%float)
    1 []
    (Some 0.060000000000000005%float) "completed" (Some 0) (Some 0) None
    (Some 0).

Definition admin_after_one_charge : User.t :=
  User.mk 1 "admin" None 9.94%float None (Some "test-api-key-123") (Some 0).

End Billing.

(* ===================================================================== *)
(** ** Consistency of the tables, and two more databases *)
(* ===================================================================== *)

Module BillingStates.
Import Service Billing.

(** The world [w] with another outcome of the engine. *)
Definition with_engine (outcome : PhySoService.SROutcome) (w : World)
  : World :=
  mkWorld (uuid4 w) (now_created w) (now_start w) (now_trained w)
          (now_completed w) (now_failed w) (now_db w) outcome.

(** Two attempts on the account of [u], served one after the other: the
    first is charged [quote], the second is refused for the balance
    (402) and writes nothing, and what is left is one debit and one
    transaction. *)
Definition one_debit (first : PredictionCreateRequest) (w : World)
    (second : PredictionCreateRequest) (w' : World) (x_api_key : string)
    (db : Store) (u : User.t) (quote quote' : float) : Prop :=
  let out := create_prediction_sync first x_api_key w db in
  let out' := create_prediction_sync second x_api_key w' (snd out) in
  (exists pred csv, fst out = Ok (pred, csv)) /\
  (fst out' = Raise (HTTPException 402 InsufficientBalance) \/
   fst out' = Raise (HTTPException 402
                       (InsufficientBalanceRequired quote'
                          (User.balance u - quote)%float))) /\
  snd out' = snd out /\
  users (snd out') = debit (User.id u) (User.balance u - quote)%float
                           (users db) /\
  transactions (snd out')
  = (transactions db ++ [charge_of u quote first w db])%list.

(** Every stored prediction has its own rowid; every transaction names a
    stored prediction of the same user. *)
Definition tables_consistent (db : Store) : Prop :=
  List.NoDup (List.map Prediction.id (predictions db)) /\
  (forall t, In t (transactions db) ->
     exists r, In r (predictions db) /\
               Transaction.prediction_id t = Prediction.id r /\
               Transaction.user_id t = Prediction.user_id r).

(** An account whose balance is exactly the quote for 50 epochs. *)
Definition db_balance_for_one_request : Store :=
  mkStore [ User.mk 1 "admin" None 0.060000000000000005%float None
                    (Some "test-api-key-123") (Some 0) ]
          (models (initialize_sqlite_database 0)) [] [] 0 0.

(** A configuration that is free of charge: the quote is [0.0]. *)
Definition db_free_configuration : Store :=
  mkStore (users (initialize_sqlite_database 0))
          [ Model.mk 1 "config0" None 0%float 0%float true ]
          [] [] 0 0.

(** An account and a configuration whose prices are infinite: the quote
    and the balance are both [infinity], their difference is NaN. *)
Definition db_infinite_prices : Store :=
  mkStore [ User.mk 1 "admin" None infinity None (Some "test-api-key-123")
                    (Some 0) ]
          [ Model.mk 1 "config0" None infinity 0.001%float true ]
          [] [] 0 0.

End BillingStates.

(* ===================================================================== *)
(** ** States of the bot's credit account *)
(* ===================================================================== *)

Module BotStates.
Import UserService.

(** [get_all_users_count] *)
Definition get_all_users_count (self : t) : nat := size (users self).

(** [get_total_credits]: [sum(user["credits"] for user in
    self.users.values())] *)
Definition get_total_credits (self : t) : Z :=
  map_fold (fun _ user acc => credits user + acc) 0 (users self).

(** [get_stats]: credits, total predictions and creation time, or an empty
    dictionary for an unknown user. *)
Definition get_stats (telegram_id : string) (self : t)
  : option (Z * Z * datetime) :=
  match get_user telegram_id self with
  | Some user => Some (credits user, total_predictions user, created_at user)
  | None => None
  end.

(** The deltas the credit log holds for a user, oldest first. *)
Definition deltas_of (telegram_id : string) (log : list credit_row)
  : list Z :=
  List.map (fun row => snd (fst row))
    (List.filter (fun row => String.eqb (snd (fst (fst row))) telegram_id)
                 log).

(** The states the handlers of the bot reach from a first start (no
    [users.json], an empty credit log): [/start] calls
    [get_or_create_user], the buttons call [add_credits], a finished
    prediction calls [spend_credits]. *)
Inductive reachable : t -> Prop :=
| reachable_first_start : reachable (mk ∅ [])
| reachable_get_or_create self now telegram_id username first_name :
    reachable self ->
    reachable (snd (get_or_create_user now telegram_id username first_name
                                       self))
| reachable_add_credits self now telegram_id amount :
    reachable self ->
    reachable (snd (add_credits now telegram_id amount self))
| reachable_spend_credits self now telegram_id amount :
    reachable self ->
    reachable (snd (spend_credits now telegram_id amount self)).

(** The account of a user is what the credit log says, and the log has
    rows of known users only. *)
Definition audited (self : t) : Prop :=
  forall telegram_id,
    match users self !! telegram_id with
    | Some user =>
        credits user
        = DEFAULT_CREDITS
          + List.fold_right Z.add 0
              (deltas_of telegram_id (credit_log self))
    | None => deltas_of telegram_id (credit_log self) = []
    end.

(** A first start, [/start] of user 42, a top-up of 50 and a prediction
    that cost 6. *)
Definition bot_after_three_steps : t :=
  snd (spend_credits 3 "42" 6
         (snd (add_credits 2 "42" 50
                 (snd (get_or_create_user 1 "42" (Some "ann") None
                                          (mk ∅ [])))))).

End BotStates.

(* ===================================================================== *)
(** ** [make_json_serializable] *)
(* ===================================================================== *)

Module Json.
#[local] Set Warnings "-register-all".
#[local] Unset Elimination Schemes.

(** [bool], [int], [float], [str] *)
Inductive scalar : Type :=
| PyBool (b : bool)
| PyInt (z : Z)
| PyFloat (f : float)
| PyStr (s : string).

(** The values that reach [make_json_serializable]. A numpy scalar comes
    with what its [item()] returns and a numpy array with what its
    [tolist()] returns: a Python scalar and nested lists of such for most
    dtypes, but the [item()] of an [np.longdouble] is a numpy scalar
    again, and an array of dtype [object] holds any Python object. The
    keys of a dictionary are any hashable values; the function does not
    look at them. The values are finite trees: a structure that contains
    itself, or one nested deeper than the interpreter's recursion limit,
    on which the function raises [RecursionError], is outside the
    model. *)
Inductive value : Type :=
| Dict (items : list (value * value))
| List_ (items : list value)
| Tuple (items : list value)
| NpGeneric (item : value)           (* [np.float64], ...: [obj.item()] *)
| NpArray (tolist : value)           (* [np.ndarray]: [obj.tolist()] *)
| Scalar (s : scalar)
| None_
| Object (str : string).             (* anything else, with its [str()] *)

End Json.

Module PhySoServiceJson.
Import Json.

(** [infra/physo/physo_service.py], [make_json_serializable]: [None] is
    kept. *)
Fixpoint make_json_serializable (obj : value) : value :=
  match obj with
  | Dict items =>
      Dict (List.map (fun kv => let '(k, v) := kv in
                                (k, make_json_serializable v)) items)
  | List_ items => List_ (List.map make_json_serializable items)
  | Tuple items => Tuple (List.map make_json_serializable items)
  | NpGeneric item => item
  | NpArray tolist => tolist
  | Scalar s => Scalar s
  | None_ => None_
  | Object str => Scalar (PyStr str)
  end.

End PhySoServiceJson.

Module SQLiteJson.
Import Json.

(** [infra/db/sqlite_repositories.py], [make_json_serializable]: [None]
    is no [bool], [int], [float] or [str], so it falls to [str(obj)]. *)
Fixpoint make_json_serializable (obj : value) : value :=
  match obj with
  | Dict items =>
      Dict (List.map (fun kv => let '(k, v) := kv in
                                (k, make_json_serializable v)) items)
  | List_ items => List_ (List.map make_json_serializable items)
  | Tuple items => Tuple (List.map make_json_serializable items)
  | NpGeneric item => item
  | NpArray tolist => tolist
  | Scalar s => Scalar s
  | None_ => Scalar (PyStr "None")
  | Object str => Scalar (PyStr str)
  end.

End SQLiteJson.

Module JsonShape.
Import Json.

(** Keys [json.dumps] takes: [str], [int], [float], [bool] and [None]. *)
Definition json_key (k : value) : bool :=
  match k with
  | Scalar _ | None_ => true
  | _ => false
  end.

(** Plain Python data, which [json.dumps] takes without a custom encoder:
    dictionaries with such keys, lists and tuples of such values, scalars
    and [None]; no numpy value and no foreign object at any depth. *)
Fixpoint json_native (v : value) : bool :=
  match v with
  | Dict items =>
      List.forallb (fun kv => json_key (fst kv) && json_native (snd kv))
                   items
  | List_ items | Tuple items => List.forallb json_native items
  | Scalar _ | None_ => true
  | NpGeneric _ | NpArray _ | Object _ => false
  end.

(** What numpy hands back is plain Python data, and the keys of the
    dictionaries the function goes through are keys of JSON. *)
Fixpoint numpy_plain (v : value) : bool :=
  match v with
  | Dict items =>
      List.forallb (fun kv => json_key (fst kv) && numpy_plain (snd kv))
                   items
  | List_ items | Tuple items => List.forallb numpy_plain items
  | NpGeneric item => json_native item
  | NpArray tolist => json_native tolist
  | Scalar _ | None_ | Object _ => true
  end.

(** No [None] where the function looks: in the values of dictionaries and
    in the items of lists and tuples, at any depth. *)
Fixpoint visits_no_none (v : value) : bool :=
  match v with
  | Dict items => List.forallb (fun kv => visits_no_none (snd kv)) items
  | List_ items | Tuple items => List.forallb visits_no_none items
  | None_ => false
  | _ => true
  end.

(** [None] replaced by the string ["None"] where the function looks. *)
Fixpoint none_as_text (v : value) : value :=
  match v with
  | Dict items =>
      Dict (List.map (fun kv => let '(k, v) := kv in (k, none_as_text v))
                     items)
  | List_ items => List_ (List.map none_as_text items)
  | Tuple items => Tuple (List.map none_as_text items)
  | None_ => Scalar (PyStr "None")
  | _ => v
  end.

(** The metadata of a run as [_process_results] builds it, with a numpy
    boolean for [is_physical], and an array beside it. *)
Definition sample_metadata : value :=
  Dict [ (Scalar (PyStr "formula_length"), Scalar (PyInt 3));
         (Scalar (PyStr "data_shape"), Scalar (PyStr "2x10"));
         (Scalar (PyStr "is_physical"), NpGeneric (Scalar (PyBool true)));
         (Scalar (PyStr "rewards"),
          NpArray (List_ [Scalar (PyFloat 0.5); Scalar (PyFloat 1)]));
         (Scalar (PyStr "expression"), Object "x0+x1");
         (Scalar (PyStr "units"), None_) ].

End JsonShape.

(* ===================================================================== *)
(** ** The listing queries ([list_by_user]) and their endpoint *)
(* ===================================================================== *)

Module SQLiteListing.

(** SQLite's order of a TIMESTAMP column: NULL sorts below every value. *)
Definition created_leb (a b : option datetime) : bool :=
  match a, b with
  | None, _ => true
  | Some _, None => false
  | Some x, Some y => x <=? y
  end.

(** [ORDER BY created_at DESC]: rows with the same timestamp stay in
    rowid order (SQLite leaves their order open). *)
Fixpoint insert_desc {A} (key : A -> option datetime) (x : A)
    (l : list A) : list A :=
  match l with
  | [] => [x]
  | y :: l' => if created_leb (key y) (key x) then x :: l
               else y :: insert_desc key x l'
  end.

Definition order_by_desc {A} (key : A -> option datetime) (l : list A)
  : list A :=
  List.fold_right (insert_desc key) [] l.

(** [[self._map_row_to_prediction(row) for row in rows]]: the first row
    the model refuses raises. *)
Fixpoint map_rows (rows : list Prediction.t) : Result (list Prediction.t) :=
  match rows with
  | [] => Ok []
  | row :: rows' =>
      match SQLitePredictionRepository._map_row_to_prediction row with
      | Raise e => Raise e
      | Ok prediction =>
          match map_rows rows' with
          | Raise e => Raise e
          | Ok predictions => Ok (prediction :: predictions)
          end
      end
  end.

(** The rows of [WHERE user_id = ?], in rowid order. *)
Definition rows_of_user (user_id : Z) (db : Store) : list Prediction.t :=
  List.filter (fun r => option_Z_eqb (Prediction.user_id r) (Some user_id))
              (predictions db).

(** [SELECT * FROM predictions WHERE user_id = ? ORDER BY created_at
    DESC] *)
Definition predictions_by_user (user_id : Z) : M (list Prediction.t) :=
  statement [Some user_id] false
    (let* db := get in
     lift (map_rows (order_by_desc Prediction.created_at
                                   (rows_of_user user_id db)))).

(** [SELECT * FROM transactions WHERE user_id = ? ORDER BY created_at
    DESC] *)
Definition transactions_by_user (user_id : Z) : M (list Transaction.t) :=
  statement [Some user_id] false
    (let* db := get in
     ret (order_by_desc Transaction.created_at
            (SQLiteTransactionRepository.rows_of_user user_id db))).

(** [GET /api/v1/predictions/user/{user_id}] *)
Definition get_user_predictions (user_id : Z) (x_api_key : string)
  : M (list Prediction.t) :=
  let* api_user := SQLiteUserRepository.get_by_api_key x_api_key in
  match api_user with
  | None => raise (HTTPException 401 InvalidAPIKey)
  | Some api_user =>
      if negb (User.id api_user =? user_id)
      then raise (HTTPException 403 NoAccessToPredictions)
      else predictions_by_user user_id
  end.

(** [a] comes before [b] in an [ORDER BY created_at DESC]. *)
Definition newer_first {A} (key : A -> option datetime) (a b : A) : Prop :=
  created_leb (key b) (key a) = true.

End SQLiteListing.

(* ===================================================================== *)
(** ** The parameters handed to the engine ([_prepare_physo_params]) *)
(* ===================================================================== *)

Module PhySoParams.

(** The dictionary [physo_data] the handler builds: every key is there. *)
Record prediction_data := mk_prediction_data {
  input_data : string;
  y_name : string;
  x_names : option (list string);
  epochs : Z;
  op_names : option (list string);
  free_consts_names : option (list string);
  run_config : string;
  stop_reward : float;
  parallel_mode : bool }.

(** [physo.config.config0.config0], ... : the values of [self.configs]. *)
Inductive config : Type := config0 | config1 | config2.

(** [self.configs] *)
Definition configs (name : string) : option config :=
  if String.eqb name "config0" then Some config0
  else if String.eqb name "config1" then Some config1
  else if String.eqb name "config2" then Some config2
  else None.

(** [self.default_operations] *)
Definition default_operations : list string :=
  ["add"; "sub"; "mul"; "div"; "sqrt"; "log"; "exp"; "n2"; "n3"; "inv"].

(** The keyword arguments of [physo.SR]; the last two keys are set only
    on some paths. *)
Record params := mk_params {
  X : list (list float);          (* one row per feature *)
  y : list float;
  p_epochs : Z;
  p_parallel_mode : bool;
  p_stop_reward : float;
  X_names : list string;
  p_y_name : string;
  p_op_names : list string;
  p_free_consts_names : option (list string);
  p_run_config : option config }.

(** Python's truth value of an optional list. *)
Definition nonempty {A} (l : option (list A)) : option (list A) :=
  match l with
  | Some (a :: l') => Some (a :: l')
  | _ => None
  end.

(** [_prepare_physo_params] *)
Definition _prepare_physo_params (X : list (list float)) (y : list float)
    (prediction_data : prediction_data) : params :=
  mk_params X y (epochs prediction_data)
    false                           (* always False, for a local run *)
    (stop_reward prediction_data)
    (match nonempty (x_names prediction_data) with
     | Some x_names => x_names
     | None => List.map (fun i : nat => "x" ++ pretty i)
                        (List.seq 0 (List.length X))
     end)
    (y_name prediction_data)
    (match nonempty (op_names prediction_data) with
     | Some op_names => op_names
     | None => default_operations
     end)
    (nonempty (free_consts_names prediction_data))
    (configs (run_config prediction_data)).

End PhySoParams.

(* ===================================================================== *)
(** ** Facts of binary64 arithmetic *)
(* ===================================================================== *)

Module Binary64Facts.
Import Binary64.
#[local] Open Scope float_scope.

Lemma is_nan_spec (x : float) : is_nan x = true <-> Prim2SF x = S754_nan.
Proof.
  unfold is_nan. rewrite FloatAxioms.eqb_spec.
  destruct (Prim2SF x) as [s|s| |s m e]; simpl.
  - split; discriminate.
  - destruct s; split; discriminate.
  - split; reflexivity.
  - unfold SFeqb, SFcompare. rewrite Z.compare_refl.
    rewrite Pos.compare_cont_refl. destruct s; simpl; split; discriminate.
Qed.

Lemma is_nan_false (x : float) : is_nan x = false <-> Prim2SF x <> S754_nan.
Proof.
  rewrite <- is_nan_spec. destruct (is_nan x); split; congruence.
Qed.

Lemma sub_add_opp (x y : float) : x - y = x + (- y).
Proof.
  apply Prim2SF_inj. rewrite FloatAxioms.sub_spec, FloatAxioms.add_spec, FloatAxioms.opp_spec.
  destruct (Prim2SF x) as [sx|sx| |sx mx ex], (Prim2SF y) as [sy|sy| |sy my ey];
    try reflexivity; try (destruct sx, sy; reflexivity).
Qed.

Lemma is_nan_sub_r (x y : float) : is_nan (x - y) = false -> is_nan y = false.
Proof.
  rewrite !is_nan_false, FloatAxioms.sub_spec. intros H Hy. apply H. rewrite Hy.
  destruct (Prim2SF x); reflexivity.
Qed.

Lemma is_nan_opp (x : float) : is_nan (- x) = is_nan x.
Proof.
  destruct (is_nan x) eqn:E.
  - apply is_nan_spec in E. apply is_nan_spec. rewrite FloatAxioms.opp_spec, E. reflexivity.
  - apply is_nan_false in E. apply is_nan_false. rewrite FloatAxioms.opp_spec.
    destruct (Prim2SF x); simpl; congruence.
Qed.

Lemma digits2_pos_bounds (m : positive) :
  (2 ^ (Z.pos (digits2_pos m) - 1) <= Z.pos m < 2 ^ Z.pos (digits2_pos m))%Z.
Proof.
  induction m as [m IH|m IH|]; simpl digits2_pos.
  - rewrite Pos2Z.inj_succ.
    replace (Z.succ (Z.pos (digits2_pos m)) - 1)%Z
      with (Z.succ (Z.pos (digits2_pos m) - 1))%Z by lia.
    rewrite !Z.pow_succ_r by lia. lia.
  - rewrite Pos2Z.inj_succ.
    replace (Z.succ (Z.pos (digits2_pos m)) - 1)%Z
      with (Z.succ (Z.pos (digits2_pos m) - 1))%Z by lia.
    rewrite !Z.pow_succ_r by lia. lia.
  - simpl. lia.
Qed.

Lemma iter_xO_ge (m d : positive) : (Z.pos m <= Z.pos (Pos.iter xO m d))%Z.
Proof.
  induction d as [|d IH] using Pos.peano_ind.
  - simpl. lia.
  - rewrite Pos.iter_succ. lia.
Qed.

Lemma iter_xO_double (m d : positive) : (2 * Z.pos m <= Z.pos (Pos.iter xO m d))%Z.
Proof.
  destruct d as [|d] using Pos.peano_ind.
  - simpl. lia.
  - rewrite Pos.iter_succ. pose proof (iter_xO_ge m d). lia.
Qed.

(** Canonical mantissas: of two valid positive finite floats, the one with
    the larger exponent has the larger value once both are aligned. *)
Lemma aligned_mantissa_le (m1 m2 : positive) (e1 e2 : Z) :
  bounded prec emax m1 e1 = true ->
  bounded prec emax m2 e2 = true ->
  SFltb (S754_finite false m1 e1) (S754_finite false m2 e2) = false ->
  (Z.pos (fst (shl_align m2 e2 (Z.min e1 e2)))
   <= Z.pos (fst (shl_align m1 e1 (Z.min e1 e2))))%Z.
Proof.
  unfold bounded, canonical_mantissa, fexp, SFltb, SFcompare.
  intros H1 H2 Hlt.
  apply andb_prop in H1 as [H1 _]. apply andb_prop in H2 as [H2 _].
  apply Z.eqb_eq in H1, H2.
  pose proof (digits2_pos_bounds m1) as D1.
  pose proof (digits2_pos_bounds m2) as D2.
  unfold shl_align.
  destruct (Z.compare_spec e1 e2) as [E|E|E]; try discriminate.
  - subst e2. rewrite Z.min_id, Z.sub_diag. simpl.
    rewrite Pos.compare_cont_spec in Hlt. simpl in Hlt.
    destruct (Pos.compare_spec m1 m2); try discriminate; lia.
  - rewrite Z.min_r by lia. rewrite Z.sub_diag. simpl fst at 1.
    destruct (e2 - e1)%Z as [|d|d] eqn:Ed; try lia. simpl fst.
    pose proof (iter_xO_double m1 d) as Hd.
    assert (Z.pos (digits2_pos m1) = prec) as P1.
    { unfold emin, prec, emax in *. lia. }
    assert (Z.pos (digits2_pos m2) <= prec)%Z as P2.
    { unfold emin, prec, emax in *. lia. }
    rewrite P1 in D1.
    assert (2 ^ Z.pos (digits2_pos m2) <= 2 ^ prec)%Z
      by (apply Z.pow_le_mono_r; lia).
    replace (2 ^ prec)%Z with (2 * 2 ^ (prec - 1))%Z in * by reflexivity.
    lia.
Qed.

(** Rounding never invents a NaN. *)
Lemma shr_1_nonneg mrs : (0 <= shr_m mrs)%Z -> (0 <= shr_m (shr_1 mrs))%Z.
Proof.
  destruct mrs as [m r s]. simpl.
  destruct m as [|p|p]; [| |lia]; try destruct p; simpl; lia.
Qed.

Lemma iter_shr_1_nonneg p mrs :
  (0 <= shr_m mrs)%Z -> (0 <= shr_m (SpecFloat.iter_pos shr_1 p mrs))%Z.
Proof.
  revert mrs. induction p as [p IH|p IH|]; intros mrs H; simpl.
  - apply IH, IH, shr_1_nonneg, H.
  - apply IH, IH, H.
  - apply shr_1_nonneg, H.
Qed.

Lemma shr_fexp_nonneg m e l :
  (0 <= m)%Z -> (0 <= shr_m (fst (shr_fexp prec emax m e l)))%Z.
Proof.
  intros H. unfold shr_fexp, shr.
  assert (0 <= shr_m (shr_record_of_loc m l))%Z as H0
    by (destruct l as [|[]]; exact H).
  destruct (_ - e)%Z; simpl; auto. apply iter_shr_1_nonneg, H0.
Qed.

Lemma round_nearest_even_nonneg m l :
  (0 <= m)%Z -> (0 <= round_nearest_even m l)%Z.
Proof.
  intros H. destruct l as [|[]]; simpl; try lia.
  destruct (Z.even m); lia.
Qed.

Lemma binary_round_aux_cases s m e l :
  (0 <= m)%Z ->
  match binary_round_aux prec emax s m e l with
  | S754_zero s' | S754_infinity s' | S754_finite s' _ _ => s' = s
  | S754_nan => False
  end.
Proof.
  intros H. unfold binary_round_aux.
  pose proof (shr_fexp_nonneg m e l H) as H1.
  destruct (shr_fexp prec emax m e l) as [mrs' e']. simpl in H1.
  pose proof (shr_fexp_nonneg _ e' loc_Exact
                (round_nearest_even_nonneg _ (loc_of_shr_record mrs') H1))
    as H2.
  destruct (shr_fexp prec emax _ e' loc_Exact) as [mrs'' e'']. simpl in H2.
  destruct (shr_m mrs'') as [|p|p]; [reflexivity| |lia].
  destruct (e'' <=? emax - prec)%Z; reflexivity.
Qed.

Lemma binary_normalize_cases z e :
  match binary_normalize prec emax z e false with
  | S754_zero s' | S754_infinity s' | S754_finite s' _ _ =>
      (0 <= z)%Z -> s' = false
  | S754_nan => False
  end.
Proof.
  destruct z as [|p|p]; simpl; [reflexivity| |]; unfold binary_round;
    destruct (shl_align p e _) as [mz ez].
  - pose proof (binary_round_aux_cases false (Z.pos mz) ez loc_Exact
                  ltac:(lia)) as H.
    destruct (binary_round_aux prec emax false _ ez _); auto.
  - pose proof (binary_round_aux_cases true (Z.pos mz) ez loc_Exact
                  ltac:(lia)) as H.
    destruct (binary_round_aux prec emax true _ ez _); auto; lia.
Qed.


Lemma binary_normalize_unsigned z e :
  (0 <= z)%Z -> SFunsigned (binary_normalize prec emax z e false) = true.
Proof.
  intros Hz. pose proof (binary_normalize_cases z e) as H.
  destruct (binary_normalize prec emax z e false); simpl;
    try (rewrite (H Hz); reflexivity). destruct H.
Qed.

(** The difference of a positive [x] and a [y] that is not above it has a
    clear sign bit: it is never [-0.0]. *)
Lemma SFsub_unsigned (x y : spec_float) :
  valid_binary x = true -> valid_binary y = true ->
  SFleb x (S754_zero false) = false -> SFltb x y = false ->
  SF64sub x y <> S754_nan ->
  SFunsigned (SF64sub x y) = true.
Proof.
  intros Vx Vy Hx Hlt Hnan.
  destruct x as [sx|sx| |sx mx ex]; try discriminate Hx;
    try (exfalso; apply Hnan; reflexivity).
  - destruct sx; [discriminate Hx|].
    destruct y as [sy|sy| |sy my ey]; try reflexivity;
      try (exfalso; apply Hnan; reflexivity).
    destruct sy; [reflexivity|exfalso; apply Hnan; reflexivity].
  - destruct sx; [discriminate Hx|].
    destruct y as [sy|sy| |sy my ey]; try reflexivity;
      try (exfalso; apply Hnan; reflexivity).
    + destruct sy; [reflexivity|discriminate Hlt].
    + unfold SF64sub, SFsub. apply binary_normalize_unsigned.
      destruct sy; simpl cond_Zopp.
      * lia.
      * pose proof (aligned_mantissa_le mx my ex ey Vx Vy Hlt). lia.
Qed.




Lemma SFunsigned_nonneg (x : spec_float) :
  SFunsigned x = true -> SFnonneg x = true.
Proof. destruct x as [[]|[]| |[] m e]; try discriminate; reflexivity. Qed.

Lemma SFunsigned_zero (x : spec_float) :
  SFunsigned x = true -> SFeqb x (S754_zero false) = true ->
  x = S754_zero false.
Proof.
  destruct x as [[]|[]| |[] m e]; try discriminate; reflexivity.
Qed.

Lemma sub_unsigned (b c : float) :
  (b <=? 0) = false -> (b <? c) = false -> is_nan (b - c) = false ->
  SFunsigned (Prim2SF (b - c)) = true.
Proof.
  rewrite FloatAxioms.leb_spec, FloatAxioms.ltb_spec, is_nan_false,
    FloatAxioms.sub_spec.
  change (Prim2SF 0) with (S754_zero false).
  apply SFsub_unsigned; apply Prim2SF_valid.
Qed.

(** The balance after a charge is not negative. *)
Lemma sub_nonneg (b c : float) :
  (b <=? 0) = false -> (b <? c) = false -> is_nan (b - c) = false ->
  (0 <=? b - c) = true.
Proof.
  intros Hb Hlt Hnan. rewrite FloatAxioms.leb_spec.
  change (Prim2SF 0) with (S754_zero false).
  apply SFunsigned_nonneg, sub_unsigned; assumption.
Qed.

(** The balance after a charge is stored as it is: it is not [-0.0]. *)
Lemma real_value_sub (b c : float) :
  (b <=? 0) = false -> (b <? c) = false -> is_nan (b - c) = false ->
  real_value (b - c) = b - c.
Proof.
  intros Hb Hlt Hnan. unfold real_value.
  destruct (b - c =? 0) eqn:E; [|reflexivity].
  rewrite FloatAxioms.eqb_spec in E.
  change (Prim2SF 0) with (S754_zero false) in E.
  apply Prim2SF_inj.
  rewrite (SFunsigned_zero _ (sub_unsigned b c Hb Hlt Hnan) E). reflexivity.
Qed.

Lemma real_value_idem (x : float) : real_value (real_value x) = real_value x.
Proof.
  unfold real_value. destruct (x =? 0) eqn:E; [reflexivity|].
  rewrite E. reflexivity.
Qed.

Lemma is_nan_real_value (x : float) : is_nan (real_value x) = is_nan x.
Proof.
  unfold real_value. destruct (x =? 0) eqn:E; [|reflexivity].
  rewrite FloatAxioms.eqb_spec in E. symmetry.
  apply is_nan_false. intros Hx. rewrite Hx in E. discriminate E.
Qed.

Lemma sql_real_idem (x : option float) : sql_real (sql_real x) = sql_real x.
Proof.
  destruct x as [f|]; [|reflexivity]. simpl.
  destruct (is_nan f) eqn:E; [reflexivity|]. simpl.
  rewrite is_nan_real_value, E, real_value_idem. reflexivity.
Qed.

(** Adding the stored amount of a charge to the balance gives the balance
    the charge left. *)
Lemma add_real_value_opp (b c : float) :
  (b <=? 0) = false -> is_nan (b - c) = false ->
  b + real_value (- c) = b - c.
Proof.
  intros Hb Hnan. unfold real_value.
  destruct (- c =? 0) eqn:E; [|symmetry; apply sub_add_opp].
  apply Prim2SF_inj. revert Hb Hnan E.
  rewrite FloatAxioms.leb_spec, is_nan_false, FloatAxioms.eqb_spec,
    FloatAxioms.add_spec, !FloatAxioms.sub_spec, FloatAxioms.opp_spec.
  change (Prim2SF 0) with (S754_zero false).
  destruct (Prim2SF b) as [sx|sx| |sx mx ex],
           (Prim2SF c) as [sy|sy| |sy my ey];
    try discriminate; try reflexivity;
    try (intros _ H; exfalso; apply H; reflexivity);
    try (destruct sy; discriminate).
Qed.

Lemma ltb_not_nan (x y : float) : (x <? y) = true -> is_nan x = false.
Proof.
  rewrite FloatAxioms.ltb_spec, is_nan_false. intros H Hx.
  rewrite Hx in H. discriminate H.
Qed.

(** Numbers of 63 bits and their differences fit SQLite's INTEGER. *)
Lemma int63_fits (a : int63) : fits_sqlite_integer (Uint63.to_Z a) = true.
Proof.
  pose proof (Uint63.to_Z_bounded a) as H.
  change Uint63.wB with 9223372036854775808%Z in H.
  unfold fits_sqlite_integer. apply andb_true_intro.
  split; [apply Z.leb_le|apply Z.ltb_lt];
    change (2 ^ 63)%Z with 9223372036854775808%Z; lia.
Qed.

Lemma int63_difference_fits (a b : int63) :
  fits_sqlite_integer (Uint63.to_Z a - Uint63.to_Z b) = true.
Proof.
  pose proof (Uint63.to_Z_bounded a) as Ha.
  pose proof (Uint63.to_Z_bounded b) as Hb.
  change Uint63.wB with 9223372036854775808%Z in Ha, Hb.
  unfold fits_sqlite_integer. apply andb_true_intro.
  split; [apply Z.leb_le|apply Z.ltb_lt];
    change (2 ^ 63)%Z with 9223372036854775808%Z; lia.
Qed.
End Binary64Facts.

(* ===================================================================== *)
(** ** Facts of the billing path *)
(* ===================================================================== *)

Module BillingFacts.
Import Binary64 Binary64Facts Service Billing.

(** *** Statements *)

Lemma statement_runs {A} params (run : M A) db :
  List.forallb fits_bound params = true ->
  statement params false run db = run db.
Proof. intros H. unfold statement. rewrite H. reflexivity. Qed.

Lemma statement_overflow {A} params locked (run : M A) db :
  List.forallb fits_bound params = false ->
  statement params locked run db
  = (Raise (OverflowError
              "Python int too large to convert to SQLite INTEGER"), db).
Proof. intros H. unfold statement. rewrite H. reflexivity. Qed.

Lemma statement_locked {A} params (run : M A) db :
  List.forallb fits_bound params = true ->
  statement params true run db
  = (Raise (OperationalError "database is locked"), db).
Proof. intros H. unfold statement. rewrite H. reflexivity. Qed.

Lemma statement_keeps {A} params locked (run : M A) db :
  (snd (run db) = db) -> snd (statement params locked run db) = db.
Proof.
  intros H. unfold statement.
  destruct (negb _); [reflexivity|]. destruct locked; [reflexivity|exact H].
Qed.

(** *** The repositories *)

Lemma add_inserts p db uid mid inp :
  Prediction.user_id p = Some uid -> Prediction.model_id p = Some mid ->
  Prediction.input_data p = Some inp ->
  List.forallb fits_bound
    [Prediction.user_id p; Prediction.model_id p; Some (Prediction.epochs p);
     Some (Prediction.pareto_count p); Prediction.queue_time p;
     Prediction.process_time p] = true ->
  fits_sqlite_integer (predictions_seq db + 1) = true ->
  List.existsb (fun r => String.eqb (Prediction.uuid r) (Prediction.uuid p))
               (predictions db) = false ->
  prediction_repo.add p db
  = (Ok (Prediction.set_id (Some (predictions_seq db + 1)) p),
     mkStore (users db) (models db)
       (predictions db
        ++ [prediction_repo.row_of
              (Prediction.set_id (Some (predictions_seq db + 1)) p)])
       (transactions db) (predictions_seq db + 1) (transactions_seq db)).
Proof.
  intros Hu Hm Hi Hfits Hseq Huuid. unfold prediction_repo.add.
  rewrite statement_runs by exact Hfits.
  unfold bind, get, put, ret. rewrite Hseq, Hu, Hm, Hi, Huuid. reflexivity.
Qed.

Lemma update_while_writes p db inp :
  List.forallb fits_bound
    [Some (Prediction.epochs p); Some (Prediction.pareto_count p);
     Prediction.queue_time p; Prediction.process_time p; Prediction.id p]
  = true ->
  Prediction.input_data p = Some inp ->
  prediction_repo.update_while false p db
  = (Ok (List.existsb (fun r => option_Z_eqb (Prediction.id r)
                                             (Prediction.id p))
                      (predictions db)),
     set_predictions (rewrite_rows p (predictions db)) db).
Proof.
  intros Hfits Hi. unfold prediction_repo.update_while.
  rewrite statement_runs by exact Hfits.
  unfold bind, get, put, ret. rewrite Hi. reflexivity.
Qed.

Lemma update_while_locked p db :
  List.forallb fits_bound
    [Some (Prediction.epochs p); Some (Prediction.pareto_count p);
     Prediction.queue_time p; Prediction.process_time p; Prediction.id p]
  = true ->
  prediction_repo.update_while true p db
  = (Raise (OperationalError "database is locked"), db).
Proof. apply statement_locked. Qed.

Lemma update_balance_writes user_id new_balance db :
  fits_sqlite_integer user_id = true ->
  PrimFloat.is_nan new_balance = false ->
  user_repo.update_balance user_id new_balance db
  = (Ok (List.existsb (fun u => User.id u =? user_id) (users db)),
     set_users (debit user_id (real_value new_balance) (users db)) db).
Proof.
  intros Hfits Hnan. unfold user_repo.update_balance.
  rewrite statement_runs by (simpl; rewrite Hfits; reflexivity).
  unfold bind, get, put, ret, sql_real. rewrite Hnan. reflexivity.
Qed.

Lemma update_balance_refused user_id new_balance db :
  fits_sqlite_integer user_id = true ->
  PrimFloat.is_nan new_balance = true ->
  List.existsb (fun u => User.id u =? user_id) (users db) = true ->
  user_repo.update_balance user_id new_balance db
  = (Raise (IntegrityError "NOT NULL constraint failed: users.balance"), db).
Proof.
  intros Hfits Hnan Hex. unfold user_repo.update_balance.
  rewrite statement_runs by (simpl; rewrite Hfits; reflexivity).
  unfold bind, get, raise, sql_real. rewrite Hnan, Hex. reflexivity.
Qed.

Lemma transaction_add_inserts now t db uid :
  Transaction.user_id t = Some uid ->
  fits_sqlite_integer uid = true ->
  fits_bound (Transaction.prediction_id t) = true ->
  PrimFloat.is_nan (Transaction.amount t) = false ->
  transaction_repo.add now t db
  = (Ok (Transaction.mk (Some (transactions_seq db + 1))
           (Transaction.user_id t) (Transaction.amount t)
           (Transaction.description t) (Transaction.prediction_id t)
           (Transaction.created_at t)),
     mkStore (users db) (models db) (predictions db)
       (transactions db
        ++ [Transaction.mk (Some (transactions_seq db + 1))
              (Transaction.user_id t) (real_value (Transaction.amount t))
              (Transaction.description t) (Transaction.prediction_id t)
              (Some now)])
       (predictions_seq db) (transactions_seq db + 1)).
Proof.
  intros Hu Hfu Hfp Hnan. unfold transaction_repo.add.
  rewrite statement_runs
    by (simpl; rewrite Hu; simpl; rewrite Hfu, Hfp; reflexivity).
  unfold bind, get, put, ret, sql_real. rewrite Hu, Hnan. reflexivity.
Qed.

Lemma with_failure_bound e completed_at p :
  [Some (Prediction.epochs (with_failure e completed_at p));
   Some (Prediction.pareto_count (with_failure e completed_at p));
   Prediction.queue_time (with_failure e completed_at p);
   Prediction.process_time (with_failure e completed_at p);
   Prediction.id (with_failure e completed_at p)]
  = [Some (Prediction.epochs p); Some (Prediction.pareto_count p);
     Prediction.queue_time p; Prediction.process_time p; Prediction.id p].
Proof. destruct p; reflexivity. Qed.

Lemma train_pareto_count_fits (o : PhySoService.SROutcome) :
  fits_sqlite_integer (PhySoService.pareto_count (physo_service.train o))
  = true.
Proof. destruct o; [apply int63_fits|reflexivity]. Qed.

Lemma find_existsb {A} (f g : A -> bool) (l : list A) (a : A) :
  List.find f l = Some a -> g a = true -> List.existsb g l = true.
Proof.
  intros Hf Hg. apply List.find_some in Hf as [Hin _].
  apply List.existsb_exists. eauto.
Qed.

(** *** The handler *)

Ltac run_gate :=
  cbv beta iota zeta delta
    [create_prediction_sync bind get ret raise lift
     user_repo.get_by_api_key model_repo.get_active_model authorize].

Lemma create_prediction_sync_authorize request x_api_key w db :
  match authorize request x_api_key db with
  | Raise e => create_prediction_sync request x_api_key w db = (Raise e, db)
  | Ok _ => True
  end.
Proof.
  run_gate.
  destruct (List.find _ (users db)) as [api_user|]; [|reflexivity].
  destruct (negb _); [reflexivity|].
  destruct (_ <=? _)%float; [reflexivity|].
  destruct (List.find _ (models db)) as [model|]; [|reflexivity].
  destruct (physo_service.calculate_cost _ _ _) as [total_cost|e];
    [|reflexivity].
  destruct (_ <? _)%float; [reflexivity|exact I].
Qed.

Lemma authorize_ok request x_api_key db api_user model total_cost :
  authorize request x_api_key db = Ok (api_user, model, total_cost) ->
  List.find (fun u => option_string_eqb (User.api_key u) x_api_key)
            (users db) = Some api_user /\
  User.id api_user = user_id request /\
  (User.balance api_user <=? 0)%float = false /\
  List.find Model.is_active (models db) = Some model /\
  physo_service.calculate_cost (Model.base_price model)
    (Model.epoch_price model) (epochs request) = Ok total_cost /\
  (User.balance api_user <? total_cost)%float = false.
Proof.
  unfold authorize.
  destruct (List.find _ (users db)) as [u|]; [|discriminate].
  destruct (User.id u =? user_id request) eqn:Hid; [|discriminate].
  simpl. destruct (_ <=? _)%float eqn:Hle; [discriminate|].
  destruct (List.find _ (models db)) as [m|]; [|discriminate].
  destruct (physo_service.calculate_cost _ _ _) as [c|e] eqn:Hc;
    [|discriminate].
  destruct (_ <? _)%float eqn:Hlt; [discriminate|].
  intros [= <- <- <-]. apply Z.eqb_eq in Hid. repeat split; auto.
Qed.

Lemma rewrite_rows_app p l1 l2 :
  rewrite_rows p (l1 ++ l2) = (rewrite_rows p l1 ++ rewrite_rows p l2)%list.
Proof. apply List.map_app. Qed.

Lemma rewrite_rows_last p rows r k :
  Prediction.id p = Some k -> Prediction.id r = Some k ->
  rewrite_rows p (rows ++ [r])
  = (rewrite_rows p rows ++ [prediction_repo.update_row p r])%list.
Proof.
  intros Hp Hr. unfold rewrite_rows. rewrite List.map_app. simpl.
  rewrite Hp, Hr. simpl. rewrite Z.eqb_refl. reflexivity.
Qed.

Lemma rows_after_update p row rows k :
  Prediction.id p = Some k -> Prediction.id row = Some k ->
  prediction_repo.update_row p row = prediction_repo.row_of p ->
  rewrite_rows p (rows ++ [row])
  = (rewrite_rows p rows ++ [prediction_repo.row_of p])%list.
Proof.
  intros Hp Hr Hu. rewrite (rewrite_rows_last p rows row k Hp Hr), Hu.
  reflexivity.
Qed.

(** The handler once the request is admitted: the entity it inserts. *)
Lemma insert_error_none api_user model request w db :
  insert_error api_user model request w db = None ->
  fits_sqlite_integer (User.id api_user) = true /\
  fits_sqlite_integer (Model.id model) = true /\
  fits_sqlite_integer (epochs request) = true /\
  fits_sqlite_integer (predictions_seq db + 1) = true /\
  List.existsb (fun r => String.eqb (Prediction.uuid r) (uuid4 w))
               (predictions db) = false.
Proof.
  unfold insert_error.
  destruct (fits_sqlite_integer (User.id api_user)); [|discriminate].
  destruct (fits_sqlite_integer (Model.id model)); [|discriminate].
  destruct (fits_sqlite_integer (epochs request)); [|discriminate].
  destruct (fits_sqlite_integer (predictions_seq db + 1)); [|discriminate].
  destruct (existsb _ _); [discriminate|]. auto.
Qed.

Lemma create_prediction_sync_run request x_api_key w db :
  run request x_api_key w db
      (fst (create_prediction_sync request x_api_key w db))
      (snd (create_prediction_sync request x_api_key w db)).
Proof.
  pose proof (create_prediction_sync_authorize request x_api_key w db) as Hrej.
  destruct (authorize request x_api_key db) as [[[api_user model] total_cost]|e]
    eqn:Hauth.
  2:{ rewrite Hrej. simpl. apply run_rejected. exact Hauth. }
  clear Hrej.
  pose proof (authorize_ok _ _ _ _ _ _ Hauth)
    as (Hfind & Hid & Hle & Hmodel & Hcost & Hlt).
  set (pred0 := Prediction.mk None (uuid4 w)
                  (Some (User.id api_user)) (Some (Model.id model))
                  (Some (input_data request)) (y_name request)
                  (x_names request) (epochs request)
                  (op_names request) (free_consts_names request)
                  (run_config request) (Some (stop_reward request))
                  (parallel_mode request) None None 0 [] None
                  "processing" (Some (now_created w)) None None None).
  assert (create_prediction_sync request x_api_key w db
          = (let* pred := prediction_repo.add pred0 in
             let physo_result := physo_service.train (engine w) in
             let pred :=
               with_results physo_result total_cost
                 (Uint63.to_Z (now_trained w) - Uint63.to_Z (now_start w))
                 (now_completed w) pred in
             try_except
               (prediction_repo.update pred ;;;
                user_repo.update_balance (User.id api_user)
                  (User.balance api_user - total_cost)%float ;;;
                transaction_repo.add (now_db w)
                  (Transaction.mk None (Some (User.id api_user))
                     (- total_cost)%float
                     (Some (charge_description (Prediction.uuid pred)
                                               (epochs request)))
                     (Prediction.id pred) None) ;;;
                ret (pred, PhySoService.pareto_csv physo_result))
               (fun e =>
                  let pred := with_failure e (now_failed w) pred in
                  prediction_repo.update_while (holds_write_lock e) pred ;;;
                  raise (HTTPException 500 (PredictionFailed (exn_str e)))))
              db) as Hbody.
  { subst pred0. unfold create_prediction_sync.
    unfold bind at 1. unfold user_repo.get_by_api_key at 1.
    unfold bind at 1, get at 1, ret at 1. rewrite Hfind.
    apply Z.eqb_eq in Hid. rewrite Hid. cbn [negb]. rewrite Hle.
    unfold bind at 1. unfold model_repo.get_active_model at 1.
    unfold bind at 1, get at 1, ret at 1. rewrite Hmodel.
    unfold bind at 1. rewrite Hcost. unfold lift at 1, ret at 1.
    rewrite Hlt. reflexivity. }
  rewrite Hbody. clear Hbody.
  destruct (insert_error api_user model request w db) as [e|] eqn:Hins.
  - replace (bind (prediction_repo.add pred0) _ db)
      with (@Raise PredictionResponse e, db).
    { eapply run_not_inserted; eauto. }
    unfold bind at 1. unfold prediction_repo.add, statement.
    revert Hins. unfold insert_error. subst pred0.
    cbn [Prediction.user_id Prediction.model_id Prediction.epochs
         Prediction.pareto_count Prediction.queue_time
         Prediction.process_time Prediction.input_data Prediction.uuid
         List.forallb fits_bound].
    change (fits_sqlite_integer 0) with true.
    destruct (fits_sqlite_integer (User.id api_user));
      [|intros [= <-]; reflexivity].
    destruct (fits_sqlite_integer (Model.id model));
      [|intros [= <-]; reflexivity].
    destruct (fits_sqlite_integer (epochs request));
      [|intros [= <-]; reflexivity].
    cbn [andb negb]. unfold bind, get, raise.
    destruct (fits_sqlite_integer (predictions_seq db + 1));
      [|intros [= <-]; reflexivity].
    cbn [negb].
    destruct (existsb _ _); [intros [= <-]; reflexivity|discriminate].
  - pose proof (insert_error_none _ _ _ _ _ Hins)
      as (Hfu & Hfm & Hfe & Hfs & Huuid).
    set (pred1 := Prediction.set_id (Some (predictions_seq db + 1)) pred0).
    set (row := prediction_repo.row_of pred1).
    set (pred := settled_entity api_user model total_cost request w db).
    assert (Prediction.id pred = Some (predictions_seq db + 1)) as Hp
      by reflexivity.
    assert (Prediction.id row = Some (predictions_seq db + 1)) as Hr
      by reflexivity.
    assert (prediction_repo.update_row pred row = prediction_repo.row_of pred)
      as Hu by (cbv; reflexivity).
    assert (List.forallb fits_bound
              [Some (Prediction.epochs pred);
               Some (Prediction.pareto_count pred);
               Prediction.queue_time pred; Prediction.process_time pred;
               Prediction.id pred] = true) as Hbound.
    { change (Prediction.epochs pred) with (epochs request).
      change (Prediction.pareto_count pred)
        with (PhySoService.pareto_count (physo_service.train (engine w))).
      change (Prediction.queue_time pred) with (@None Z).
      change (Prediction.process_time pred)
        with (Some (Uint63.to_Z (now_trained w)
                    - Uint63.to_Z (now_start w))).
      rewrite Hp. cbn [List.forallb fits_bound].
      rewrite Hfe, train_pareto_count_fits, int63_difference_fits, Hfs.
      reflexivity. }
    assert (prediction_repo.add pred0 db
            = (Ok pred1,
               mkStore (users db) (models db) (predictions db ++ [row])
                       (transactions db) (predictions_seq db + 1)
                       (transactions_seq db))) as Hadd.
    { apply (add_inserts pred0 db (User.id api_user) (Model.id model)
               (input_data request)); try reflexivity; auto.
      subst pred0. cbn [Prediction.user_id Prediction.model_id
        Prediction.epochs Prediction.pareto_count Prediction.queue_time
        Prediction.process_time List.forallb fits_bound].
      rewrite Hfu, Hfm, Hfe. reflexivity. }
    assert (with_results (physo_service.train (engine w)) total_cost
              (Uint63.to_Z (now_trained w) - Uint63.to_Z (now_start w))
              (now_completed w) pred1 = pred) as Hpred by reflexivity.
    set (db1 := mkStore (users db) (models db) (predictions db ++ [row])
                        (transactions db) (predictions_seq db + 1)
                        (transactions_seq db)).
    assert (prediction_repo.update pred db1
            = (Ok (List.existsb
                     (fun r => option_Z_eqb (Prediction.id r)
                                            (Prediction.id pred))
                     (predictions db1)),
               set_predictions (rewrite_rows pred (predictions db1)) db1))
      as Hupd.
    { apply (update_while_writes pred db1 (input_data request) Hbound).
      reflexivity. }
    set (db2 := set_predictions (rewrite_rows pred (predictions db1)) db1)
      in Hupd.
    assert (List.existsb (fun u => User.id u =? User.id api_user) (users db2)
            = true) as Hex.
    { apply (find_existsb _ _ _ _ Hfind). apply Z.eqb_refl. }
    assert (Prediction.uuid pred = uuid4 w) as Hpu by reflexivity.
    pose proof (fun H => run_locked request x_api_key w db _ _ _ Hauth Hins H)
      as Hlocked.
    pose proof (fun H => run_settled request x_api_key w db _ _ _ Hauth Hins H)
      as Hsettled.
    cbv zeta in Hlocked, Hsettled. fold pred in Hlocked, Hsettled.
    rewrite <- (rows_after_update pred row (predictions db) _ Hp Hr Hu)
      in Hlocked, Hsettled.
    destruct (PrimFloat.is_nan (User.balance api_user - total_cost)%float)
      eqn:Hnan.
    + pose proof (Hlocked eq_refl) as Hrun.
      match type of Hrun with
      | run _ _ _ _ ?res ?store =>
          match goal with
          | |- run _ _ _ _ (fst ?X) _ =>
              enough (X = (res, store)) as ->; [exact Hrun|]
          end
      end.
      clear Hrun Hlocked Hsettled.
      unfold bind at 1. rewrite Hadd. cbv beta iota zeta. rewrite Hpred.
      fold db1. clear Hadd Hpred. clearbody pred. clear Hu. clearbody row. clear Hr.
      unfold try_except. unfold bind at 1. rewrite Hupd.
      unfold bind at 1.
      rewrite (update_balance_refused _ _ db2 Hfu Hnan Hex).
      cbv zeta. unfold bind at 1.
      change (holds_write_lock
                (IntegrityError "NOT NULL constraint failed: users.balance"))
        with true.
      rewrite update_while_locked
        by (rewrite with_failure_bound; exact Hbound).
      reflexivity.
    + assert (PrimFloat.is_nan (- total_cost)%float = false) as Hopp.
      { rewrite is_nan_opp. eapply is_nan_sub_r. exact Hnan. }
      pose proof (Hsettled eq_refl) as Hrun.
      match type of Hrun with
      | run _ _ _ _ ?res ?store =>
          match goal with
          | |- run _ _ _ _ (fst ?X) _ =>
              enough (X = (res, store)) as ->; [exact Hrun|]
          end
      end.
      clear Hrun Hlocked Hsettled.
      unfold bind at 1. rewrite Hadd. cbv beta iota zeta. rewrite Hpred.
      fold db1. clear Hadd Hpred. clearbody pred. clear Hu. clearbody row. clear Hr.
      unfold try_except. unfold bind at 1. rewrite Hupd.
      unfold bind at 1.
      rewrite (update_balance_writes _ _ db2 Hfu Hnan).
      rewrite (real_value_sub _ _ Hle Hlt Hnan).
      unfold bind at 1.
      set (db3 := set_users _ db2).
      rewrite (transaction_add_inserts (now_db w) _ db3 (User.id api_user));
        [|reflexivity|exact Hfu
         |cbn [Transaction.prediction_id]; rewrite Hp; exact Hfs
         |exact Hopp].
      unfold ret. cbn [Transaction.user_id Transaction.amount
                       Transaction.description Transaction.prediction_id].
      rewrite Hp, Hpu. reflexivity.
Qed.
End BillingFacts.

(* ===================================================================== *)
(** ** The claims of the specification *)
(* ===================================================================== *)

Module BillingClaims.
Import Binary64 Binary64Facts Service Billing BillingStates BillingFacts.

(** *** The paths of the handler *)

Ltac handler_paths Hrun :=
  match goal with
  | |- context [create_prediction_sync ?request ?key ?w ?db] =>
      pose proof (create_prediction_sync_run request key w db) as Hrun;
      destruct (create_prediction_sync request key w db) as [?res ?db'];
      cbn [fst snd] in *
  end.

Lemma create_prediction_sync_settled request x_api_key w db u m quote :
  authorize request x_api_key db = Ok (u, m, quote) ->
  insert_error u m request w db = None ->
  PrimFloat.is_nan (User.balance u - quote) = false ->
  create_prediction_sync request x_api_key w db
  = (Ok (settled_entity u m quote request w db,
         PhySoService.pareto_csv (physo_service.train (engine w))),
     mkStore
       (debit (User.id u) (User.balance u - quote) (users db))
       (models db)
       (rewrite_rows (settled_entity u m quote request w db)
                     (predictions db)
        ++ [prediction_repo.row_of (settled_entity u m quote request w db)])
       (transactions db ++ [charge_of u quote request w db])
       (predictions_seq db + 1) (transactions_seq db + 1)).
Proof.
  intros Hauth Hins Hnan.
  pose proof (create_prediction_sync_run request x_api_key w db) as Hrun.
  destruct (create_prediction_sync request x_api_key w db) as [res db'].
  cbn [fst snd] in Hrun.
  inversion Hrun as [e H|u' m' c' e H Hins'|u' m' c' H Hins' Hnan'
                    |u' m' c' H Hins' Hnan']; subst;
    rewrite Hauth in H; try discriminate H;
    injection H as <- <- <-; try congruence.
  reflexivity.
Qed.

Lemma create_prediction_sync_locked request x_api_key w db u m quote :
  authorize request x_api_key db = Ok (u, m, quote) ->
  insert_error u m request w db = None ->
  PrimFloat.is_nan (User.balance u - quote) = true ->
  create_prediction_sync request x_api_key w db
  = (Raise (OperationalError "database is locked"),
     mkStore (users db) (models db)
       (rewrite_rows (settled_entity u m quote request w db)
                     (predictions db)
        ++ [prediction_repo.row_of (settled_entity u m quote request w db)])
       (transactions db) (predictions_seq db + 1) (transactions_seq db)).
Proof.
  intros Hauth Hins Hnan.
  pose proof (create_prediction_sync_run request x_api_key w db) as Hrun.
  destruct (create_prediction_sync request x_api_key w db) as [res db'].
  cbn [fst snd] in Hrun.
  inversion Hrun as [e H|u' m' c' e H Hins'|u' m' c' H Hins' Hnan'
                    |u' m' c' H Hins' Hnan']; subst;
    rewrite Hauth in H; try discriminate H;
    injection H as <- <- <-; try congruence.
  reflexivity.
Qed.

(** *** Rejections *)

Lemma authorize_ok_not_gate_rejection request x_api_key w db a e :
  authorize request x_api_key db = Ok a ->
  fst (create_prediction_sync request x_api_key w db) = Raise e ->
  gate_rejection e = false.
Proof.
  intros Hauth Hres.
  pose proof (create_prediction_sync_run request x_api_key w db) as Hrun.
  rewrite Hres in Hrun.
  inversion Hrun as [e' H|u m c e' H Hins|u m c H Hins Hnan|u m c H Hins Hnan];
    subst; try congruence.
  - unfold insert_error in Hins.
    destruct (negb _); [injection Hins as <-; reflexivity|].
    destruct (negb _); [injection Hins as <-; reflexivity|].
    destruct (existsb _ _); [injection Hins as <-; reflexivity|discriminate].
  - reflexivity.
Qed.

(** C7. A request the handler rejects before admission (invalid API key,
    key of another user, balance at or below zero, no active model,
    balance below the quote) leaves the database as it was: no prediction
    row, no balance update, no transaction. *)
Theorem rejected_request_changes_nothing request x_api_key w db e :
  fst (create_prediction_sync request x_api_key w db) = Raise e ->
  gate_rejection e = true ->
  snd (create_prediction_sync request x_api_key w db) = db.
Proof.
  intros Hres Hgate.
  pose proof (create_prediction_sync_authorize request x_api_key w db) as H.
  destruct (authorize request x_api_key db) as [a|e'] eqn:Hauth.
  - pose proof (authorize_ok_not_gate_rejection _ _ _ _ _ _ Hauth Hres).
    congruence.
  - rewrite H. reflexivity.
Qed.

Lemma rejected_request_changes_nothing_witness :
  snd (create_prediction_sync (sample_request 50) "no-such-key"
         (sample_world "u1" (PhySoService.SRReturned sample_results))
         (initialize_sqlite_database 0))
  = initialize_sqlite_database 0.
Proof.
  apply (rejected_request_changes_nothing _ _ _ _
           (HTTPException 401 InvalidAPIKey)); reflexivity.
Defined.

(** *** The order of the checks *)

(** C6, as stated, fails: with a balance of zero and no active
    configuration the handler answers 402 "Insufficient balance", not 503
    "No active model available". *)
Lemma zero_balance_is_checked_before_the_model :
  fst (create_prediction_sync (sample_request 50) "test-api-key-123"
         (sample_world "u1" (PhySoService.SRReturned sample_results))
         db_zero_balance_no_model)
  = Raise (HTTPException 402 InsufficientBalance).
Proof. reflexivity. Qed.

(** C6, amended. The handler checks, in this order: the API key (401), the
    user id of the request against the key's user (403), a balance at or
    below zero (402 "Insufficient balance"), the active configuration
    (503), and, after the quote, the balance against the quote (402 with
    the required and the available amount). *)
Theorem authorization_checks_in_order request x_api_key w db :
  let result := fst (create_prediction_sync request x_api_key w db) in
  let user := List.find (fun u => option_string_eqb (User.api_key u)
                                                    x_api_key) (users db) in
  let model := List.find Model.is_active (models db) in
  (user = None -> result = Raise (HTTPException 401 InvalidAPIKey)) /\
  (forall u, user = Some u -> User.id u <> user_id request ->
     result = Raise (HTTPException 403 APIKeyDoesNotMatchUser)) /\
  (forall u, user = Some u -> User.id u = user_id request ->
     (User.balance u <=? 0)%float = true ->
     result = Raise (HTTPException 402 InsufficientBalance)) /\
  (forall u, user = Some u -> User.id u = user_id request ->
     (User.balance u <=? 0)%float = false -> model = None ->
     result = Raise (HTTPException 503 NoActiveModelAvailable)) /\
  (forall u m total_cost,
     user = Some u -> User.id u = user_id request ->
     (User.balance u <=? 0)%float = false -> model = Some m ->
     physo_service.calculate_cost (Model.base_price m) (Model.epoch_price m)
                                  (epochs request) = Ok total_cost ->
     (User.balance u <? total_cost)%float = true ->
     result = Raise (HTTPException 402
                       (InsufficientBalanceRequired total_cost
                                                    (User.balance u)))).
Proof.
  intros result user model.
  pose proof (create_prediction_sync_authorize request x_api_key w db) as H.
  unfold authorize in H. fold user model in H. subst result.
  repeat split.
  - intros Hu. rewrite Hu in H. rewrite H. reflexivity.
  - intros u Hu Hid. rewrite Hu in H.
    apply Z.eqb_neq in Hid. rewrite Hid in H. simpl in H.
    rewrite H. reflexivity.
  - intros u Hu Hid Hb. rewrite Hu in H.
    apply Z.eqb_eq in Hid. rewrite Hid, Hb in H. simpl in H.
    rewrite H. reflexivity.
  - intros u Hu Hid Hb Hm. rewrite Hu in H.
    apply Z.eqb_eq in Hid. rewrite Hid, Hb, Hm in H. simpl in H.
    rewrite H. reflexivity.
  - intros u m c Hu Hid Hb Hm Hc Hlt. rewrite Hu in H.
    apply Z.eqb_eq in Hid. rewrite Hid, Hb, Hm, Hc, Hlt in H. simpl in H.
    rewrite H. reflexivity.
Qed.

(** *** The update of a prediction *)

Lemma update_while_store locked prediction db :
  snd (prediction_repo.update_while locked prediction db) = db \/
  snd (prediction_repo.update_while locked prediction db)
  = set_predictions (rewrite_rows prediction (predictions db)) db.
Proof.
  unfold prediction_repo.update_while, statement.
  destruct (negb _); [left; reflexivity|].
  destruct locked; [left; reflexivity|].
  unfold bind, get, put, ret, raise.
  destruct (Prediction.input_data prediction); [right; reflexivity|].
  destruct (existsb _ _); left; reflexivity.
Qed.

(** C10. [update] rewrites no [id], [uuid], [user_id], [model_id] or
    [created_at]: each of these columns is, row by row, what it was. *)
Theorem update_keeps_identity_columns (prediction : Prediction.t)
    (db : Store) :
  let db' := snd (prediction_repo.update prediction db) in
  List.map Prediction.id (predictions db')
    = List.map Prediction.id (predictions db) /\
  List.map Prediction.uuid (predictions db')
    = List.map Prediction.uuid (predictions db) /\
  List.map Prediction.user_id (predictions db')
    = List.map Prediction.user_id (predictions db) /\
  List.map Prediction.model_id (predictions db')
    = List.map Prediction.model_id (predictions db) /\
  List.map Prediction.created_at (predictions db')
    = List.map Prediction.created_at (predictions db) /\
  users db' = users db /\ models db' = models db /\
  transactions db' = transactions db.
Proof.
  cbv zeta. unfold prediction_repo.update.
  destruct (update_while_store false prediction db) as [-> | ->];
    [repeat split; reflexivity|].
  cbn [predictions set_predictions users models transactions].
  unfold rewrite_rows. rewrite !List.map_map.
  repeat split; apply List.map_ext; intros r;
    destruct (option_Z_eqb _ _); reflexivity.
Qed.

(** *** Balances stay non-negative *)

Lemma in_debit u' user_id new_balance us :
  In u' (debit user_id new_balance us) ->
  exists u, In u us /\
    u' = (if User.id u =? user_id then User.set_balance new_balance u
          else u).
Proof.
  unfold debit. rewrite List.in_map_iff. intros [u [<- Hin]]. eauto.
Qed.

Lemma Forall2_map_r {A B} (R : A -> B -> Prop) (f : A -> B) (l : list A) :
  (forall a, In a l -> R a (f a)) -> List.Forall2 R l (List.map f l).
Proof.
  induction l as [|a l IH]; intros H; simpl; constructor.
  - apply H. left. reflexivity.
  - apply IH. intros b Hb. apply H. right. exact Hb.
Qed.

Lemma Forall2_same {A} (R : A -> A -> Prop) (l : list A) :
  (forall a, R a a) -> List.Forall2 R l l.
Proof. intros H. induction l; constructor; auto. Qed.

(** C4. A charge never takes the balance of an account that was not
    negative below zero, on the service ([create_prediction_sync]: row by
    row of the users table, whatever the other accounts hold) and in the
    bot ([spend_credits]); a charge above the balance is refused and
    nothing is written. *)
Theorem charge_keeps_balance_non_negative :
  (forall request x_api_key w db,
     List.Forall2
       (fun u u' =>
          User.id u' = User.id u /\
          ((0 <=? User.balance u)%float = true ->
           (0 <=? User.balance u')%float = true))
       (users db)
       (users (snd (create_prediction_sync request x_api_key w db)))) /\
  (forall request x_api_key w db u m total_cost,
     List.find (fun u => option_string_eqb (User.api_key u) x_api_key)
               (users db) = Some u ->
     User.id u = user_id request ->
     List.find Model.is_active (models db) = Some m ->
     physo_service.calculate_cost (Model.base_price m) (Model.epoch_price m)
                                  (epochs request) = Ok total_cost ->
     (User.balance u <? total_cost)%float = true ->
     snd (create_prediction_sync request x_api_key w db) = db /\
     exists detail,
       fst (create_prediction_sync request x_api_key w db)
       = Raise (HTTPException 402 detail)) /\
  (forall now telegram_id amount self user,
     UserService.users self !! telegram_id = Some user ->
     0 <= UserService.credits user ->
     (forall user',
        UserService.users
          (snd (UserService.spend_credits now telegram_id amount self))
          !! telegram_id = Some user' ->
        0 <= UserService.credits user') /\
     (UserService.credits user < amount ->
      UserService.spend_credits now telegram_id amount self = (None, self))).
Proof.
  split; [|split].
  - intros request x_api_key w db. handler_paths Hrun.
    inversion Hrun as [e H|u m c e H Hins|u m c H Hins Hnan|u m c H Hins Hnan];
      subst; cbn [users]; try (apply Forall2_same; auto).
    apply authorize_ok in H as (_ & _ & Hle & _ & _ & Hlt).
    unfold debit. apply Forall2_map_r. intros u0 _.
    destruct (User.id u0 =? User.id u); [|auto].
    split; [reflexivity|]. intros _. cbn [User.set_balance User.balance].
    apply sub_nonneg; assumption.
  - intros request x_api_key w db u m c Hu Hid Hm Hc Hlt.
    pose proof (create_prediction_sync_authorize request x_api_key w db)
      as H.
    unfold authorize in H. apply Z.eqb_eq in Hid.
    rewrite Hu, Hid in H. simpl in H.
    destruct (User.balance u <=? 0)%float.
    + rewrite H. split; [reflexivity|eauto].
    + rewrite Hm, Hc, Hlt in H. rewrite H. split; [reflexivity|eauto].
  - intros now telegram_id amount self user Hu Hpos.
    unfold UserService.spend_credits, UserService._get_user_internal.
    rewrite Hu. split.
    + destruct (Z.ltb_spec (UserService.credits user) amount).
      * simpl. intros user'. rewrite Hu. intros [= <-]. exact Hpos.
      * simpl. intros user'. rewrite lookup_insert_eq. intros [= <-].
        simpl. lia.
    + intros Hlt. apply Z.ltb_lt in Hlt. rewrite Hlt. reflexivity.
Qed.

(** *** Invariants of the reachable states *)

Lemma reachable_invariant (P : Store -> Prop) (db0 : Store) :
  P db0 ->
  (forall db request x_api_key w,
     P db -> P (snd (create_prediction_sync request x_api_key w db))) ->
  forall db, reachable db0 db -> P db.
Proof. intros H0 Hstep db Hreach. induction Hreach; auto. Qed.

Lemma rewrite_rows_fresh prediction rows k :
  Prediction.id prediction = Some (k + 1) ->
  (forall r, In r rows -> exists j, Prediction.id r = Some j /\ j <= k) ->
  rewrite_rows prediction rows = rows.
Proof.
  intros Hp Hrows. unfold rewrite_rows.
  rewrite <- (List.map_id rows) at 2. apply List.map_ext_in.
  intros r Hin. destruct (Hrows r Hin) as [j [Hj Hle]].
  rewrite Hp, Hj. simpl.
  destruct (Z.eqb_spec j (k + 1)); [lia|reflexivity].
Qed.

Lemma rowids_bounded_step request x_api_key w db :
  rowids_bounded db ->
  rowids_bounded (snd (create_prediction_sync request x_api_key w db)).
Proof.
  intros [Hrows Htxs]. handler_paths Hrun.
  inversion Hrun as [e H|u m c e H Hins|u m c H Hins Hnan|u m c H Hins Hnan];
    subst; try (split; assumption).
  - split; cbn [predictions transactions predictions_seq].
    + rewrite (rewrite_rows_fresh _ _ (predictions_seq db)) by auto.
      intros r [Hin| [<-|[]]]%List.in_app_or.
      * destruct (Hrows r Hin) as [j [Hj Hle]]. exists j. split; [auto|lia].
      * eexists. split; [reflexivity|lia].
    + intros t [Hin| [<-|[]]]%List.in_app_or j Hj.
      * specialize (Htxs t Hin j Hj). lia.
      * injection Hj as <-. lia.
  - split; cbn [predictions transactions predictions_seq].
    + rewrite (rewrite_rows_fresh _ (predictions db) (predictions_seq db))
        by auto.
      intros r [Hin| [<-|[]]]%List.in_app_or.
      * destruct (Hrows r Hin) as [j [Hj Hle]]. exists j. split; [auto|lia].
      * eexists. split; [reflexivity|lia].
    + intros t Hin j Hj. specialize (Htxs t Hin j Hj). lia.
Qed.

Lemma rowids_bounded_reachable db0 db :
  predictions db0 = [] -> transactions db0 = [] ->
  reachable db0 db -> rowids_bounded db.
Proof.
  intros Hp Ht. apply reachable_invariant.
  - split; [rewrite Hp|rewrite Ht]; intros ? [].
  - intros; apply rowids_bounded_step; assumption.
Qed.


Lemma models_kept request x_api_key w db :
  models (snd (create_prediction_sync request x_api_key w db)) = models db.
Proof. handler_paths Hrun. inversion Hrun; subst; reflexivity. Qed.

Lemma user_ids_kept request x_api_key w db :
  List.map User.id
    (users (snd (create_prediction_sync request x_api_key w db)))
  = List.map User.id (users db).
Proof.
  handler_paths Hrun. inversion Hrun; subst; try reflexivity.
  cbn [users]. unfold debit. rewrite List.map_map.
  apply List.map_ext. intros u0. destruct (_ =? _); reflexivity.
Qed.

Lemma same_id_same_row (us : list User.t) (a b : User.t) :
  List.NoDup (List.map User.id us) ->
  In a us -> In b us -> User.id a = User.id b -> a = b.
Proof.
  induction us as [|x us IH]; intros Hnd Ha Hb Hid; [destruct Ha|].
  simpl in Hnd. apply List.NoDup_cons_iff in Hnd as [Hx Hnd].
  destruct Ha as [->|Ha], Hb as [->|Hb]; auto.
  - exfalso. apply Hx. rewrite Hid. apply List.in_map. exact Hb.
  - exfalso. apply Hx. rewrite <- Hid. apply List.in_map. exact Ha.
Qed.

(** *** Completed predictions *)










(** *** The ledger and the balance *)

Lemma ledger_of_app user_id db t ts :
  transactions db = (ts ++ [t])%list ->
  ledger_of user_id db
  = (List.map Transaction.amount
       (List.filter (fun t => option_Z_eqb (Transaction.user_id t)
                                           (Some user_id)) ts)
     ++ (if option_Z_eqb (Transaction.user_id t) (Some user_id)
         then [Transaction.amount t] else []))%list.
Proof.
  intros H. unfold ledger_of, transaction_repo.rows_of_user.
  rewrite H, List.filter_app, List.map_app. simpl.
  destruct (option_Z_eqb _ _); reflexivity.
Qed.

Lemma replays_step db0 request x_api_key w db :
  List.NoDup (List.map User.id (users db)) ->
  (forall u, In u (users db) -> replays db0 db u) ->
  forall u,
    In u (users (snd (create_prediction_sync request x_api_key w db))) ->
    replays db0 (snd (create_prediction_sync request x_api_key w db)) u.
Proof.
  intros Hnd IH u'. handler_paths Hrun.
  inversion Hrun as [e H|u m c e H Hins|u m c H Hins Hnan|u m c H Hins Hnan];
    subst; auto.
  - cbn [users]. intros Hin.
    apply in_debit in Hin as [u1 [Hin1 ->]].
    destruct (IH u1 Hin1) as (u0 & Hin0 & Hid0 & Hbal).
    apply authorize_ok in H as (Hfind & _ & Hle & _).
    apply List.find_some in Hfind as [Hu _].
    exists u0. split; [exact Hin0|].
    destruct (Z.eqb_spec (User.id u1) (User.id u)) as [Heq|Hne].
    + assert (u1 = u) as -> by (eapply same_id_same_row; eauto).
      split; [exact Hid0|]. cbn [User.set_balance User.id User.balance].
      erewrite ledger_of_app by reflexivity.
      cbn. rewrite Z.eqb_refl. rewrite List.fold_left_app. cbn.
      fold (transaction_repo.rows_of_user (User.id u) db).
      fold (ledger_of (User.id u) db).
      rewrite <- Hbal. symmetry. apply add_real_value_opp; assumption.
    + split; [exact Hid0|].
      erewrite ledger_of_app by reflexivity.
      cbn. destruct (Z.eqb_spec (User.id u) (User.id u1)); [congruence|].
      rewrite List.app_nil_r. exact Hbal.
  - cbn [users]. intros Hin.
    destruct (IH u' Hin) as (u0 & Hin0 & Hid0 & Hbal).
    exists u0. repeat split; auto.
Qed.

(** C2, as stated, fails in binary64: after two charges of 50 epochs on
    the seeded database the balance is 9.879999999999999, while the
    initial balance plus the sum of the two entries is 9.88. *)
Lemma balance_is_not_initial_plus_sum :
  let key := "test-api-key-123" in
  let ok := PhySoService.SRReturned sample_results in
  let db0 := initialize_sqlite_database 0 in
  let db1 := snd (create_prediction_sync (sample_request 50) key
                    (sample_world "u1" ok) db0) in
  let db2 := snd (create_prediction_sync (sample_request 50) key
                    (sample_world "u2" ok) db1) in
  reachable db0 db2 /\
  List.map User.balance (users db2) = [9.879999999999999%float] /\
  (10.0 + Binary64.sum (ledger_of 1 db2))%float = 9.88%float /\
  9.879999999999999%float <> 9.88%float.
Proof.
  cbv zeta. split; [|split; [|split]].
  - apply reachable_request, reachable_request, reachable_init.
  - vm_compute. reflexivity.
  - vm_compute. reflexivity.
  - intros H. apply (f_equal Prim2SF) in H. vm_compute in H. discriminate H.
Qed.

(** C2, amended. From a database with an empty ledger, in every state the
    service reaches, the balance of every account is its initial balance
    with the amounts of its transactions added one after the other,
    oldest first, in binary64; every request (rejected, charged or
    aborted) keeps it so. The service has no top-up. *)
Theorem balance_replays_ledger db0 db u :
  transactions db0 = [] ->
  List.NoDup (List.map User.id (users db0)) ->
  reachable db0 db ->
  In u (users db) ->
  exists u0, In u0 (users db0) /\ User.id u0 = User.id u /\
    User.balance u
    = List.fold_left PrimFloat.add (ledger_of (User.id u) db)
                     (User.balance u0).
Proof.
  intros Ht Hnd Hreach. revert u.
  assert (List.map User.id (users db) = List.map User.id (users db0) /\
          forall u, In u (users db) -> replays db0 db u) as [_ H];
    [|exact H].
  revert db Hreach. apply reachable_invariant.
  - split; [reflexivity|]. intros u Hin. exists u.
    unfold ledger_of, transaction_repo.rows_of_user. rewrite Ht. auto.
  - intros db request x_api_key w [Hids IH]. split.
    + rewrite user_ids_kept. exact Hids.
    + apply replays_step; [rewrite Hids; exact Hnd|exact IH].
Qed.

(** *** The quote *)

(** C8, as stated, fails for a unit count Python cannot convert to a
    float: [calculate_cost] raises [OverflowError] and quotes nothing. *)
Lemma no_quote_beyond_float_range :
  physo_service.calculate_cost 0.01%float 0.001%float (2 ^ 1024)
  = Raise (OverflowError "int too large to convert to float").
Proof. vm_compute. reflexivity. Qed.

Lemma settled_response request x_api_key w db pred csv :
  fst (create_prediction_sync request x_api_key w db) = Ok (pred, csv) ->
  exists u m quote,
    authorize request x_api_key db = Ok (u, m, quote) /\
    insert_error u m request w db = None /\
    PrimFloat.is_nan (User.balance u - quote) = false /\
    pred = settled_entity u m quote request w db /\
    snd (create_prediction_sync request x_api_key w db)
    = mkStore
        (debit (User.id u) (User.balance u - quote) (users db))
        (models db)
        (rewrite_rows pred (predictions db) ++ [prediction_repo.row_of pred])
        (transactions db ++ [charge_of u quote request w db])
        (predictions_seq db + 1) (transactions_seq db + 1).
Proof.
  handler_paths Hrun. intros ->.
  inversion Hrun as [ | |u m c H Hins Hnan| ]; subst.
  exists u, m, c. repeat split; auto.
Qed.

Lemma balance_below_quote_rejected request x_api_key w db u m quote :
  List.find (fun u => option_string_eqb (User.api_key u) x_api_key)
            (users db) = Some u ->
  User.id u = user_id request ->
  (User.balance u <=? 0)%float = false ->
  List.find Model.is_active (models db) = Some m ->
  physo_service.calculate_cost (Model.base_price m) (Model.epoch_price m)
                               (epochs request) = Ok quote ->
  (User.balance u <? quote)%float = true ->
  create_prediction_sync request x_api_key w db
  = (Raise (HTTPException 402
              (InsufficientBalanceRequired quote (User.balance u))), db).
Proof.
  intros Hu Hid Hb Hm Hq Hlt.
  pose proof (create_prediction_sync_authorize request x_api_key w db) as H.
  unfold authorize in H. apply Z.eqb_eq in Hid.
  rewrite Hu, Hid, Hb, Hm, Hq, Hlt in H. exact H.
Qed.

(** C8, amended. For every configuration and every unit count [n >= 0]
    that converts to a float, the quote is
    [base_price + epoch_price * n] in binary64; [calculate_cost] is a
    function of its three arguments only; and the handler uses this one
    value for the comparison with the balance, for the 402 it reports,
    for the [total_cost] of the prediction, for the debit and for the
    amount of the transaction (minus the quote, as the REAL column of the
    amount holds it). *)
Theorem quote_is_base_plus_units :
  (forall base_price epoch_price n,
     0 <= n -> PrimFloat.is_infinity (Z2float n) = false ->
     physo_service.calculate_cost base_price epoch_price n
     = Ok (base_price + epoch_price * Z2float n)%float) /\
  (forall request x_api_key w db u m,
     List.find (fun u => option_string_eqb (User.api_key u) x_api_key)
               (users db) = Some u ->
     User.id u = user_id request ->
     (User.balance u <=? 0)%float = false ->
     List.find Model.is_active (models db) = Some m ->
     PrimFloat.is_infinity (Z2float (epochs request)) = false ->
     let quote := (Model.base_price m
                   + Model.epoch_price m * Z2float (epochs request))%float in
     let out := create_prediction_sync request x_api_key w db in
     ((User.balance u <? quote)%float = true ->
      fst out = Raise (HTTPException 402
                         (InsufficientBalanceRequired quote
                                                      (User.balance u)))) /\
     (forall pred csv,
        fst out = Ok (pred, csv) ->
        Prediction.total_cost pred = Some quote /\
        users (snd out)
        = debit (User.id u) (User.balance u - quote)%float (users db) /\
        exists t,
          transactions (snd out) = (transactions db ++ [t])%list /\
          Transaction.amount t = real_value (- quote))).
Proof.
  split.
  - intros b p n _ Hfin. unfold physo_service.calculate_cost.
    rewrite Hfin. reflexivity.
  - intros request x_api_key w db u m Hu Hid Hb Hm Hfin quote out.
    assert (physo_service.calculate_cost (Model.base_price m)
              (Model.epoch_price m) (epochs request) = Ok quote) as Hq.
    { unfold physo_service.calculate_cost. rewrite Hfin. reflexivity. }
    split.
    + intros Hlt. subst out.
      rewrite (balance_below_quote_rejected _ _ _ _ u m quote) by auto.
      reflexivity.
    + intros pred csv Hres.
      apply settled_response in Hres
        as (u' & m' & q' & Hauth & _ & _ & -> & Hout).
      apply authorize_ok in Hauth as (Hu' & _ & _ & Hm' & Hq' & _).
      assert (u' = u) as -> by congruence.
      assert (m' = m) as -> by congruence.
      assert (q' = quote) as -> by congruence.
      subst out. rewrite Hout. cbn [users transactions].
      repeat split; auto. eexists. split; reflexivity.
Qed.

Lemma quote_is_base_plus_units_witness :
  physo_service.calculate_cost 0.01%float 0.001%float 50
  = Ok (0.01 + 0.001 * Z2float 50)%float.
Proof.
  apply (proj1 quote_is_base_plus_units); [lia|vm_compute; reflexivity].
Defined.

(** *** The scenario of the seeded database *)

(** C9, as stated, fails in binary64: the quote for 50 epochs of
    [config0] is 0.060000000000000005, one unit in the last place above
    0.06. *)
Lemma quote_of_50_epochs_is_not_six_cents :
  physo_service.calculate_cost 0.01%float 0.001%float 50
  = Ok 0.060000000000000005%float /\
  0.060000000000000005%float <> 0.06%float.
Proof.
  split; [vm_compute; reflexivity|].
  intros H. apply (f_equal Prim2SF) in H. vm_compute in H. discriminate H.
Qed.

(** C9, amended. On the seeded database (balance 10.0, [config0] at 0.01
    plus 0.001 per epoch) a request of 50 epochs is quoted
    0.060000000000000005; once the engine returns, the balance is 9.94
    and the ledger holds one transaction, of amount
    -0.060000000000000005, for prediction 1. *)
Theorem seeded_scenario_50_epochs (now : datetime) (w0 : World)
    (results : PhySoService.SRResults)
    (input_data y_name run_config : string)
    (x_names op_names free_consts_names : option (list string))
    (stop_reward : float) (parallel_mode : bool) :
  let request :=
    mkRequest 1 input_data y_name x_names 50 op_names free_consts_names
              run_config stop_reward parallel_mode in
  let w := mkWorld (uuid4 w0) (now_created w0) (now_start w0)
                   (now_trained w0) (now_completed w0) (now_failed w0)
                   (now_db w0) (PhySoService.SRReturned results) in
  let out := create_prediction_sync request "test-api-key-123" w
               (initialize_sqlite_database now) in
  physo_service.calculate_cost 0.01%float 0.001%float 50
  = Ok 0.060000000000000005%float /\
  (exists pred csv,
     fst out = Ok (pred, csv) /\
     Prediction.status pred = "completed" /\
     Prediction.total_cost pred = Some 0.060000000000000005%float) /\
  List.map User.balance (users (snd out)) = [9.94%float] /\
  transactions (snd out)
  = [ Transaction.mk (Some 1) (Some 1) (-0.060000000000000005)%float
        (Some (charge_description (uuid4 w) 50)) (Some 1)
        (Some (now_db w)) ].
Proof.
  cbv zeta. split; [vm_compute; reflexivity|].
  rewrite (create_prediction_sync_settled _ _ _ _
             (User.mk 1 "admin" None 10.0%float None
                      (Some "test-api-key-123") (Some now))
             (Model.mk 1 "config0" (Some "Basic PhySO configuration")
                       0.01%float 0.001%float true)
             0.060000000000000005%float);
    [|reflexivity|reflexivity|reflexivity].
  cbn [fst snd users transactions].
  split; [eexists; eexists; split; [reflexivity|split; reflexivity]|].
  split; reflexivity.
Qed.

(** *** A failed training is charged *)

(** C1, as stated, fails: the engine raises (the CSV has no column ["y"]),
    [train] reports [success = False], the prediction is stored as
    "failed", and the handler debits the quote and records a transaction
    for the prediction. *)
Lemma failed_training_is_charged :
  let out := create_prediction_sync (sample_request 50) "test-api-key-123"
               (sample_world "u1" (PhySoService.SRRaised "no column y"))
               (initialize_sqlite_database 0) in
  List.map Prediction.status (predictions (snd out)) = ["failed"] /\
  List.map User.balance (users (snd out)) = [9.94%float] /\
  List.map (fun t => (Transaction.prediction_id t, Transaction.amount t))
           (transactions (snd out))
  = [(Some 1, (-0.060000000000000005)%float)] /\
  List.map Prediction.id (predictions (snd out)) = [Some 1].
Proof. cbv zeta. repeat split; vm_compute; reflexivity. Qed.

Lemma insert_error_with_engine u m request w db outcome :
  insert_error u m request (with_engine outcome w) db
  = insert_error u m request w db.
Proof. reflexivity. Qed.

(** C1, amended. A run in which the engine reports failure is settled as
    a run in which it succeeds: the record ends in "failed" with the
    quote as its [total_cost], the balance is decremented by the quote
    and one transaction references the record; the debit and the
    transaction are the ones the same request gets when the engine
    returns a result. *)
Theorem failed_run_is_settled_like_a_successful_one
    request x_api_key w db u m quote reason :
  authorize request x_api_key db = Ok (u, m, quote) ->
  insert_error u m request w db = None ->
  PrimFloat.is_nan (User.balance u - quote) = false ->
  engine w = PhySoService.SRRaised reason ->
  let out := create_prediction_sync request x_api_key w db in
  (exists pred rows r t,
     fst out = Ok (pred, None) /\
     Prediction.status pred = "failed" /\
     Prediction.total_cost pred = Some quote /\
     predictions (snd out) = (rows ++ [r])%list /\
     Prediction.uuid r = uuid4 w /\
     Prediction.id r = Prediction.id pred /\
     Prediction.status r = "failed" /\
     users (snd out)
     = debit (User.id u) (User.balance u - quote)%float (users db) /\
     transactions (snd out) = (transactions db ++ [t])%list /\
     Transaction.prediction_id t = Prediction.id pred /\
     Transaction.amount t = real_value (- quote)) /\
  (forall results,
     let out' :=
       create_prediction_sync request x_api_key
         (with_engine (PhySoService.SRReturned results) w) db in
     (exists pred' csv, fst out' = Ok (pred', csv) /\
                        Prediction.status pred' = "completed") /\
     users (snd out') = users (snd out) /\
     transactions (snd out') = transactions (snd out)).
Proof.
  intros Hauth Hins Hnan Hengine. cbv zeta.
  rewrite (create_prediction_sync_settled _ _ _ _ _ _ _ Hauth Hins Hnan).
  cbn [fst snd users transactions predictions].
  split.
  - set (pred := settled_entity u m quote request w db).
    assert (Prediction.status pred = "failed") as Hst
      by (unfold pred, settled_entity; rewrite Hengine; reflexivity).
    assert (Prediction.total_cost pred = Some quote) as Htc by reflexivity.
    assert (Prediction.uuid (prediction_repo.row_of pred) = uuid4 w) as Hu
      by reflexivity.
    assert (Prediction.status (prediction_repo.row_of pred)
            = Prediction.status pred) as Hrs by (destruct pred; reflexivity).
    assert (Transaction.prediction_id (charge_of u quote request w db)
            = Prediction.id pred) as Ht by reflexivity.
    clearbody pred. rewrite Hengine.
    exists pred, (rewrite_rows pred (predictions db)),
           (prediction_repo.row_of pred), (charge_of u quote request w db).
    split; [reflexivity|]. split; [exact Hst|]. split; [exact Htc|].
    split; [reflexivity|]. split; [exact Hu|].
    split; [destruct pred; reflexivity|].
    split; [rewrite Hrs; exact Hst|].
    split; [reflexivity|]. split; [reflexivity|].
    split; [exact Ht|reflexivity].
  - intros results.
    rewrite (create_prediction_sync_settled _ _ _ _ _ _ _ Hauth
               (eq_trans (insert_error_with_engine _ _ _ _ _ _) Hins) Hnan).
    cbn [fst snd users transactions].
    split; [|split; reflexivity].
    eexists. eexists. split; [reflexivity|reflexivity].
Qed.

(** *** Two attempts on one balance *)

Lemma find_key_debit x_api_key user_id new_balance us u :
  List.find (fun u => option_string_eqb (User.api_key u) x_api_key) us
  = Some u ->
  List.find (fun u => option_string_eqb (User.api_key u) x_api_key)
            (debit user_id new_balance us)
  = Some (if User.id u =? user_id then User.set_balance new_balance u
          else u).
Proof.
  induction us as [|a us IH]; [discriminate|]. simpl.
  assert (User.api_key (if User.id a =? user_id
                        then User.set_balance new_balance a else a)
          = User.api_key a) as ->
    by (destruct (Z.eqb (User.id a) user_id); reflexivity).
  destruct (option_string_eqb (User.api_key a) x_api_key).
  - intros [= ->]. reflexivity.
  - exact IH.
Qed.

Lemma second_attempt_refused first second x_api_key w w' db u m quote quote' :
  authorize first x_api_key db = Ok (u, m, quote) ->
  authorize second x_api_key db = Ok (u, m, quote') ->
  insert_error u m first w db = None ->
  (User.balance u - quote <? quote')%float = true ->
  one_debit first w second w' x_api_key db u quote quote'.
Proof.
  intros Hauth Hauth' Hins Hlt. unfold one_debit. cbv zeta.
  assert (PrimFloat.is_nan (User.balance u - quote) = false) as Hnan
    by (eapply ltb_not_nan; exact Hlt).
  rewrite (create_prediction_sync_settled _ _ _ _ _ _ _ Hauth Hins Hnan).
  cbn [fst snd].
  set (db1 := mkStore _ _ _ _ _ _).
  split; [eauto|].
  apply authorize_ok in Hauth' as (Hfind & Hid & _ & Hmodel & Hcost & _).
  pose proof (create_prediction_sync_authorize second x_api_key w' db1) as H.
  unfold authorize in H. subst db1. cbn [users models] in H.
  rewrite (find_key_debit _ _ _ _ _ Hfind), Z.eqb_refl in H.
  cbn [User.id User.balance User.set_balance] in H.
  apply Z.eqb_eq in Hid. rewrite Hid in H. cbn [negb] in H.
  destruct (User.balance u - quote <=? 0)%float.
  - rewrite H. cbn [fst snd users transactions]. auto.
  - rewrite Hmodel, Hcost, Hlt in H. rewrite H.
    cbn [fst snd users transactions]. auto.
Qed.

(** C5. Two attempts against a balance that covers only one of them,
    each admitted on its own, are served one after the other (the
    handler has no point where it gives way to another request), in
    either order: the attempt served first is charged, the other is
    refused with 402 for the balance and writes nothing, and the final
    balance is the balance less one quote, with one transaction. *)
Theorem two_attempts_one_debit
    request1 request2 x_api_key w1 w2 db u m quote1 quote2 :
  authorize request1 x_api_key db = Ok (u, m, quote1) ->
  authorize request2 x_api_key db = Ok (u, m, quote2) ->
  insert_error u m request1 w1 db = None ->
  insert_error u m request2 w2 db = None ->
  (User.balance u - quote1 <? quote2)%float = true ->
  (User.balance u - quote2 <? quote1)%float = true ->
  one_debit request1 w1 request2 w2 x_api_key db u quote1 quote2 /\
  one_debit request2 w2 request1 w1 x_api_key db u quote2 quote1.
Proof.
  intros H1 H2 Hi1 Hi2 Hlt1 Hlt2.
  split; eapply second_attempt_refused; eauto.
Qed.

(** *** Instances on the seeded database *)


Lemma balance_replays_ledger_witness :
  exists u0, In u0 (users (initialize_sqlite_database 0)) /\
    User.id u0 = User.id admin_after_one_charge /\
    User.balance admin_after_one_charge
    = List.fold_left PrimFloat.add
        (ledger_of (User.id admin_after_one_charge) db_after_one_charge)
        (User.balance u0).
Proof.
  apply (balance_replays_ledger (initialize_sqlite_database 0)).
  - reflexivity.
  - simpl. repeat constructor. intros [].
  - apply reachable_request, reachable_init.
  - vm_compute. left. reflexivity.
Defined.

Lemma charge_keeps_balance_non_negative_witness :
  List.Forall2
    (fun u u' =>
       User.id u' = User.id u /\
       ((0 <=? User.balance u)%float = true ->
        (0 <=? User.balance u')%float = true))
    (users (initialize_sqlite_database 0))
    (users (snd (create_prediction_sync (sample_request 50)
                   "test-api-key-123"
                   (sample_world "u1"
                      (PhySoService.SRReturned sample_results))
                   (initialize_sqlite_database 0)))) /\
  UserService.spend_credits 4 "42" 200 BotStates.bot_after_three_steps
  = (None, BotStates.bot_after_three_steps).
Proof.
  split.
  - apply (proj1 charge_keeps_balance_non_negative).
  - refine (proj2 (proj2 (proj2 charge_keeps_balance_non_negative)
                     4 "42" 200 BotStates.bot_after_three_steps _ _ _) _).
    + vm_compute. reflexivity.
    + vm_compute. discriminate.
    + vm_compute. reflexivity.
Defined.

Lemma failed_run_is_settled_like_a_successful_one_witness :
  let out := create_prediction_sync (sample_request 50) "test-api-key-123"
               (sample_world "u1" (PhySoService.SRRaised "no column y"))
               (initialize_sqlite_database 0) in
  users (snd (create_prediction_sync (sample_request 50) "test-api-key-123"
                (with_engine (PhySoService.SRReturned sample_results)
                   (sample_world "u1"
                      (PhySoService.SRRaised "no column y")))
                (initialize_sqlite_database 0)))
  = users (snd out).
Proof.
  cbv zeta.
  refine (proj1 (proj2 (proj2
    (failed_run_is_settled_like_a_successful_one
       (sample_request 50) "test-api-key-123"
       (sample_world "u1" (PhySoService.SRRaised "no column y"))
       (initialize_sqlite_database 0)
       (User.mk 1 "admin" None 10.0%float None (Some "test-api-key-123")
                (Some 0))
       (Model.mk 1 "config0" (Some "Basic PhySO configuration")
                 0.01%float 0.001%float true)
       0.060000000000000005%float "no column y" _ _ _ _)
    sample_results))); vm_compute; reflexivity.
Defined.

Lemma two_attempts_one_debit_witness :
  let ok := PhySoService.SRReturned sample_results in
  one_debit (sample_request 50) (sample_world "u1" ok)
            (sample_request 50) (sample_world "u2" ok)
            "test-api-key-123" db_balance_for_one_request
            (User.mk 1 "admin" None 0.060000000000000005%float None
                     (Some "test-api-key-123") (Some 0))
            0.060000000000000005%float 0.060000000000000005%float.
Proof.
  cbv zeta.
  refine (proj1 (two_attempts_one_debit
    (sample_request 50) (sample_request 50) "test-api-key-123"
    (sample_world "u1" (PhySoService.SRReturned sample_results))
    (sample_world "u2" (PhySoService.SRReturned sample_results))
    db_balance_for_one_request
    (User.mk 1 "admin" None 0.060000000000000005%float None
             (Some "test-api-key-123") (Some 0))
    (Model.mk 1 "config0" (Some "Basic PhySO configuration")
              0.01%float 0.001%float true)
    0.060000000000000005%float 0.060000000000000005%float _ _ _ _ _ _));
    vm_compute; reflexivity.
Defined.

End BillingClaims.
(* ===================================================================== *)

Module Extras.
Import Binary64 Binary64Facts Service Billing BillingStates BillingFacts
  BillingClaims.

(** *** Reading back what a request wrote *)

Lemma charged_response request x_api_key w db pred csv :
  fst (create_prediction_sync request x_api_key w db) = Ok (pred, csv) ->
  exists u m quote,
    authorize request x_api_key db = Ok (u, m, quote) /\
    Prediction.total_cost pred = Some quote /\
    users (snd (create_prediction_sync request x_api_key w db))
    = debit (User.id u) (User.balance u - quote)%float (users db) /\
    transactions (snd (create_prediction_sync request x_api_key w db))
    = (transactions db ++ [charge_of u quote request w db])%list.
Proof.
  intros Hres.
  apply settled_response in Hres as (u & m & q & Hauth & _ & _ & -> & ->).
  exists u, m, q. repeat split; auto.
Qed.

Lemma find_debit x_api_key user_id new_balance us :
  List.find (fun u => option_string_eqb (User.api_key u) x_api_key)
            (debit user_id new_balance us)
  = option_map (fun u => if User.id u =? user_id
                         then User.set_balance new_balance u else u)
      (List.find (fun u => option_string_eqb (User.api_key u) x_api_key) us).
Proof.
  unfold debit. induction us as [|u us IH]; [reflexivity|].
  cbn [List.map List.find].
  destruct (User.id u =? user_id) eqn:Hid;
    cbn [User.set_balance User.api_key];
    destruct (option_string_eqb (User.api_key u) x_api_key);
    cbn [option_map]; rewrite ?Hid; auto.
Qed.

(** X1. The balance endpoint reads what the charge wrote: when it
    answered [b] before a request that was charged, it answers
    [b - total_cost] after it, and reading changes nothing. *)
Theorem balance_read_after_charge request x_api_key w db pred csv b :
  fst (get_user_balance (user_id request) x_api_key db) = Ok b ->
  fst (create_prediction_sync request x_api_key w db) = Ok (pred, csv) ->
  exists quote,
    Prediction.total_cost pred = Some quote /\
    get_user_balance (user_id request) x_api_key
      (snd (create_prediction_sync request x_api_key w db))
    = (Ok (b - quote)%float,
       snd (create_prediction_sync request x_api_key w db)).
Proof.
  intros Hb Hres.
  apply charged_response in Hres as (u & m & q & Hauth & Htc & Hus & _).
  apply authorize_ok in Hauth as (Hfind & Hid & _).
  exists q. split; [exact Htc|].
  revert Hb. unfold get_user_balance, user_repo.get_by_api_key, bind, get, ret.
  cbn [fst snd]. rewrite Hus, find_debit, Hfind. cbn [option_map].
  rewrite <- Hid, !Z.eqb_refl. cbn [User.id User.set_balance negb].
  cbn [fst User.balance]. intros [= <-]. reflexivity.
Qed.

Lemma balance_read_after_charge_witness :
  exists quote,
    Prediction.total_cost row_after_one_charge = Some quote /\
    get_user_balance 1 "test-api-key-123" db_after_one_charge
    = (Ok (10.0 - quote)%float, db_after_one_charge).
Proof.
  apply (balance_read_after_charge (sample_request 50) "test-api-key-123"
           (sample_world "u1" (PhySoService.SRReturned sample_results))
           (initialize_sqlite_database 0) row_after_one_charge None);
    reflexivity.
Defined.





(** *** The repositories on their own *)

Lemma update_row_twice p r :
  prediction_repo.update_row p (prediction_repo.update_row p r)
  = prediction_repo.update_row p r.
Proof. reflexivity. Qed.

(** X3. [update] is idempotent: running the same UPDATE twice leaves the
    database the first run left, and reports the same row count. *)
Theorem update_twice_is_update_once (prediction : Prediction.t)
    (db : Store) :
  prediction_repo.update prediction
    (snd (prediction_repo.update prediction db))
  = prediction_repo.update prediction db.
Proof.
  unfold prediction_repo.update, prediction_repo.update_while, statement.
  destruct (negb _); [reflexivity|].
  unfold bind, get, put, ret, raise.
  destruct (Prediction.input_data prediction);
    [|destruct (existsb _ (predictions db)) eqn:E; cbn [snd]; rewrite ?E;
      reflexivity].
  cbn [fst snd predictions set_predictions users models transactions
       predictions_seq transactions_seq].
  f_equal.
  - f_equal. induction (predictions db) as [|r rows IH]; [reflexivity|].
    simpl. rewrite IH. f_equal.
    destruct (option_Z_eqb (Prediction.id r) (Prediction.id prediction))
      eqn:Hhit; simpl; rewrite Hhit; reflexivity.
  - unfold set_predictions. f_equal.
    rewrite List.map_map. apply List.map_ext. intros r.
    destruct (option_Z_eqb (Prediction.id r) (Prediction.id prediction))
      eqn:Hhit; simpl; rewrite Hhit; reflexivity.
Qed.

Lemma existsb_none {A} (f : A -> bool) (l : list A) :
  (forall x, In x l -> f x = false) -> List.existsb f l = false.
Proof.
  induction l as [|a l IH]; intros H; [reflexivity|]. simpl.
  rewrite (H a) by (left; reflexivity). apply IH.
  intros x Hx. apply H. right. exact Hx.
Qed.

(** X4. An UPDATE that matches no row (the entity has no id yet, or no
    stored row has it) leaves every table as it was; it reports [False],
    unless one of the integers it binds does not fit 64 bits: then it
    raises [OverflowError]. *)
Theorem update_of_unknown_id_changes_nothing (prediction : Prediction.t)
    (db : Store) :
  (forall r, In r (predictions db) ->
             option_Z_eqb (Prediction.id r) (Prediction.id prediction)
             = false) ->
  prediction_repo.update prediction db
  = (if List.forallb fits_bound
          [Some (Prediction.epochs prediction);
           Some (Prediction.pareto_count prediction);
           Prediction.queue_time prediction;
           Prediction.process_time prediction; Prediction.id prediction]
     then Ok false
     else Raise (OverflowError
                   "Python int too large to convert to SQLite INTEGER"),
     db).
Proof.
  intros Hmiss.
  unfold prediction_repo.update, prediction_repo.update_while, statement.
  destruct (forallb _ _); [|reflexivity]. cbn [negb].
  unfold bind, get, put, ret, raise.
  rewrite (existsb_none _ _ Hmiss).
  destruct (Prediction.input_data prediction); [|reflexivity].
  cbn [fst snd]. f_equal.
  destruct db as [us ms ps ts pseq tseq]. unfold set_predictions.
  cbn [users models predictions transactions predictions_seq
       transactions_seq] in *.
  f_equal. rewrite <- (List.map_id ps) at 2. apply List.map_ext_in.
  intros r Hr. rewrite (Hmiss r Hr). reflexivity.
Qed.

Lemma update_of_unknown_id_changes_nothing_witness :
  prediction_repo.update
    (Prediction.set_id None row_after_one_charge) db_after_one_charge
  = (Ok false, db_after_one_charge).
Proof.
  apply (update_of_unknown_id_changes_nothing
           (Prediction.set_id None row_after_one_charge)
           db_after_one_charge).
  intros r _. destruct (Prediction.id r); reflexivity.
Defined.

Lemma find_id_debit k user_id new_balance us :
  List.find (fun u => User.id u =? k) (debit user_id new_balance us)
  = option_map (fun u => if User.id u =? user_id
                         then User.set_balance new_balance u else u)
      (List.find (fun u => User.id u =? k) us).
Proof.
  unfold debit. induction us as [|u us IH]; [reflexivity|].
  cbn [List.map List.find].
  destruct (User.id u =? user_id) eqn:Hid;
    cbn [User.set_balance User.id];
    destruct (User.id u =? k); cbn [option_map]; rewrite ?Hid; auto.
Qed.

(** X5. Write a balance, read it back: after [update_balance] with a
    number, [get_by_id] of that user returns the row it returned before
    with the new balance (as a REAL column holds it: [-0.0] comes back as
    [0.0]) and every other column as it was, [get_by_id] of any other
    user returns what it returned before, and no other table changes. A
    NaN is refused by the NOT NULL column when a row matches, and writes
    nothing; a user id beyond 64 bits raises [OverflowError] in both
    calls. *)
Theorem update_balance_then_get_by_id (user_id : Z) (new_balance : float)
    (db : Store) :
  let known := List.existsb (fun u => User.id u =? user_id) (users db) in
  let overflow :=
    OverflowError "Python int too large to convert to SQLite INTEGER" in
  (fits_sqlite_integer user_id = false ->
   user_repo.update_balance user_id new_balance db = (Raise overflow, db) /\
   user_repo.get_by_id user_id db = (Raise overflow, db)) /\
  (fits_sqlite_integer user_id = true ->
   PrimFloat.is_nan new_balance = true ->
   user_repo.update_balance user_id new_balance db
   = (if known
      then Raise (IntegrityError "NOT NULL constraint failed: users.balance")
      else Ok false, db)) /\
  (fits_sqlite_integer user_id = true ->
   PrimFloat.is_nan new_balance = false ->
   let db' := snd (user_repo.update_balance user_id new_balance db) in
   fst (user_repo.update_balance user_id new_balance db) = Ok known /\
   fst (user_repo.get_by_id user_id db')
   = Ok (option_map (User.set_balance (real_value new_balance))
                    (List.find (fun u => User.id u =? user_id) (users db)))
   /\
   (forall other, other <> user_id ->
      fst (user_repo.get_by_id other db')
      = fst (user_repo.get_by_id other db)) /\
   models db' = models db /\ predictions db' = predictions db /\
   transactions db' = transactions db).
Proof.
  cbv zeta. split; [|split].
  - intros Hfits. unfold user_repo.update_balance, user_repo.get_by_id.
    rewrite !statement_overflow by (simpl; rewrite Hfits; reflexivity).
    split; reflexivity.
  - intros Hfits Hnan. unfold user_repo.update_balance.
    rewrite statement_runs by (simpl; rewrite Hfits; reflexivity).
    unfold bind, get, ret, raise, sql_real. rewrite Hnan.
    destruct (existsb _ _); reflexivity.
  - intros Hfits Hnan.
    rewrite (update_balance_writes _ _ _ Hfits Hnan).
    cbn [fst snd users set_users models predictions transactions].
    split; [reflexivity|].
    unfold user_repo.get_by_id.
    split; [|split; [|auto]].
    + rewrite statement_runs by (simpl; rewrite Hfits; reflexivity).
      unfold bind, get, ret. cbn [fst snd users set_users].
      rewrite find_id_debit.
      destruct (List.find _ (users db)) as [u|] eqn:Hu; [|reflexivity].
      apply List.find_some in Hu as [_ Hu]. cbn [option_map].
      rewrite Hu. reflexivity.
    + intros other Hne. unfold statement.
      destruct (negb _); [reflexivity|].
      unfold bind, get, ret. cbn [fst snd users set_users].
      rewrite find_id_debit.
      destruct (List.find _ (users db)) as [u|] eqn:Hu; [|reflexivity].
      apply List.find_some in Hu as [_ Hu]. cbn [option_map].
      apply Z.eqb_eq in Hu. rewrite Hu.
      destruct (Z.eqb_spec other user_id); [contradiction|reflexivity].
Qed.

(** *** Invariants of the tables *)

Lemma in_map_id_bounded rows k :
  (forall r, In r rows -> exists j, Prediction.id r = Some j /\ j <= k) ->
  ~ In (Some (k + 1)) (List.map Prediction.id rows).
Proof.
  intros Hrows [r [Hid Hin]]%List.in_map_iff.
  destruct (Hrows r Hin) as [j [Hj Hle]]. rewrite Hj in Hid.
  injection Hid as ->. lia.
Qed.

Lemma NoDup_snoc {A} (l : list A) (x : A) :
  List.NoDup l -> ~ In x l -> List.NoDup (l ++ [x]).
Proof.
  intros Hl Hx. induction Hl as [|a l Ha Hl IH]; simpl.
  - constructor; [intros []|constructor].
  - constructor.
    + rewrite List.in_app_iff. intros [H|[->|[]]]; [auto|].
      apply Hx. left. reflexivity.
    + apply IH. intros H. apply Hx. right. exact H.
Qed.

Lemma tables_consistent_step request x_api_key w db :
  rowids_bounded db -> tables_consistent db ->
  tables_consistent (snd (create_prediction_sync request x_api_key w db)).
Proof.
  intros Hb [Hnd Href].
  handler_paths Hrun. destruct Hb as [Hrows Htxs].
  inversion Hrun as [e H|u m c e H Hins|u m c H Hins Hnan|u m c H Hins Hnan];
    subst; try (split; assumption).
  - match goal with p := settled_entity _ _ _ _ _ _ |- _ => rename p into sp end.
    assert (Prediction.id sp = Some (predictions_seq db + 1)) as Hid
      by reflexivity.
    assert (Prediction.id (prediction_repo.row_of sp)
            = Some (predictions_seq db + 1)) as Hid' by reflexivity.
    assert (Prediction.user_id (prediction_repo.row_of sp)
            = Some (User.id u)) as Huid by reflexivity.
    clearbody sp.
    split; cbn [predictions transactions].
    + rewrite (rewrite_rows_fresh _ _ (predictions_seq db)) by auto.
      rewrite List.map_app. cbn [List.map]. rewrite Hid'.
      apply NoDup_snoc; [exact Hnd|].
      apply in_map_id_bounded. exact Hrows.
    + rewrite (rewrite_rows_fresh _ _ (predictions_seq db)) by auto.
      intros t [Hin| [<-|[]]]%List.in_app_or.
      * destruct (Href t Hin) as (r & Hr & Hp & Hu).
        exists r. split; [apply List.in_or_app; left; exact Hr|auto].
      * exists (prediction_repo.row_of sp).
        split; [apply List.in_or_app; right; left; reflexivity|].
        rewrite Hid', Huid. split; reflexivity.
  - match goal with p := settled_entity _ _ _ _ _ _ |- _ => rename p into sp end.
    assert (Prediction.id sp = Some (predictions_seq db + 1)) as Hid
      by reflexivity.
    assert (Prediction.id (prediction_repo.row_of sp)
            = Some (predictions_seq db + 1)) as Hid' by reflexivity.
    clearbody sp.
    rewrite (rewrite_rows_fresh sp (predictions db) (predictions_seq db))
      by auto.
    split; cbn [predictions transactions].
    + rewrite List.map_app. cbn [List.map]. rewrite Hid'.
      apply NoDup_snoc; [exact Hnd|].
      apply in_map_id_bounded. exact Hrows.
    + intros t Hin. destruct (Href t Hin) as (r & Hr & Hp & Hu).
      exists r. split; [apply List.in_or_app; left; exact Hr|auto].
Qed.

Lemma tables_consistent_reachable db0 db :
  predictions db0 = [] -> transactions db0 = [] ->
  reachable db0 db -> tables_consistent db.
Proof.
  intros Hp Ht Hreach.
  assert (rowids_bounded db /\ tables_consistent db) as [_ H]; [|exact H].
  revert db Hreach. apply reachable_invariant.
  - split; split; rewrite ?Hp, ?Ht; try (intros ? []); constructor.
  - intros db request x_api_key w [Hb Hc]. split.
    + apply rowids_bounded_step; exact Hb.
    + apply tables_consistent_step; assumption.
Qed.

(** X6. No orphaned charge and no shared rowid: in every state the
    service reaches from empty predictions and transactions tables, the
    stored predictions have pairwise different ids, and every transaction
    references a stored prediction that belongs to the same user. *)
Theorem transactions_reference_stored_predictions db0 db :
  predictions db0 = [] -> transactions db0 = [] ->
  reachable db0 db ->
  List.NoDup (List.map Prediction.id (predictions db)) /\
  (forall t, In t (transactions db) ->
     exists r, In r (predictions db) /\
               Transaction.prediction_id t = Prediction.id r /\
               Transaction.user_id t = Prediction.user_id r).
Proof. apply tables_consistent_reachable. Qed.

Lemma transactions_reference_stored_predictions_witness :
  List.NoDup (List.map Prediction.id (predictions db_after_one_charge)) /\
  (forall t, In t (transactions db_after_one_charge) ->
     exists r, In r (predictions db_after_one_charge) /\
               Transaction.prediction_id t = Prediction.id r /\
               Transaction.user_id t = Prediction.user_id r).
Proof.
  apply (transactions_reference_stored_predictions
           (initialize_sqlite_database 0)).
  - reflexivity.
  - reflexivity.
  - apply reachable_request, reachable_init.
Defined.

Lemma status_of_settled u m c request w db :
  let p := prediction_repo.row_of (settled_entity u m c request w db) in
  Prediction.status p = "completed" \/ Prediction.status p = "failed".
Proof.
  cbv zeta. cbn.
  destruct (PhySoService.success (physo_service.train (engine w)));
    [left|right]; reflexivity.
Qed.

(** X7. No request leaves a prediction behind in "processing": in every
    state the service reaches from empty tables each stored prediction is
    "completed" or "failed". *)
Theorem stored_predictions_are_terminal db0 db r :
  predictions db0 = [] -> transactions db0 = [] ->
  reachable db0 db ->
  In r (predictions db) ->
  Prediction.status r = "completed" \/ Prediction.status r = "failed".
Proof.
  intros Hp Ht Hreach. revert r.
  assert (rowids_bounded db /\
          forall r, In r (predictions db) ->
            Prediction.status r = "completed" \/
            Prediction.status r = "failed") as [_ H]; [|exact H].
  revert db Hreach. apply reachable_invariant.
  - split; [split|]; rewrite ?Hp, ?Ht; intros ? [].
  - intros db request x_api_key w [Hb IH].
    split; [apply rowids_bounded_step; exact Hb|].
    pose proof (create_prediction_sync_run request x_api_key w db) as Hrun.
    destruct (create_prediction_sync request x_api_key w db) as [res db'].
    cbn [fst snd] in *. destruct Hb as [Hrows Htxs].
    inversion Hrun
      as [e H|u m c e H Hins|u m c H Hins Hnan|u m c H Hins Hnan];
      subst; auto; cbn [predictions].
    + rewrite (rewrite_rows_fresh _ _ (predictions_seq db)) by auto.
      intros r [Hin| [<-|[]]]%List.in_app_or; [auto|].
      apply status_of_settled.
    + rewrite (rewrite_rows_fresh _ (predictions db) (predictions_seq db))
        by auto.
      intros r [Hin| [<-|[]]]%List.in_app_or; [auto|].
      apply status_of_settled.
Qed.

Lemma stored_predictions_are_terminal_witness :
  Prediction.status row_after_one_charge = "completed" \/
  Prediction.status row_after_one_charge = "failed".
Proof.
  apply (stored_predictions_are_terminal (initialize_sqlite_database 0)
           db_after_one_charge).
  - reflexivity.
  - reflexivity.
  - apply reachable_request, reachable_init.
  - vm_compute. left. reflexivity.
Defined.

(** *** What is stored is stable *)

Lemma json_or_null_twice {A} (x : option (list A)) :
  json_or_null (json_or_null x) = json_or_null x.
Proof. destruct x as [[|a l]|]; reflexivity. Qed.

Lemma row_of_twice (p : Prediction.t) :
  prediction_repo.row_of (prediction_repo.row_of p) = prediction_repo.row_of p.
Proof.
  destruct p. unfold prediction_repo.row_of.
  cbn [Prediction.id Prediction.uuid Prediction.user_id Prediction.model_id
       Prediction.input_data Prediction.y_name Prediction.x_names
       Prediction.epochs Prediction.op_names Prediction.free_consts_names
       Prediction.run_config Prediction.stop_reward Prediction.parallel_mode
       Prediction.best_formula Prediction.best_r2 Prediction.pareto_count
       Prediction.metadata Prediction.total_cost Prediction.status
       Prediction.created_at Prediction.completed_at Prediction.queue_time
       Prediction.process_time].
  rewrite !sql_real_idem, !json_or_null_twice. reflexivity.
Qed.

Lemma rewrite_rows_row_of p rows :
  (forall r, In r rows -> prediction_repo.row_of r = r) ->
  forall r, In r (rewrite_rows p rows) -> prediction_repo.row_of r = r.
Proof.
  intros Hrows r [r0 [<- Hin]]%List.in_map_iff.
  destruct (option_Z_eqb _ _); [|auto].
  specialize (Hrows r0 Hin). destruct r0, p.
  unfold prediction_repo.update_row, prediction_repo.row_of in *.
  cbn in *. rewrite !sql_real_idem, !json_or_null_twice. reflexivity.
Qed.

Lemma update_row_self r :
  prediction_repo.row_of r = r -> prediction_repo.update_row r r = r.
Proof.
  intros H. unfold prediction_repo.update_row. rewrite H.
  destruct r. reflexivity.
Qed.

Lemma same_key_same_element {A B} (f : A -> B) (l : list A) (a b : A) :
  List.NoDup (List.map f l) -> In a l -> In b l -> f a = f b -> a = b.
Proof.
  induction l as [|x l IH]; intros Hnd Ha Hb Hf; [destruct Ha|].
  simpl in Hnd. apply List.NoDup_cons_iff in Hnd as [Hx Hnd].
  destruct Ha as [->|Ha], Hb as [->|Hb]; auto.
  - exfalso. apply Hx. rewrite Hf. apply List.in_map. exact Hb.
  - exfalso. apply Hx. rewrite <- Hf. apply List.in_map. exact Ha.
Qed.

Lemma rows_normalised_step request x_api_key w db :
  (forall r, In r (predictions db) -> prediction_repo.row_of r = r) ->
  forall r,
    In r (predictions (snd (create_prediction_sync request x_api_key w db))) ->
    prediction_repo.row_of r = r.
Proof.
  intros IH.
  handler_paths Hrun.
  inversion Hrun as [e H|u m c e H Hins|u m c H Hins Hnan|u m c H Hins Hnan];
    subst; auto; cbn [predictions];
    intros r [Hin| [<-|[]]]%List.in_app_or;
    try apply row_of_twice.
  - revert r Hin. apply rewrite_rows_row_of. exact IH.
  - revert r Hin. apply rewrite_rows_row_of. exact IH.
Qed.

Lemma bindable_update_row p r :
  bindable p -> Prediction.id r = Prediction.id p ->
  bindable (prediction_repo.update_row p r).
Proof.
  intros [Hb Hi] Hid. split.
  - destruct p, r. cbn in *. subst. exact Hb.
  - destruct p, r. exact Hi.
Qed.

Lemma settled_row_bindable u m c request w db :
  insert_error u m request w db = None ->
  bindable (prediction_repo.row_of (settled_entity u m c request w db)).
Proof.
  intros Hins.
  apply insert_error_none in Hins as (_ & _ & Hfe & Hfs & _).
  split; [|discriminate].
  change (List.forallb fits_bound
            [Some (epochs request);
             Some (PhySoService.pareto_count
                     (physo_service.train (engine w)));
             None;
             Some (Uint63.to_Z (now_trained w) - Uint63.to_Z (now_start w));
             Some (predictions_seq db + 1)] = true).
  cbn [List.forallb fits_bound].
  rewrite Hfe, train_pareto_count_fits, int63_difference_fits, Hfs.
  reflexivity.
Qed.

Lemma rows_bindable_step request x_api_key w db :
  rowids_bounded db ->
  (forall r, In r (predictions db) -> bindable r) ->
  forall r,
    In r (predictions (snd (create_prediction_sync request x_api_key w db))) ->
    bindable r.
Proof.
  intros [Hrows _] IH. handler_paths Hrun.
  inversion Hrun as [e H|u m c e H Hins|u m c H Hins Hnan|u m c H Hins Hnan];
    subst; auto; cbn [predictions];
    rewrite (rewrite_rows_fresh _ _ (predictions_seq db)) by auto;
    intros r [Hin| [<-|[]]]%List.in_app_or; auto;
    apply settled_row_bindable; exact Hins.
Qed.

(** X8. Read and write back: in every state the service reaches from
    empty tables, a prediction that [get_by_uuid] returns can be handed to
    [update] as it is: one row matches and nothing changes. *)
Theorem update_with_stored_row_changes_nothing db0 db uuid r :
  predictions db0 = [] -> transactions db0 = [] ->
  reachable db0 db ->
  fst (prediction_repo.get_by_uuid uuid db) = Ok (Some r) ->
  prediction_repo.update r db = (Ok true, db).
Proof.
  intros Hp Ht Hreach Hget.
  assert (In r (predictions db)) as Hin.
  { revert Hget. unfold prediction_repo.get_by_uuid, bind, get, ret.
    destruct (List.find _ (predictions db)) as [row|] eqn:Hfind;
      [|discriminate].
    apply List.find_some in Hfind as [Hin _].
    unfold prediction_repo._map_row_to_prediction.
    destruct (Prediction.stop_reward row); [|discriminate].
    cbn. intros [= <-]. exact Hin. }
  clear Hget.
  destruct (tables_consistent_reachable db0 db Hp Ht Hreach) as [Hnd _].
  assert (rowids_bounded db /\
          forall r, In r (predictions db) ->
                    prediction_repo.row_of r = r /\ bindable r)
    as [[Hrows _] Hstored].
  { clear r Hin Hnd. revert db Hreach.
    apply (reachable_invariant
             (fun db => rowids_bounded db /\
                forall r, In r (predictions db) ->
                          prediction_repo.row_of r = r /\ bindable r)).
    - split; [split; rewrite ?Hp, ?Ht; intros ? []|].
      rewrite Hp. intros ? [].
    - intros db request x_api_key w [Hb IH].
      split; [apply rowids_bounded_step; exact Hb|].
      intros r Hr. split.
      + eapply rows_normalised_step; [|exact Hr]. apply IH.
      + eapply rows_bindable_step; [exact Hb| |exact Hr]. apply IH. }
  destruct (Hstored r Hin) as [Hnorm [Hbound Hinput]].
  destruct (Prediction.input_data r) as [inp|] eqn:Hinp; [|congruence].
  unfold prediction_repo.update.
  rewrite (update_while_writes r db inp Hbound Hinp).
  f_equal.
  - f_equal. apply List.existsb_exists. exists r. split; [exact Hin|].
    destruct (Hrows r Hin) as [j [-> _]]. simpl. apply Z.eqb_refl.
  - destruct db as [us ms ps ts pseq tseq]. unfold set_predictions.
    cbn [users models predictions transactions predictions_seq
         transactions_seq] in *.
    f_equal. unfold rewrite_rows.
    rewrite <- (List.map_id ps) at 2. apply List.map_ext_in.
    intros r' Hr'.
    destruct (option_Z_eqb (Prediction.id r') (Prediction.id r)) eqn:Hhit;
      [|reflexivity].
    assert (r' = r) as ->.
    { apply (same_key_same_element Prediction.id ps); auto.
      destruct (Hrows r' Hr') as [j' [Hj' _]].
      destruct (Hrows r Hin) as [j [Hj _]].
      rewrite Hj', Hj in Hhit. simpl in Hhit. apply Z.eqb_eq in Hhit.
      congruence. }
    apply update_row_self, Hnorm.
Qed.

Lemma update_with_stored_row_changes_nothing_witness :
  prediction_repo.update row_after_one_charge db_after_one_charge
  = (Ok true, db_after_one_charge).
Proof.
  apply (update_with_stored_row_changes_nothing
           (initialize_sqlite_database 0) db_after_one_charge "u1").
  - reflexivity.
  - reflexivity.
  - apply reachable_request, reachable_init.
  - vm_compute. reflexivity.
Defined.

(** *** The audit trail only grows *)

Lemma tables_grow_step request x_api_key w db :
  rowids_bounded db ->
  exists ps ts,
    predictions (snd (create_prediction_sync request x_api_key w db))
    = (predictions db ++ ps)%list /\
    transactions (snd (create_prediction_sync request x_api_key w db))
    = (transactions db ++ ts)%list.
Proof.
  intros [Hrows _].
  handler_paths Hrun.
  inversion Hrun as [e H|u m c e H Hins|u m c H Hins Hnan|u m c H Hins Hnan];
    subst; cbn [predictions transactions].
  - exists [], []. rewrite !List.app_nil_r. auto.
  - exists [], []. rewrite !List.app_nil_r. auto.
  - rewrite (rewrite_rows_fresh _ _ (predictions_seq db)) by auto.
    do 2 eexists. split; reflexivity.
  - rewrite (rewrite_rows_fresh _ (predictions db) (predictions_seq db))
      by auto.
    eexists. exists []. split; [reflexivity|].
    symmetry. apply List.app_nil_r.
Qed.

(** X9. The tables are append-only: from a state the service reached
    from empty tables, whatever requests follow, the predictions and the
    transactions stored so far stay as they are, in place, and new rows
    come after them. *)
Theorem stored_rows_are_never_rewritten db0 db db' :
  predictions db0 = [] -> transactions db0 = [] ->
  reachable db0 db -> reachable db db' ->
  exists ps ts,
    predictions db' = (predictions db ++ ps)%list /\
    transactions db' = (transactions db ++ ts)%list.
Proof.
  intros Hp Ht Hreach Hnext.
  pose proof (rowids_bounded_reachable db0 db Hp Ht Hreach) as Hb.
  assert (rowids_bounded db' /\
          exists ps ts,
            predictions db' = (predictions db ++ ps)%list /\
            transactions db' = (transactions db ++ ts)%list) as [_ H];
    [|exact H].
  revert db' Hnext.
  apply (reachable_invariant
           (fun db' => rowids_bounded db' /\
              exists ps ts,
                predictions db' = (predictions db ++ ps)%list /\
                transactions db' = (transactions db ++ ts)%list)).
  - split; [exact Hb|]. exists [], []. rewrite !List.app_nil_r. auto.
  - intros db1 request x_api_key w [Hb1 (ps & ts & Hps & Hts)].
    split; [apply rowids_bounded_step; exact Hb1|].
    destruct (tables_grow_step request x_api_key w db1 Hb1)
      as (ps' & ts' & Hps' & Hts').
    exists (ps ++ ps')%list, (ts ++ ts')%list.
    rewrite Hps', Hts', Hps, Hts, !List.app_assoc. auto.
Qed.

Lemma stored_rows_are_never_rewritten_witness :
  exists ps ts,
    predictions db_after_one_charge
    = (predictions (initialize_sqlite_database 0) ++ ps)%list /\
    transactions db_after_one_charge
    = (transactions (initialize_sqlite_database 0) ++ ts)%list.
Proof.
  apply (stored_rows_are_never_rewritten (initialize_sqlite_database 0)).
  - reflexivity.
  - reflexivity.
  - apply reachable_init.
  - apply reachable_request, reachable_init.
Defined.

(** *** One request after the other *)

(** X10. No second charge on a spent balance: when a request was charged
    and what is left is at or below zero, every later request with that
    API key and user id is answered 402 "Insufficient balance" and
    writes nothing. *)
Theorem spent_balance_rejects_next_request request x_api_key w db pred csv
    b quote request' w' :
  fst (get_user_balance (user_id request) x_api_key db) = Ok b ->
  fst (create_prediction_sync request x_api_key w db) = Ok (pred, csv) ->
  Prediction.total_cost pred = Some quote ->
  (b - quote <=? 0)%float = true ->
  user_id request' = user_id request ->
  let db' := snd (create_prediction_sync request x_api_key w db) in
  create_prediction_sync request' x_api_key w' db'
  = (Raise (HTTPException 402 InsufficientBalance), db').
Proof.
  intros Hb Hres Htc Hle Hid' db'. subst db'.
  apply charged_response in Hres as (u & m & q & Hauth & Htc' & Hus & _).
  apply authorize_ok in Hauth as (Hfind & Hid & _).
  assert (q = quote) as -> by congruence.
  assert (b = User.balance u) as ->.
  { revert Hb. unfold get_user_balance, user_repo.get_by_api_key, bind, get,
      ret. cbn [fst snd]. rewrite Hfind, Hid, Z.eqb_refl. cbn [negb fst].
    intros [= <-]. reflexivity. }
  pose proof (create_prediction_sync_authorize request' x_api_key w'
                (snd (create_prediction_sync request x_api_key w db))) as H.
  unfold authorize in H.
  rewrite Hus, find_debit, Hfind in H. cbn [option_map] in H.
  rewrite Z.eqb_refl in H. cbn [User.id User.set_balance User.balance] in H.
  rewrite Hid', Hid, Z.eqb_refl, Hle in H. cbn [negb] in H.
  exact H.
Qed.

Lemma spent_balance_rejects_next_request_witness :
  let key := "test-api-key-123" in
  let ok := PhySoService.SRReturned sample_results in
  let db' := snd (create_prediction_sync (sample_request 50) key
                    (sample_world "u1" ok) db_balance_for_one_request) in
  create_prediction_sync (sample_request 50) key (sample_world "u2" ok) db'
  = (Raise (HTTPException 402 InsufficientBalance), db').
Proof.
  cbv zeta.
  apply (spent_balance_rejects_next_request (sample_request 50)
           "test-api-key-123"
           (sample_world "u1" (PhySoService.SRReturned sample_results))
           db_balance_for_one_request row_after_one_charge None
           0.060000000000000005%float 0.060000000000000005%float).
  - reflexivity.
  - vm_compute. reflexivity.
  - reflexivity.
  - vm_compute. reflexivity.
  - reflexivity.
Defined.

(** *** A settlement the database refuses *)

(** X11. When the new balance is not a number the UPDATE of the balance
    is refused (NOT NULL) and its connection keeps the write lock while
    the exception is handled: the UPDATE of the [except] block cannot
    write and raises [OperationalError], which is what the handler
    raises. The prediction stays as the [try] block stored it, with the
    status the engine gave and the quote as [total_cost]; no balance
    and no transaction is written. *)
Theorem refused_debit_is_not_charged request x_api_key w db u m quote :
  authorize request x_api_key db = Ok (u, m, quote) ->
  insert_error u m request w db = None ->
  PrimFloat.is_nan (User.balance u - quote) = true ->
  let out := create_prediction_sync request x_api_key w db in
  let result := physo_service.train (engine w) in
  fst out = Raise (OperationalError "database is locked") /\
  users (snd out) = users db /\
  transactions (snd out) = transactions db /\
  exists rows r,
    predictions (snd out) = (rows ++ [r])%list /\
    Prediction.uuid r = uuid4 w /\
    Prediction.status r
    = (if PhySoService.success result then "completed" else "failed") /\
    Prediction.best_formula r = PhySoService.best_formula result /\
    Prediction.total_cost r = sql_real (Some quote).
Proof.
  intros Hauth Hins Hnan. cbv zeta.
  rewrite (create_prediction_sync_locked _ _ _ _ _ _ _ Hauth Hins Hnan).
  cbn [fst snd users transactions predictions].
  split; [reflexivity|]. split; [reflexivity|]. split; [reflexivity|].
  eexists. eexists. split; [reflexivity|].
  repeat split.
Qed.

Lemma refused_debit_is_not_charged_witness :
  let out := create_prediction_sync (sample_request 50) "test-api-key-123"
               (sample_world "u1" (PhySoService.SRReturned sample_results))
               db_infinite_prices in
  let result :=
    physo_service.train (PhySoService.SRReturned sample_results) in
  fst out = Raise (OperationalError "database is locked") /\
  users (snd out) = users db_infinite_prices /\
  transactions (snd out) = transactions db_infinite_prices /\
  exists rows r,
    predictions (snd out) = (rows ++ [r])%list /\
    Prediction.uuid r = "u1" /\
    Prediction.status r
    = (if PhySoService.success result then "completed" else "failed") /\
    Prediction.best_formula r = PhySoService.best_formula result /\
    Prediction.total_cost r = sql_real (Some infinity).
Proof.
  apply (refused_debit_is_not_charged (sample_request 50) "test-api-key-123"
           (sample_world "u1" (PhySoService.SRReturned sample_results))
           db_infinite_prices
           (User.mk 1 "admin" None infinity None (Some "test-api-key-123")
                    (Some 0))
           (Model.mk 1 "config0" None infinity 0.001%float true) infinity).
  - vm_compute. reflexivity.
  - vm_compute. reflexivity.
  - vm_compute. reflexivity.
Defined.

(** X22. What the ledger holds for a quote of zero: with a configuration
    that is free of charge the handler binds [-0.0] as the amount of the
    transaction, and the REAL column gives back [0.0], which is another
    binary64 value (the sign bit differs); the balance is unchanged. *)
Theorem zero_quote_is_stored_unsigned :
  let out := create_prediction_sync (sample_request 50) "test-api-key-123"
               (sample_world "u1" (PhySoService.SRReturned sample_results))
               db_free_configuration in
  List.map Prediction.total_cost (predictions (snd out)) = [Some 0%float] /\
  List.map Transaction.amount (transactions (snd out)) = [0%float] /\
  List.map User.balance (users (snd out)) = [10.0%float] /\
  (- 0)%float <> 0%float.
Proof.
  cbv zeta. repeat split; try (vm_compute; reflexivity).
  intros H. apply (f_equal Prim2SF) in H. vm_compute in H. discriminate H.
Qed.

End Extras.

(* ===================================================================== *)
(** ** The credit account of the bot *)
(* ===================================================================== *)

Module BotFacts.
Import UserService BotStates.

Lemma deltas_of_app telegram_id log now tid delta new_balance :
  deltas_of telegram_id (log ++ [(now, tid, delta, new_balance)])
  = (deltas_of telegram_id log
     ++ (if String.eqb tid telegram_id then [delta] else []))%list.
Proof.
  unfold deltas_of. rewrite List.filter_app, List.map_app. simpl.
  destruct (String.eqb _ _); reflexivity.
Qed.

Lemma fold_sum_app (l1 l2 : list Z) :
  List.fold_right Z.add 0 (l1 ++ l2)
  = List.fold_right Z.add 0 l1 + List.fold_right Z.add 0 l2.
Proof. induction l1 as [|a l1 IH]; simpl; lia. Qed.

Lemma audited_update self now tid delta user user' :
  audited self ->
  users self !! tid = Some user ->
  credits user' = credits user + delta ->
  audited (mk (<[tid := user']> (users self))
              (credit_log self ++ [(now, tid, delta, credits user')])).
Proof.
  intros IH Hu Hc tid'. cbn [users credit_log].
  rewrite deltas_of_app.
  destruct (decide (tid = tid')) as [<-|Hne].
  - rewrite lookup_insert_eq, String.eqb_refl, fold_sum_app.
    specialize (IH tid). rewrite Hu in IH. simpl. lia.
  - rewrite lookup_insert_ne by exact Hne.
    destruct (String.eqb_spec tid tid'); [contradiction|].
    rewrite List.app_nil_r. apply IH.
Qed.

Lemma audited_reachable self : reachable self -> audited self.
Proof.
  induction 1 as [|self now tid username first_name Hreach IH
                  |self now tid amount Hreach IH
                  |self now tid amount Hreach IH].
  - intros tid. cbn [users credit_log]. rewrite lookup_empty. reflexivity.
  - unfold get_or_create_user, _get_user_internal.
    destruct (users self !! tid) as [u|] eqn:Hu; [exact IH|].
    intros tid'. cbn [snd create_user users credit_log].
    destruct (decide (tid = tid')) as [<-|Hne].
    + rewrite lookup_insert_eq. cbn [credits].
      specialize (IH tid). rewrite Hu in IH. rewrite IH. reflexivity.
    + rewrite lookup_insert_ne by exact Hne. apply IH.
  - unfold add_credits, _get_user_internal.
    destruct (users self !! tid) as [u|] eqn:Hu; [|exact IH].
    cbn [snd]. apply (audited_update self now tid amount u); auto.
  - unfold spend_credits, _get_user_internal.
    destruct (users self !! tid) as [u|] eqn:Hu; [|exact IH].
    destruct (credits u <? amount); [exact IH|].
    cbn [snd]. apply (audited_update self now tid (- amount) u); auto.
Qed.

(** X12. The credit log accounts for every credit: in every state the
    bot reaches from a first start, a user's credits are the default
    grant plus the sum of the deltas logged for that user, and the log
    holds no row of an unknown user (the log being the rows the service
    appended: a write the file system refuses is logged and skipped by
    the source, and is not modelled). *)
Theorem credits_match_credit_log self telegram_id :
  reachable self ->
  match users self !! telegram_id with
  | Some user =>
      credits user
      = DEFAULT_CREDITS
        + List.fold_right Z.add 0 (deltas_of telegram_id (credit_log self))
  | None => deltas_of telegram_id (credit_log self) = []
  end.
Proof. intros Hreach. apply audited_reachable. exact Hreach. Qed.

Lemma credits_match_credit_log_witness :
  match users bot_after_three_steps !! "42" with
  | Some user =>
      credits user
      = DEFAULT_CREDITS
        + List.fold_right Z.add 0
            (deltas_of "42" (credit_log bot_after_three_steps))
  | None => deltas_of "42" (credit_log bot_after_three_steps) = []
  end.
Proof.
  apply credits_match_credit_log.
  apply reachable_spend_credits, reachable_add_credits,
    reachable_get_or_create, reachable_first_start.
Defined.

(** X13. [get_or_create_user] creates at most once: after one call for a
    Telegram id, every further call (with whatever names) returns the
    stored user and changes nothing, so an account is never reset. *)
Theorem get_or_create_user_is_idempotent now telegram_id username
    first_name now' username' first_name' (self : t) :
  let first := get_or_create_user now telegram_id username first_name self in
  get_or_create_user now' telegram_id username' first_name' (snd first)
  = (fst first, snd first).
Proof.
  cbv zeta. unfold get_or_create_user, _get_user_internal.
  destruct (users self !! telegram_id) as [u|] eqn:Hu; cbn [fst snd].
  - rewrite Hu. reflexivity.
  - cbn [create_user fst snd users]. rewrite lookup_insert_eq. reflexivity.
Qed.

(** X14. A top-up and a charge of the same amount cancel: for a known
    user with non-negative credits, [add_credits n] followed by
    [spend_credits n] is accepted and leaves the credits where they were
    (one more prediction counted, two rows logged); other users are not
    touched. *)
Theorem add_then_spend_restores_credits now now' telegram_id amount
    (self : t) user :
  users self !! telegram_id = Some user ->
  0 <= credits user ->
  let self1 := snd (add_credits now telegram_id amount self) in
  let out := spend_credits now' telegram_id amount self1 in
  (exists user',
     fst out = Some user' /\
     users (snd out) !! telegram_id = Some user' /\
     credits user' = credits user /\
     total_predictions user' = total_predictions user + 1) /\
  (forall other, other <> telegram_id ->
                 users (snd out) !! other = users self !! other) /\
  credit_log (snd out)
  = (credit_log self
     ++ [(now, telegram_id, amount, credits user + amount);
         (now', telegram_id, - amount, credits user)])%list.
Proof.
  intros Hu Hpos. cbv zeta.
  unfold add_credits, spend_credits, _get_user_internal.
  rewrite Hu. cbn [snd users credit_log]. rewrite lookup_insert_eq.
  cbn [credits set_credits].
  destruct (Z.ltb_spec (credits user + amount) amount) as [Hlt|Hge]; [lia|].
  cbn [fst snd users credit_log credits set_credits set_total_predictions
       total_predictions].
  split; [|split].
  - eexists. split; [reflexivity|]. rewrite lookup_insert_eq.
    split; [reflexivity|]. cbn. split; lia.
  - intros other Hne. rewrite !lookup_insert_ne by auto. reflexivity.
  - rewrite <- List.app_assoc. cbn.
    replace (credits user + amount - amount) with (credits user) by lia.
    reflexivity.
Qed.

Lemma add_then_spend_restores_credits_witness :
  credit_log
    (snd (spend_credits 3 "42" 7
            (snd (add_credits 2 "42" 7
                    (snd (get_or_create_user 1 "42" None None (mk ∅ [])))))))
  = [(2, "42", 7, 107); (3, "42", -7, 100)].
Proof.
  refine (proj2 (proj2 (add_then_spend_restores_credits 2 3 "42" 7
                          (snd (get_or_create_user 1 "42" None None
                                                   (mk ∅ [])))
                          (mk_user_data "42" None None "User_42" 100 0 1 1
                                        "test-api-key-123") _ _))).
  - vm_compute. reflexivity.
  - simpl. lia.
Defined.

Lemma total_after_insert (m : gmap string user_data) k (u' : user_data) :
  map_fold (fun _ user acc => credits user + acc) 0 (<[k := u']> m)
  = map_fold (fun _ user acc => credits user + acc) 0 m
    - match m !! k with Some u => credits u | None => 0 end
    + credits u'.
Proof.
  assert (forall (m' : gmap string user_data) j1 j2 z1 z2 (y : Z),
            j1 <> j2 -> m' !! j1 = Some z1 -> m' !! j2 = Some z2 ->
            credits z1 + (credits z2 + y) = credits z2 + (credits z1 + y))
    as Hcomm by (intros; lia).
  rewrite <- (insert_delete_eq m k u').
  rewrite map_fold_insert_L; [|apply Hcomm|apply lookup_delete_eq].
  destruct (m !! k) as [u|] eqn:Hk.
  - rewrite (map_fold_delete_L _ 0 k u m); [lia|apply Hcomm|exact Hk].
  - rewrite delete_id by exact Hk. lia.
Qed.

(** X15. The pool of credits moves by exactly what one account moved: a
    top-up that is accepted adds [amount] to [get_total_credits], a
    charge that is accepted takes [amount] off it, and a refused one (an
    unknown user, too few credits) leaves it as it was. *)
Theorem total_credits_follow_the_account now telegram_id amount (self : t) :
  get_total_credits (snd (add_credits now telegram_id amount self))
  = get_total_credits self
    + match fst (add_credits now telegram_id amount self) with
      | Some _ => amount
      | None => 0
      end
  /\
  get_total_credits (snd (spend_credits now telegram_id amount self))
  = get_total_credits self
    - match fst (spend_credits now telegram_id amount self) with
      | Some _ => amount
      | None => 0
      end.
Proof.
  unfold get_total_credits, add_credits, spend_credits, _get_user_internal.
  destruct (users self !! telegram_id) as [u|] eqn:Hu; cbn [fst snd users].
  - split.
    + rewrite total_after_insert, Hu. cbn. lia.
    + destruct (credits u <? amount); cbn [fst snd users]; [lia|].
      rewrite total_after_insert, Hu. cbn. lia.
  - split; lia.
Qed.

(** X21. No double spend in the bot: of two charges on one account, made
    one after the other in either order, whose amounts together exceed
    the credits, at most one is accepted. *)
Theorem two_charges_beyond_credits_not_both_accepted now now' telegram_id
    a b (self : t) user :
  users self !! telegram_id = Some user ->
  credits user < a + b ->
  let first := spend_credits now telegram_id a self in
  let second := spend_credits now' telegram_id b (snd first) in
  fst first = None \/ fst second = None.
Proof.
  intros Hu Hlt. cbv zeta.
  assert (spend_credits now telegram_id a self = (None, self) \/
          exists user',
            spend_credits now telegram_id a self
            = (Some user',
               mk (<[telegram_id := user']> (users self))
                  (credit_log self
                   ++ [(now, telegram_id, - a, credits user')])) /\
            credits user' = credits user - a) as [E|(user' & E & Hc)].
  { unfold spend_credits, _get_user_internal. rewrite Hu.
    destruct (credits user <? a); [left; reflexivity|].
    right. eexists. split; reflexivity. }
  - left. rewrite E. reflexivity.
  - right. rewrite E. cbn [snd].
    unfold spend_credits, _get_user_internal. cbn [users].
    rewrite lookup_insert_eq.
    destruct (Z.ltb_spec (credits user') b) as [Hb|Hb]; [reflexivity|lia].
Qed.

Lemma two_charges_beyond_credits_not_both_accepted_witness :
  let self := snd (get_or_create_user 1 "42" None None (mk ∅ [])) in
  fst (spend_credits 2 "42" 60 self) = None \/
  fst (spend_credits 3 "42" 60 (snd (spend_credits 2 "42" 60 self))) = None.
Proof.
  cbv zeta.
  refine (two_charges_beyond_credits_not_both_accepted 2 3 "42" 60 60
            (snd (get_or_create_user 1 "42" None None (mk ∅ [])))
            (mk_user_data "42" None None "User_42" 100 0 1 1
                          "test-api-key-123") _ _).
  - vm_compute. reflexivity.
  - simpl. lia.
Defined.

End BotFacts.

(* ===================================================================== *)
(** ** Facts of [make_json_serializable] *)
(* ===================================================================== *)

Module JsonFacts.
Import Json JsonShape.

Section value_induction.
Variable P : value -> Prop.
Hypothesis HDict : forall items,
  List.Forall (fun kv => P (snd kv)) items -> P (Dict items).
Hypothesis HList : forall items, List.Forall P items -> P (List_ items).
Hypothesis HTuple : forall items, List.Forall P items -> P (Tuple items).
Hypothesis HNpGeneric : forall item, P item -> P (NpGeneric item).
Hypothesis HNpArray : forall tolist, P tolist -> P (NpArray tolist).
Hypothesis HScalar : forall s, P (Scalar s).
Hypothesis HNone : P None_.
Hypothesis HObject : forall str, P (Object str).

Fixpoint value_induction (v : value) : P v :=
  match v with
  | Dict items =>
      HDict items
        ((fix go (l : list (value * value))
            : List.Forall (fun kv => P (snd kv)) l :=
            match l with
            | [] => @List.Forall_nil _ _
            | (k, x) :: l' =>
                @List.Forall_cons _ (fun kv => P (snd kv)) (k, x) l'
                                  (value_induction x) (go l')
            end) items)
  | List_ items =>
      HList items
        ((fix go (l : list value) : List.Forall P l :=
            match l with
            | [] => @List.Forall_nil _ _
            | x :: l' =>
                @List.Forall_cons _ P x l' (value_induction x) (go l')
            end) items)
  | Tuple items =>
      HTuple items
        ((fix go (l : list value) : List.Forall P l :=
            match l with
            | [] => @List.Forall_nil _ _
            | x :: l' =>
                @List.Forall_cons _ P x l' (value_induction x) (go l')
            end) items)
  | NpGeneric item => HNpGeneric item (value_induction item)
  | NpArray tolist => HNpArray tolist (value_induction tolist)
  | Scalar s => HScalar s
  | None_ => HNone
  | Object str => HObject str
  end.
End value_induction.

Lemma forallb_map_forall {A B} (f : A -> B) (p : B -> bool) (l : list A) :
  List.Forall (fun x => p (f x) = true) l ->
  List.forallb p (List.map f l) = true.
Proof.
  induction 1 as [|x l Hx Hl IH]; [reflexivity|].
  simpl. rewrite Hx, IH. reflexivity.
Qed.

Lemma map_fixed {A} (f : A -> A) (l : list A) :
  List.Forall (fun x => f x = x) l -> List.map f l = l.
Proof.
  induction 1 as [|x l Hx Hl IH]; [reflexivity|].
  simpl. rewrite Hx, IH. reflexivity.
Qed.

Lemma service_native (v : value) :
  numpy_plain v = true ->
  json_native (PhySoServiceJson.make_json_serializable v) = true.
Proof.
  induction v as [items IH|items IH|items IH|item _|a _|s| |str]
    using value_induction; simpl; auto.
  - intros Hp. rewrite List.forallb_forall in Hp.
    rewrite List.forallb_forall. intros kv' [kv [<- Hin]]%List.in_map_iff.
    rewrite List.Forall_forall in IH. specialize (IH kv Hin).
    specialize (Hp kv Hin). destruct kv as [k x]. simpl in *.
    apply andb_prop in Hp as [-> Hp]. simpl. auto.
  - intros Hp. apply forallb_map_forall.
    rewrite List.forallb_forall in Hp. rewrite List.Forall_forall in *.
    auto.
  - intros Hp. apply forallb_map_forall.
    rewrite List.forallb_forall in Hp. rewrite List.Forall_forall in *.
    auto.
Qed.

Lemma native_fixed (v : value) :
  json_native v = true -> PhySoServiceJson.make_json_serializable v = v.
Proof.
  induction v as [items IH|items IH|items IH|item _|a _|s| |str]
    using value_induction; simpl; try discriminate; auto.
  - intros Hn. f_equal. rewrite List.forallb_forall in Hn.
    rewrite List.Forall_forall in IH.
    rewrite <- (List.map_id items) at 2. apply List.map_ext_in.
    intros [k x] Hin. f_equal. apply (IH (k, x) Hin).
    specialize (Hn (k, x) Hin). simpl in Hn.
    apply andb_prop in Hn as [_ Hn]. exact Hn.
  - intros Hn. f_equal. apply map_fixed.
    rewrite List.forallb_forall in Hn. rewrite List.Forall_forall in *.
    auto.
  - intros Hn. f_equal. apply map_fixed.
    rewrite List.forallb_forall in Hn. rewrite List.Forall_forall in *.
    auto.
Qed.

(** X16. When what numpy hands back ([item()], [tolist()]) is plain
    Python data and the keys of the dictionaries are keys of JSON, what
    [make_json_serializable] of the service returns is made of
    dictionaries, lists, tuples, Python scalars and [None] only (no numpy
    value, no foreign object is left at any depth), and a second pass
    changes nothing. *)
Theorem make_json_serializable_is_native_and_idempotent (obj : value) :
  numpy_plain obj = true ->
  json_native (PhySoServiceJson.make_json_serializable obj) = true /\
  PhySoServiceJson.make_json_serializable
    (PhySoServiceJson.make_json_serializable obj)
  = PhySoServiceJson.make_json_serializable obj.
Proof.
  intros Hp. split; [apply service_native, Hp|].
  apply native_fixed, service_native, Hp.
Qed.

Lemma make_json_serializable_is_native_and_idempotent_witness :
  json_native (PhySoServiceJson.make_json_serializable sample_metadata)
  = true /\
  PhySoServiceJson.make_json_serializable
    (PhySoServiceJson.make_json_serializable sample_metadata)
  = PhySoServiceJson.make_json_serializable sample_metadata.
Proof.
  apply (make_json_serializable_is_native_and_idempotent sample_metadata).
  reflexivity.
Defined.

(** X17. The two copies of [make_json_serializable] differ on [None]
    only: the copy in the repositories, which [update] applies to the
    metadata, returns what the copy in the service returns once every
    [None] the function visits (a value of a dictionary, an item of a
    list or a tuple, at any depth) is replaced by the string "None"; on
    input with no [None] there the two agree. What numpy hands back is
    not visited: a [None] in it is kept by both. *)
Theorem repository_copy_turns_none_into_text (obj : value) :
  SQLiteJson.make_json_serializable obj
  = PhySoServiceJson.make_json_serializable (none_as_text obj) /\
  (visits_no_none obj = true ->
   SQLiteJson.make_json_serializable obj
   = PhySoServiceJson.make_json_serializable obj) /\
  SQLiteJson.make_json_serializable (NpArray (List_ [None_]))
  = List_ [None_].
Proof.
  split; [|split; [|reflexivity]].
  - induction obj as [items IH|items IH|items IH|item _|a _|s| |str]
      using value_induction; simpl; auto.
    + f_equal. rewrite List.map_map. apply List.map_ext_in.
      rewrite List.Forall_forall in IH. intros [k x] Hin.
      f_equal. apply (IH (k, x) Hin).
    + f_equal. rewrite List.map_map. apply List.map_ext_in.
      rewrite List.Forall_forall in IH. exact IH.
    + f_equal. rewrite List.map_map. apply List.map_ext_in.
      rewrite List.Forall_forall in IH. exact IH.
  - induction obj as [items IH|items IH|items IH|item _|a _|s| |str]
      using value_induction; simpl; try discriminate; auto.
    + intros Hn. f_equal. rewrite List.forallb_forall in Hn.
      rewrite List.Forall_forall in IH. apply List.map_ext_in.
      intros [k x] Hin. f_equal. apply (IH (k, x) Hin), (Hn (k, x) Hin).
    + intros Hn. f_equal. rewrite List.forallb_forall in Hn.
      rewrite List.Forall_forall in IH. apply List.map_ext_in. auto.
    + intros Hn. f_equal. rewrite List.forallb_forall in Hn.
      rewrite List.Forall_forall in IH. apply List.map_ext_in. auto.
Qed.

End JsonFacts.

(* ===================================================================== *)

Module ListingFacts.
Import SQLiteListing.

Lemma created_leb_total a b : created_leb a b = false -> created_leb b a = true.
Proof.
  destruct a as [x|], b as [y|]; simpl; try discriminate; auto.
  intros H. apply Z.leb_gt in H. apply Z.leb_le. lia.
Qed.

Lemma created_leb_trans a b c :
  created_leb a b = true -> created_leb b c = true -> created_leb a c = true.
Proof.
  destruct a as [x|], b as [y|], c as [z|]; simpl; try discriminate; auto.
  rewrite !Z.leb_le. lia.
Qed.

Lemma insert_desc_perm {A} (key : A -> option datetime) x (l : list A) :
  Permutation (insert_desc key x l) (x :: l).
Proof.
  induction l as [|y l IH]; simpl; [reflexivity|].
  destruct (created_leb (key y) (key x)); [reflexivity|].
  rewrite IH. apply perm_swap.
Qed.

Lemma order_by_desc_perm {A} (key : A -> option datetime) (l : list A) :
  Permutation (order_by_desc key l) l.
Proof.
  induction l as [|x l IH]; simpl; [reflexivity|].
  rewrite insert_desc_perm. constructor. exact IH.
Qed.

Lemma insert_desc_sorted {A} (key : A -> option datetime) x (l : list A) :
  StronglySorted (newer_first key) l ->
  StronglySorted (newer_first key) (insert_desc key x l).
Proof.
  induction 1 as [|y l Hl IH Hy]; simpl.
  - constructor; constructor.
  - destruct (created_leb (key y) (key x)) eqn:Hyx.
    + constructor; [constructor; assumption|].
      constructor; [exact Hyx|].
      rewrite List.Forall_forall in *. intros z Hz.
      unfold newer_first in *. eapply created_leb_trans; eauto.
    + constructor; [exact IH|].
      rewrite List.Forall_forall in *. intros z Hz.
      apply (Permutation_in _ (insert_desc_perm key x l)) in Hz.
      destruct Hz as [<-|Hz]; [|auto].
      unfold newer_first. apply created_leb_total. exact Hyx.
Qed.

Lemma order_by_desc_sorted {A} (key : A -> option datetime) (l : list A) :
  StronglySorted (newer_first key) (order_by_desc key l).
Proof.
  induction l as [|x l IH]; simpl; [constructor|].
  apply insert_desc_sorted. exact IH.
Qed.

Lemma map_rows_ok rows predictions :
  map_rows rows = Ok predictions ->
  predictions = rows /\
  List.Forall (fun r => Prediction.stop_reward r <> None) rows.
Proof.
  revert predictions. induction rows as [|r rows IH]; simpl.
  - intros ? [= <-]. split; [reflexivity|constructor].
  - unfold SQLitePredictionRepository._map_row_to_prediction.
    destruct (Prediction.stop_reward r) eqn:Hr; [|discriminate].
    destruct (map_rows rows) as [l|e]; [|discriminate].
    intros ? [= <-]. destruct (IH l eq_refl) as [-> Hall].
    split; [reflexivity|]. constructor; [congruence|exact Hall].
Qed.

Lemma map_rows_raise rows e :
  map_rows rows = Raise e ->
  e = ValidationError "stop_reward" /\
  exists r, In r rows /\ Prediction.stop_reward r = None.
Proof.
  induction rows as [|r rows IH]; simpl; [discriminate|].
  unfold SQLitePredictionRepository._map_row_to_prediction.
  destruct (Prediction.stop_reward r) eqn:Hr.
  - destruct (map_rows rows) as [l|e']; [discriminate|].
    intros [= <-]. destruct (IH eq_refl) as [-> [r' [Hin Hr']]].
    split; [reflexivity|]. exists r'. split; [right; exact Hin|exact Hr'].
  - intros [= <-]. split; [reflexivity|].
    exists r. split; [left; reflexivity|exact Hr].
Qed.

Lemma in_rows_of_user r user_id db :
  In r (rows_of_user user_id db) <->
  In r (predictions db) /\ Prediction.user_id r = Some user_id.
Proof.
  unfold rows_of_user. rewrite List.filter_In. split; intros [Hin Hu].
  - split; [exact Hin|]. destruct (Prediction.user_id r) as [k|];
      [|discriminate]. simpl in Hu. apply Z.eqb_eq in Hu. congruence.
  - split; [exact Hin|]. rewrite Hu. simpl. apply Z.eqb_refl.
Qed.

(** X18. The listing endpoint writes nothing. When its handler returns,
    the key is that of the user whose id the path names and the list
    holds the stored predictions of that user, each of them once and no
    other row, the most recent first; none of them has NULL for
    [stop_reward]. When it raises, it is 401 or 403 for the key,
    [ValidationError] because a stored prediction of the user has NULL
    for [stop_reward] (a NaN was stored), or [OverflowError] because the
    id is beyond 64 bits. *)
Theorem get_user_predictions_lists_own_rows_newest_first (user_id : Z)
    (x_api_key : string) (db : Store) :
  snd (get_user_predictions user_id x_api_key db) = db /\
  match fst (get_user_predictions user_id x_api_key db) with
  | Ok rows =>
      Permutation rows
        (List.filter (fun r => option_Z_eqb (Prediction.user_id r)
                                            (Some user_id))
                     (predictions db)) /\
      StronglySorted (newer_first Prediction.created_at) rows /\
      (forall r, In r rows <->
                 In r (predictions db) /\
                 Prediction.user_id r = Some user_id) /\
      (forall r, In r rows -> Prediction.stop_reward r <> None) /\
      exists u, List.find (fun u => option_string_eqb (User.api_key u)
                                                      x_api_key) (users db)
                = Some u /\ User.id u = user_id
  | Raise e =>
      e = HTTPException 401 InvalidAPIKey \/
      e = HTTPException 403 NoAccessToPredictions \/
      (e = ValidationError "stop_reward" /\
       exists r, In r (predictions db) /\
                 Prediction.user_id r = Some user_id /\
                 Prediction.stop_reward r = None) \/
      (e = OverflowError "Python int too large to convert to SQLite INTEGER"
       /\ fits_sqlite_integer user_id = false)
  end.
Proof.
  unfold get_user_predictions, predictions_by_user,
    SQLiteUserRepository.get_by_api_key, statement, bind, get, ret, raise,
    lift.
  cbn [fst snd List.forallb fits_bound].
  destruct (List.find _ (users db)) as [u|];
    [|split; [reflexivity|left; reflexivity]].
  destruct (Z.eqb_spec (User.id u) user_id) as [Hid|Hid];
    cbn [negb fst snd]; [|split; [reflexivity|right; left; reflexivity]].
  destruct (fits_sqlite_integer user_id) eqn:Hfits; cbn [andb negb fst snd];
    [|split; [reflexivity|right; right; right; split; reflexivity]].
  destruct (map_rows _) as [rows|e] eqn:Hmap; cbn [fst snd].
  - split; [reflexivity|].
    apply map_rows_ok in Hmap as [-> Hall].
    split; [apply order_by_desc_perm|].
    split; [apply order_by_desc_sorted|].
    split; [|split; [|eauto]].
    + intros r. rewrite <- in_rows_of_user. split; intros Hr.
      * apply (Permutation_in _ (order_by_desc_perm _ _)) in Hr. exact Hr.
      * apply (Permutation_in _ (Permutation_sym (order_by_desc_perm _ _))).
        exact Hr.
    + rewrite List.Forall_forall in Hall. exact Hall.
  - split; [reflexivity|].
    apply map_rows_raise in Hmap as [-> [r [Hin Hr]]].
    right; right; left. split; [reflexivity|]. exists r.
    apply (Permutation_in _ (order_by_desc_perm _ _)) in Hin.
    apply in_rows_of_user in Hin as [Hin Hu]. auto.
Qed.

(** X19. The history of an account ([list_by_user] of the transactions)
    is the ledger of that account and nothing else, the most recent
    entry first, and reading it writes nothing; an id beyond 64 bits
    raises [OverflowError]. *)
Theorem transactions_by_user_lists_ledger_newest_first (user_id : Z)
    (db : Store) :
  if fits_sqlite_integer user_id
  then
    exists rows,
      transactions_by_user user_id db = (Ok rows, db) /\
      Permutation rows (SQLiteTransactionRepository.rows_of_user user_id db)
      /\
      StronglySorted (newer_first Transaction.created_at) rows /\
      (forall t, In t rows <->
                 In t (transactions db) /\
                 Transaction.user_id t = Some user_id)
  else
    transactions_by_user user_id db
    = (Raise (OverflowError
                "Python int too large to convert to SQLite INTEGER"), db).
Proof.
  unfold transactions_by_user, statement. cbn [List.forallb fits_bound].
  destruct (fits_sqlite_integer user_id); cbn [andb negb]; [|reflexivity].
  eexists. split; [reflexivity|].
  split; [apply order_by_desc_perm|].
  split; [apply order_by_desc_sorted|].
  intros t. split.
  - intros Hr. apply (Permutation_in _ (order_by_desc_perm _ _)) in Hr.
    apply List.filter_In in Hr as [Hin Huser]. split; [exact Hin|].
    destruct (Transaction.user_id t) as [k|]; [|discriminate].
    simpl in Huser. apply Z.eqb_eq in Huser. congruence.
  - intros [Hin Huser].
    apply (Permutation_in _ (Permutation_sym (order_by_desc_perm _ _))).
    apply List.filter_In. split; [exact Hin|].
    rewrite Huser. simpl. apply Z.eqb_refl.
Qed.

End ListingFacts.

(* ===================================================================== *)
(** ** Facts of [_prepare_physo_params] *)
(* ===================================================================== *)

Module PhySoParamsFacts.
Import PhySoParams.

Lemma default_names_distinct (n : nat) :
  List.NoDup (List.map (fun i : nat => "x" ++ pretty i) (List.seq 0 n)).
Proof.
  apply List.NoDup_map_NoDup_ForallPairs; [|apply List.seq_NoDup].
  intros i j _ _ H. injection H as H. exact (inj pretty _ _ H).
Qed.

(** X20. Whatever the request asks for, the engine is run with
    [parallel_mode = False] and a non-empty list of operations (the ten
    default operations when the request names none); when the request
    names no input variables the features are called x0, x1, ..., one
    distinct name per row of [X]; and a configuration that is not
    config0, config1 or config2 is not passed on. *)
Theorem prepared_params_shape (X : list (list float)) (y : list float)
    (prediction_data : prediction_data) :
  let p := _prepare_physo_params X y prediction_data in
  p_parallel_mode p = false /\
  p_op_names p <> [] /\
  (nonempty (x_names prediction_data) = None ->
   List.length (X_names p) = List.length X /\ List.NoDup (X_names p)) /\
  (p_run_config p = None <->
   run_config prediction_data <> "config0" /\
   run_config prediction_data <> "config1" /\
   run_config prediction_data <> "config2").
Proof.
  cbv zeta. unfold _prepare_physo_params.
  cbn [p_parallel_mode p_op_names X_names p_run_config].
  split; [reflexivity|]. split; [|split].
  - destruct (op_names prediction_data) as [[|a l]|]; discriminate.
  - intros ->. split; [|apply default_names_distinct].
    rewrite List.length_map, List.length_seq. reflexivity.
  - unfold configs.
    destruct (String.eqb_spec (run_config prediction_data) "config0").
    { split; [discriminate|tauto]. }
    destruct (String.eqb_spec (run_config prediction_data) "config1").
    { split; [discriminate|tauto]. }
    destruct (String.eqb_spec (run_config prediction_data) "config2").
    { split; [discriminate|tauto]. }
    tauto.
Qed.

End PhySoParamsFacts.
